(** * Damage cost estimation: scripts/estimate_damage_python.py

  A shallow embedding of the estimation pipeline
  (resolver, price book selector, severity band matcher, cost line
  calculator, aggregator) and of the SQL queries it sends to the data
  store, followed by the properties of the specification.

  Conventions of the embedding.
  - The data store is a record of tables; a table is the list of its rows
    in the order the store returns them ([fetchall]), [fetchone] is the
    head of that list.
  - Numeric columns and the measured size are rationals [Q], each standing
    for the double nearest to it that Python holds.  Wherever the script
    compares numbers, in the severity band matcher, the model computes on
    these doubles with the IEEE 754 binary64 operations ([F64]), rounding
    as Python does; the values that are only reported (base size,
    estimates, totals) are carried exactly.
  - A Python exception is a value of [exn]; a function that may raise
    returns [result A]. *)

From Stdlib Require Import ZArith QArith Qabs List String Ascii Bool Lia Lqa.
From Stdlib Require Import Permutation Sorted.
From Stdlib Require Import Floats.SpecFloat.
Import ListNotations.

(** ** Python layer: exceptions and the few built-ins the script uses *)

Module Py.

(** The [ValueError]s of the script, one constructor per [raise] site,
    carrying what the message interpolates. *)
Inductive value_error : Type :=
| DamageCodeNotFound (damage_code : string)
    (* "Damage type code not found: {damage_code}" *)
| CodeOrDescriptionRequired
    (* "Either --damage-code or --description must be provided." *)
| ModelReturnedUnknownCode (code_guess : string)
    (* "Model returned an unknown code: {code_guess}" *)
| NoPriceBookYears
    (* "No price book years found for the selected damage type." *)
| PriceBookNotFound (price_year : Z)
    (* "Price book for year {price_year} not found." *)
| UnitNotFound (unit_symbol : string)
    (* "Unit not found: {unit_symbol}" *)
| NoSeverityBands
    (* "No severity bands configured for this damage type." *)
| NoCostsFound.
    (* "No costs found for the selected type/year/severity." *)

Inductive exn : Type :=
| ValueError (e : value_error)
| ImportError        (* openai package not installed *)
| EnvironmentError   (* OPENAI_API_KEY missing *)
| IndexError         (* list index out of range *)
| AssertionError.

Definition result (A : Type) : Type := (exn + A)%type.

Definition raise {A} (e : exn) : result A := inl e.
Definition ret {A} (a : A) : result A := inr a.
Definition bind {A B} (m : result A) (k : A -> result B) : result B :=
  match m with
  | inl e => inl e
  | inr a => k a
  end.

(** Truthiness of an optional string: [None] and [""] are falsy. *)
Definition truthy (s : option string) : bool :=
  match s with
  | Some (String _ _) => true
  | _ => false
  end.

(** [str.isspace] on one character, for code points below 256. *)
Definition isspace (c : ascii) : bool :=
  let n := nat_of_ascii c in
  ((9 <=? n) && (n <=? 13) || (28 <=? n) && (n <=? 32)
   || (n =? 133) || (n =? 160))%nat.

Fixpoint lstrip (s : string) : string :=
  match s with
  | String c s' => if isspace c then lstrip s' else s
  | EmptyString => EmptyString
  end.

Fixpoint rev_string (acc s : string) : string :=
  match s with
  | String c s' => rev_string (String c acc) s'
  | EmptyString => acc
  end.

Definition rstrip (s : string) : string :=
  rev_string EmptyString (lstrip (rev_string EmptyString s)).

(** [s.strip()] *)
Definition strip (s : string) : string := rstrip (lstrip s).

(** [s.split()]: maximal runs of non-whitespace characters; [tok] is the
    run being read, most recent character first. *)
Fixpoint split_from (tok : string) (s : string) : list string :=
  match s with
  | EmptyString =>
      match tok with
      | EmptyString => []
      | _ => [rev_string EmptyString tok]
      end
  | String c s' =>
      if isspace c then
        match tok with
        | EmptyString => split_from EmptyString s'
        | _ => rev_string EmptyString tok :: split_from EmptyString s'
        end
      else split_from (String c tok) s'
  end.

Definition split (s : string) : list string := split_from EmptyString s.

(** [xs[0]] *)
Definition item0 {A} (xs : list A) : result A :=
  match xs with
  | x :: _ => ret x
  | [] => raise IndexError
  end.

(** [x or 0] on an optional number: [None] and zero are falsy. *)
Definition or0 (x : option Q) : Q :=
  match x with
  | Some v => if Qeq_bool v 0 then 0 else v
  | None => 0
  end.

(** [sum(xs)]: left to right from the integer 0. *)
Definition sum (xs : list Q) : Q := fold_left Qplus xs 0.

End Py.

Notation "x <- m ;; k" := (Py.bind m (fun x => k))
(at level 61, m at next level, right associativity).
Notation "' pat <- m ;; k" := (Py.bind m (fun x => match x with pat => k end))
(at level 61, pat pattern, m at next level, right associativity).

(** ** Python floats: IEEE 754 binary64 *)

Module F64.

Definition float : Type := spec_float.

Definition prec : Z := 53.
Definition emax : Z := 1024.

Definition mul (x y : float) : float := SFmul prec emax x y.
Definition add (x y : float) : float := SFadd prec emax x y.
Definition sub (x y : float) : float := SFsub prec emax x y.
Definition div (x y : float) : float := SFdiv prec emax x y.
Definition abs (x : float) : float := SFabs x.

(** [x < y], [x <= y], [x == y]: false as soon as one side is NaN. *)
Definition ltb (x y : float) : bool := SFltb x y.
Definition leb (x y : float) : bool := SFleb x y.
Definition eqb (x y : float) : bool := SFeqb x y.

Definition is_nan (x : float) : bool :=
  match x with
  | S754_nan => true
  | _ => false
  end.

(** [float(z)] for an integer: the nearest double, ties to even. *)
Definition of_Z (z : Z) : float := binary_normalize prec emax z 0 false.

(** The double nearest to a rational (ties to even): the correctly rounded
    quotient of its numerator by its denominator. *)
Definition of_Q (q : Q) : float :=
  match Qnum q with
  | Z0 => S754_zero false
  | Zpos n => div (S754_finite false n 0) (S754_finite false (Qden q) 0)
  | Zneg n => div (S754_finite true n 0) (S754_finite false (Qden q) 0)
  end.

End F64.

(** ** The data store *)

Inductive Lang : Type := en | nl.   (* argparse: choices=["nl", "en"] *)

Module DamageType.
Record t : Type := Build
  { damage_type_id : Z; code_en : string; code_nl : string;
    name_en : string; name_nl : string }.
End DamageType.

Module DamageTypeKeyword.
Record t : Type := Build { damage_type_id : Z; keyword_text : string }.
End DamageTypeKeyword.

(** Rows of the view [Damage.vActivityCostFull], with the columns the script
  reads. *)
Module vActivityCostFull.
Record t : Type := Build
  { damage_type_code_en : string; damage_type_code_nl : string;
    price_year : option Z }.
End vActivityCostFull.

Module PriceBookVersion.
Record t : Type := Build { price_book_id : Z; year_label : Z }.
End PriceBookVersion.

Module Unit.
Record t : Type := Build
  { unit_id : Z; symbol : string; conversion_to_base : Q;
    base_symbol : option string }.
End Unit.

Module SeverityBand.
Record t : Type := Build
  { severity_band_id : Z; damage_type_id : Z; band_label : string;
    range_min : Q; range_max : Q; unit_id : Z }.
End SeverityBand.

Module DamageTypeActivity.
Record t : Type := Build
  { damage_type_id : Z; activity_id : Z; sequence_order : Z;
    is_required : bool }.
End DamageTypeActivity.

Module Activity.
Record t : Type := Build
  { activity_id : Z; code_en : string; code_nl : string;
    name_en : string; name_nl : string }.
End Activity.

Module ActivityCost.
Record t : Type := Build
  { activity_id : Z; price_book_id : Z; severity_band_id : option Z;
    labor_unit_cost : option Q; labor_cost_min : option Q;
    labor_cost_max : option Q;
    material_unit_cost : option Q; material_cost_min : option Q;
    material_cost_max : option Q;
    labor_unit_id : option Z; material_unit_id : option Z }.
End ActivityCost.

Record Store : Type := mkStore
{ tDamageType : list DamageType.t;
  tDamageTypeKeyword : list DamageTypeKeyword.t;
  tActivityCostFull : list vActivityCostFull.t;
  tPriceBookVersion : list PriceBookVersion.t;
  tUnit : list Unit.t;
  tSeverityBand : list SeverityBand.t;
  tDamageTypeActivity : list DamageTypeActivity.t;
  tActivity : list Activity.t;
  tActivityCost : list ActivityCost.t }.

Module Sql.

(** Modelled from the spec: the collation of the store's string columns,
    which the migration scripts declare.
    The specification says codes match "case-sensitive exact", so [=] on
    strings is equality of the character sequences. *)
Definition str_eq (a b : string) : bool := String.eqb a b.

(** Modelled from the spec: the same collation in ORDER BY ("ordered by
    sequence order then code"). *)
Definition str_leb (a b : string) : bool := String.leb a b.

(** [x = ?] where the column is nullable: NULL never matches. *)
Definition opt_eq (x : option Z) (p : Z) : bool :=
  match x with
  | Some v => Z.eqb v p
  | None => false
  end.

(** [CASE WHEN ?='en' THEN a ELSE b END] *)
Definition by_language {A} (language : Lang) (a b : A) : A :=
  match language with
  | en => a
  | nl => b
  end.

(** [t LEFT JOIN u ON cond]: the matching rows of [u], or one NULL row. *)
Definition left_join {A} (cond : A -> bool) (u : list A) : list (option A) :=
  match filter cond u with
  | [] => [None]
  | rows => map Some rows
  end.

(** [cursor.fetchone()] *)
Definition fetchone {A} (rows : list A) : option A := hd_error rows.

(** [MAX(col)]: the greatest non-NULL value, NULL when there is none. *)
Definition max_opt (acc : option Z) (x : option Z) : option Z :=
  match acc, x with
  | Some a, Some v => Some (Z.max a v)
  | None, v => v
  | a, None => a
  end.
Definition MAX (xs : list (option Z)) : option Z := fold_left max_opt xs None.

(** ORDER BY with a "less or equal" on rows: insertion sort. *)
Fixpoint insert_by {A} (le : A -> A -> bool) (x : A) (l : list A) : list A :=
  match l with
  | [] => [x]
  | y :: l' => if le x y then x :: l else y :: insert_by le x l'
  end.
Fixpoint order_by {A} (le : A -> A -> bool) (l : list A) : list A :=
  match l with
  | [] => []
  | x :: l' => insert_by le x (order_by le l')
  end.

End Sql.


(** ** Rows the queries return and the values the script builds *)

(** A row of the severity band query of [pick_severity_band]. *)
Module BandRow.
Record t : Type := Build
  { severity_band_id : Z; band_label : string; range_min : Q; range_max : Q;
    severity_unit : string; conv : Q }.
End BandRow.

(** The [band_info] dictionary. *)
Module BandInfo.
Record t : Type := Build
  { severity_band_id : Z; band_label : string; range_min : Q; range_max : Q;
    severity_unit : string }.
End BandInfo.

(** A row of the query of [fetch_cost_rows]. *)
Module CostRow.
Record t : Type := Build
  { activity_id : Z; activity_code : string; activity_name : string;
    sequence_order : Z; is_required : bool;
    labor_unit_cost : option Q; labor_cost_min : option Q;
    labor_cost_max : option Q;
    material_unit_cost : option Q; material_cost_min : option Q;
    material_cost_max : option Q;
    labor_unit : option string; material_unit : option string }.
End CostRow.

(** A dictionary appended to [results] by [estimate_costs]. *)
Module EstimateLine.
Record t : Type := Build
  { activity_code : string; activity_name : string; is_required : bool;
    sequence_order : Z;
    labor_unit : option string; material_unit : option string;
    labor_cost_min : option Q; labor_cost_max : option Q;
    material_cost_min : option Q; material_cost_max : option Q;
    labor_unit_cost : option Q; material_unit_cost : option Q;
    estimated_labor : option Q; estimated_material : option Q }.
End EstimateLine.

(** What [main] prints on success. *)
Module Report.
Record t : Type := Build
  { code_used : string; language : Lang; price_year : Z;
    band_info : BandInfo.t; size : Q; unit : string; size_in_base : Q;
    lines : list EstimateLine.t;
    total_labor : Q; total_material : Q; grand_total : Q }.
End Report.

(** The command line, after [parse_args]. *)
Module Args.
Record t : Type := Build
  { language : Lang; damage_code : option string;
    description : option string; size : Q; unit : string;
    price_year : option Z; openai_model : string }.
End Args.

(** What the script reads from its process environment.  [chat_completion]
    is the content of the first choice of the chat completion, as a function
    of everything the prompt is built from: the model, the language, the
    description and the store the candidates are read from. *)
Record Env : Type := mkEnv
{ openai_installed : bool;
  OPENAI_API_KEY : option string;
  chat_completion : string -> Lang -> string -> Store -> string }.

(** ** The pipeline *)

(** SELECT damage_type_id, CASE ... END AS code_used FROM Damage.DamageType
    WHERE code_en = ? OR code_nl = ? *)
Definition select_damage_type (st : Store) (language : Lang) (code : string)
  : list (Z * string) :=
  map (fun d => (DamageType.damage_type_id d,
                 Sql.by_language language (DamageType.code_en d)
                                          (DamageType.code_nl d)))
      (filter (fun d => Sql.str_eq (DamageType.code_en d) code
                        || Sql.str_eq (DamageType.code_nl d) code)
              (tDamageType st)).

Definition fetch_damage_type_code (st : Store) (env : Env) (language : Lang)
    (damage_code description : option string) (model : string)
  : Py.result (Z * string) :=
  match damage_code with
  | Some (String _ _ as damage_code) =>
      match Sql.fetchone (select_damage_type st language damage_code) with
      | None => Py.raise (Py.ValueError (Py.DamageCodeNotFound damage_code))
      | Some row => Py.ret row
      end
  | _ =>
      match description with
      | Some (String _ _ as description) =>
          if negb (openai_installed env) then Py.raise Py.ImportError
          else if negb (Py.truthy (OPENAI_API_KEY env))
          then Py.raise Py.EnvironmentError
          else
            let content := chat_completion env model language description st in
            code_guess <- Py.item0 (Py.split (Py.strip content)) ;;
            match Sql.fetchone (select_damage_type st language code_guess) with
            | None =>
                Py.raise (Py.ValueError (Py.ModelReturnedUnknownCode code_guess))
            | Some row => Py.ret row
            end
      | _ => Py.raise (Py.ValueError Py.CodeOrDescriptionRequired)
      end
  end.

(** SELECT MAX(price_year) AS max_year FROM Damage.vActivityCostFull
    WHERE (CASE ... END) = ? *)
Definition select_max_year (st : Store) (language : Lang) (damage_code : string)
  : option Z :=
  Sql.MAX
    (map vActivityCostFull.price_year
       (filter (fun v =>
                  Sql.str_eq
                    (Sql.by_language language
                       (vActivityCostFull.damage_type_code_en v)
                       (vActivityCostFull.damage_type_code_nl v))
                    damage_code)
               (tActivityCostFull st))).

(** SELECT price_book_id FROM Damage.PriceBookVersion WHERE year_label = ? *)
Definition select_price_book (st : Store) (price_year : Z) : list Z :=
  map PriceBookVersion.price_book_id
      (filter (fun p => Z.eqb (PriceBookVersion.year_label p) price_year)
              (tPriceBookVersion st)).

Definition resolve_price_book_id (st : Store) (damage_type_id : Z)
    (language : Lang) (damage_code : string) (price_year : option Z)
  : Py.result (Z * Z) :=
  price_year <-
    match price_year with
    | None =>
        match select_max_year st language damage_code with
        | None => Py.raise (Py.ValueError Py.NoPriceBookYears)
        | Some max_year => Py.ret max_year
        end
    | Some y => Py.ret y
    end ;;
  match Sql.fetchone (select_price_book st price_year) with
  | None => Py.raise (Py.ValueError (Py.PriceBookNotFound price_year))
  | Some pb => Py.ret (pb, price_year)
  end.

(** SELECT ... FROM Damage.Unit WHERE symbol = ? *)
Definition select_unit (st : Store) (unit_symbol : string) : list Unit.t :=
  filter (fun u => Sql.str_eq (Unit.symbol u) unit_symbol) (tUnit st).

(** SELECT ... FROM Damage.SeverityBand sb JOIN Damage.Unit u
    ON u.unit_id = sb.unit_id WHERE sb.damage_type_id = ? *)
Definition select_bands (st : Store) (damage_type_id : Z) : list BandRow.t :=
  flat_map
    (fun sb =>
       map (fun u =>
              BandRow.Build (SeverityBand.severity_band_id sb)
                (SeverityBand.band_label sb) (SeverityBand.range_min sb)
                (SeverityBand.range_max sb) (Unit.symbol u)
                (Unit.conversion_to_base u))
           (filter (fun u => Z.eqb (Unit.unit_id u) (SeverityBand.unit_id sb))
                   (tUnit st)))
    (filter (fun sb => Z.eqb (SeverityBand.damage_type_id sb) damage_type_id)
            (tSeverityBand st)).

(** The score the loop gives to band [b], computed in doubles as the loop
    body does; [size_in_base] is the double the script holds. *)
Definition band_score (size_in_base : F64.float) (b : BandRow.t)
  : F64.float :=
  let min_base :=
    F64.mul (F64.of_Q (BandRow.range_min b)) (F64.of_Q (BandRow.conv b)) in
  let max_base :=
    F64.mul (F64.of_Q (BandRow.range_max b)) (F64.of_Q (BandRow.conv b)) in
  let in_range :=
    F64.leb min_base size_in_base && F64.leb size_in_base max_base in
  let mid := F64.div (F64.add min_base max_base) (F64.of_Z 2) in
  F64.add (F64.of_Z (if in_range then 0 else 1))
          (F64.abs (F64.sub mid size_in_base)).

(** One iteration of [for b in bands]; the state is [(best, best_score)]. *)
Definition band_step (size_in_base : F64.float)
    (state : option BandRow.t * option F64.float) (b : BandRow.t)
  : option BandRow.t * option F64.float :=
  let score := band_score size_in_base b in
  match snd state with
  | None => (Some b, Some score)
  | Some best_score =>
      if F64.ltb score best_score then (Some b, Some score) else state
  end.

Definition best_band (size_in_base : F64.float) (bands : list BandRow.t)
  : option BandRow.t :=
  fst (fold_left (band_step size_in_base) bands (None, None)).

(** [size_value * u.conversion_to_base] as the double Python computes. *)
Definition base_size (size_value : Q) (u : Unit.t) : F64.float :=
  F64.mul (F64.of_Q size_value) (F64.of_Q (Unit.conversion_to_base u)).

(** [size_in_base = size_value * u.conversion_to_base]: the loop compares
    on the double [base_size]; the value handed back for the estimates and
    the report is carried exactly. *)
Definition pick_severity_band (st : Store) (damage_type_id : Z)
    (size_value : Q) (unit_symbol : string)
  : Py.result (Z * BandInfo.t * Q) :=
  match Sql.fetchone (select_unit st unit_symbol) with
  | None => Py.raise (Py.ValueError (Py.UnitNotFound unit_symbol))
  | Some u =>
      let size_in_base := size_value * Unit.conversion_to_base u in
      match select_bands st damage_type_id with
      | [] => Py.raise (Py.ValueError Py.NoSeverityBands)
      | bands =>
          match best_band (base_size size_value u) bands with
          | None => Py.raise Py.AssertionError
          | Some best =>
              let band_info :=
                BandInfo.Build (BandRow.severity_band_id best)
                  (BandRow.band_label best) (BandRow.range_min best)
                  (BandRow.range_max best) (BandRow.severity_unit best) in
              Py.ret (BandRow.severity_band_id best, band_info, size_in_base)
          end
      end
  end.

(** ORDER BY dta.sequence_order, activity_code *)
Definition cost_row_le (r1 r2 : CostRow.t) : bool :=
  Z.ltb (CostRow.sequence_order r1) (CostRow.sequence_order r2)
  || Z.eqb (CostRow.sequence_order r1) (CostRow.sequence_order r2)
     && Sql.str_leb (CostRow.activity_code r1) (CostRow.activity_code r2).

(** LEFT JOIN Damage.Unit u ON u.unit_id = ?, keeping [u.symbol]. *)
Definition unit_symbol_of (st : Store) (unit_id : option Z)
  : list (option string) :=
  map (option_map Unit.symbol)
      (Sql.left_join (fun u => Sql.opt_eq unit_id (Unit.unit_id u)) (tUnit st)).

(** ON ac.activity_id = a.activity_id AND ac.price_book_id = ?
    AND (ac.severity_band_id IS NULL OR ac.severity_band_id = ?) *)
Definition cost_applies (activity_id price_book_id severity_band_id : Z)
    (ac : ActivityCost.t) : bool :=
  Z.eqb (ActivityCost.activity_id ac) activity_id
  && Z.eqb (ActivityCost.price_book_id ac) price_book_id
  && match ActivityCost.severity_band_id ac with
     | None => true
     | Some sb => Z.eqb sb severity_band_id
     end.

(** The rows of the join for one association row [dta], before ORDER BY. *)
Definition joined_rows (st : Store) (price_book_id severity_band_id : Z)
    (language : Lang) (dta : DamageTypeActivity.t) : list CostRow.t :=
  flat_map
    (fun a =>
       flat_map
         (fun ac =>
            flat_map
              (fun ul =>
                 map (fun um =>
                        CostRow.Build (Activity.activity_id a)
                          (Sql.by_language language (Activity.code_en a)
                                                    (Activity.code_nl a))
                          (Sql.by_language language (Activity.name_en a)
                                                    (Activity.name_nl a))
                          (DamageTypeActivity.sequence_order dta)
                          (DamageTypeActivity.is_required dta)
                          (ActivityCost.labor_unit_cost ac)
                          (ActivityCost.labor_cost_min ac)
                          (ActivityCost.labor_cost_max ac)
                          (ActivityCost.material_unit_cost ac)
                          (ActivityCost.material_cost_min ac)
                          (ActivityCost.material_cost_max ac)
                          ul um)
                     (unit_symbol_of st (ActivityCost.material_unit_id ac)))
              (unit_symbol_of st (ActivityCost.labor_unit_id ac)))
         (filter (cost_applies (Activity.activity_id a) price_book_id
                               severity_band_id)
                 (tActivityCost st)))
    (filter (fun a => Z.eqb (Activity.activity_id a)
                            (DamageTypeActivity.activity_id dta))
            (tActivity st)).

Definition fetch_cost_rows (st : Store)
    (damage_type_id price_book_id severity_band_id : Z) (language : Lang)
  : list CostRow.t :=
  Sql.order_by cost_row_le
    (flat_map (joined_rows st price_book_id severity_band_id language)
       (filter (fun dta => Z.eqb (DamageTypeActivity.damage_type_id dta)
                                 damage_type_id)
               (tDamageTypeActivity st))).

Definition estimate_costs (rows : list CostRow.t) (size_in_base : Q)
  : list EstimateLine.t :=
  map
    (fun r =>
       let labor_est :=
         match CostRow.labor_unit_cost r with
         | Some labor_unit_cost => Some (labor_unit_cost * size_in_base)
         | None =>
             match CostRow.labor_cost_min r, CostRow.labor_cost_max r with
             | Some labor_cost_min, Some labor_cost_max =>
                 Some ((labor_cost_min + labor_cost_max) / 2)
             | _, _ => CostRow.labor_cost_min r
             end
         end in
       let material_est :=
         match CostRow.material_unit_cost r with
         | Some material_unit_cost => Some (material_unit_cost * size_in_base)
         | None =>
             match CostRow.material_cost_min r, CostRow.material_cost_max r with
             | Some material_cost_min, Some material_cost_max =>
                 Some ((material_cost_min + material_cost_max) / 2)
             | _, _ => CostRow.material_cost_min r
             end
         end in
       EstimateLine.Build (CostRow.activity_code r) (CostRow.activity_name r)
         (CostRow.is_required r) (CostRow.sequence_order r)
         (CostRow.labor_unit r) (CostRow.material_unit r)
         (CostRow.labor_cost_min r) (CostRow.labor_cost_max r)
         (CostRow.material_cost_min r) (CostRow.material_cost_max r)
         (CostRow.labor_unit_cost r) (CostRow.material_unit_cost r)
         labor_est material_est)
    rows.

(** The two totals of [main]. *)
Definition total_labor (estimates : list EstimateLine.t) : Q :=
  Py.sum (map (fun e => Py.or0 (EstimateLine.estimated_labor e)) estimates).
Definition total_material (estimates : list EstimateLine.t) : Q :=
  Py.sum (map (fun e => Py.or0 (EstimateLine.estimated_material e)) estimates).

Definition main (st : Store) (env : Env) (args : Args.t)
  : Py.result Report.t :=
  '(damage_type_id, code_used) <-
    fetch_damage_type_code st env (Args.language args)
      (Args.damage_code args) (Args.description args)
      (Args.openai_model args) ;;
  '(price_book_id, price_year) <-
    resolve_price_book_id st damage_type_id (Args.language args) code_used
      (Args.price_year args) ;;
  '(severity_band_id, band_info, size_in_base) <-
    pick_severity_band st damage_type_id (Args.size args) (Args.unit args) ;;
  let rows :=
    fetch_cost_rows st damage_type_id price_book_id severity_band_id
      (Args.language args) in
  match rows with
  | [] => Py.raise (Py.ValueError Py.NoCostsFound)
  | _ =>
      let estimates := estimate_costs rows size_in_base in
      let total_labor := total_labor estimates in
      let total_material := total_material estimates in
      Py.ret
        (Report.Build code_used (Args.language args) price_year band_info
           (Args.size args) (Args.unit args) size_in_base estimates
           total_labor total_material (total_labor + total_material))
  end.

(** Modelled from the spec: the error taxonomy of section 7, which the script
    does not declare (every failure it signals itself is a [ValueError] told
    apart by its message, or the [ImportError] / [EnvironmentError] of the
    classifier set-up).  An [IndexError] or [AssertionError] has no kind. *)
Inductive error_kind : Type :=
| InputError | NotFoundError | NoDataError | AmbiguousClassificationError
| ConfigurationError | UpstreamError.

(** Modelled from the spec: the kind section 7 gives to each failure of the
    script, by its raise site. *)
Definition kind_of (e : Py.exn) : option error_kind :=
  match e with
  | Py.ValueError (Py.DamageCodeNotFound _) => Some NotFoundError
  | Py.ValueError Py.CodeOrDescriptionRequired => Some InputError
  | Py.ValueError (Py.ModelReturnedUnknownCode _) =>
      Some AmbiguousClassificationError
  | Py.ValueError Py.NoPriceBookYears => Some NoDataError
  | Py.ValueError (Py.PriceBookNotFound _) => Some NotFoundError
  | Py.ValueError (Py.UnitNotFound _) => Some NotFoundError
  | Py.ValueError Py.NoSeverityBands => Some NoDataError
  | Py.ValueError Py.NoCostsFound => Some NoDataError
  | Py.ImportError => Some ConfigurationError
  | Py.EnvironmentError => Some ConfigurationError
  | Py.IndexError => None
  | Py.AssertionError => None
  end.

(** ** Vocabulary of the specification for the severity band matcher *)

(** The band's range in base units, as doubles. *)
Definition min_base (b : BandRow.t) : F64.float :=
  F64.mul (F64.of_Q (BandRow.range_min b)) (F64.of_Q (BandRow.conv b)).
Definition max_base (b : BandRow.t) : F64.float :=
  F64.mul (F64.of_Q (BandRow.range_max b)) (F64.of_Q (BandRow.conv b)).

(** The size lies within [min_base, max_base], bounds included. *)
Definition in_range (size_in_base : F64.float) (b : BandRow.t) : bool :=
  F64.leb (min_base b) size_in_base && F64.leb size_in_base (max_base b).

(** The midpoint [(min_base + max_base) / 2]. *)
Definition midpoint (b : BandRow.t) : F64.float :=
  F64.div (F64.add (min_base b) (max_base b)) (F64.of_Z 2).

(** The distance from the size to the band's midpoint. *)
Definition distance (size_in_base : F64.float) (b : BandRow.t) : F64.float :=
  F64.abs (F64.sub size_in_base (midpoint b)).

(** The score in the words of the specification: 0 if the size lies in the
    band's base range and 1 otherwise, plus the distance from the size to the
    band's midpoint. *)
Definition spec_score (size_in_base : F64.float) (b : BandRow.t)
  : F64.float :=
  if in_range size_in_base b
  then F64.add (F64.of_Z 0) (distance size_in_base b)
  else F64.add (F64.of_Z 1) (distance size_in_base b).

(** The [band_info] built from the winning row. *)
Definition info_of (b : BandRow.t) : BandInfo.t :=
  BandInfo.Build (BandRow.severity_band_id b) (BandRow.band_label b)
    (BandRow.range_min b) (BandRow.range_max b) (BandRow.severity_unit b).

(** A band row comes from a severity band of the damage type and from the
    unit that band is expressed in. *)
Definition row_of_band (st : Store) (damage_type_id : Z) (b : BandRow.t)
  : Prop :=
  exists sb u,
    In sb (tSeverityBand st) /\ In u (tUnit st)
    /\ SeverityBand.damage_type_id sb = damage_type_id
    /\ Unit.unit_id u = SeverityBand.unit_id sb
    /\ BandRow.severity_band_id b = SeverityBand.severity_band_id sb
    /\ BandRow.range_min b = SeverityBand.range_min sb
    /\ BandRow.range_max b = SeverityBand.range_max sb
    /\ BandRow.conv b = Unit.conversion_to_base u.

(** [b] is the first band of [l] with the least score: every band before
    it scores more (or NaN), no band after it scores less. *)
Definition first_least (size_in_base : F64.float) (l : list BandRow.t)
    (b : BandRow.t) : Prop :=
  exists l1 l2,
    l = l1 ++ b :: l2
    /\ (forall x, In x l1 ->
                  F64.is_nan (band_score size_in_base x) = true
                  \/ F64.ltb (band_score size_in_base b)
                             (band_score size_in_base x) = true)
    /\ (forall x, In x l2 ->
                  F64.ltb (band_score size_in_base x)
                          (band_score size_in_base b) = false).

(** ** Vocabulary of the specification for the other stages *)

(** The fallback rule of one cost category in the words of the
    specification: the unit cost times the size; else the mean of min and
    max when both are present; else min when only min is present; else
    null. *)
Definition spec_estimate (unit_cost cost_min cost_max : option Q)
    (size_in_base : Q) : option Q :=
  match unit_cost, cost_min, cost_max with
  | Some c, _, _ => Some (c * size_in_base)
  | None, Some lo, Some hi => Some ((lo + hi) / 2)
  | None, Some lo, None => Some lo
  | None, None, _ => None
  end.

(** The sum of the estimates of a category, null counting as zero. *)
Fixpoint sum_or_zero (xs : list (option Q)) : Q :=
  match xs with
  | [] => 0
  | Some v :: xs' => v + sum_or_zero xs'
  | None :: xs' => 0 + sum_or_zero xs'
  end.

(** The years for which the damage type with this code has a cost entry. *)
Definition cost_years (st : Store) (language : Lang) (damage_code : string)
  : list Z :=
  flat_map
    (fun v =>
       if Sql.str_eq
            (Sql.by_language language
               (vActivityCostFull.damage_type_code_en v)
               (vActivityCostFull.damage_type_code_nl v))
            damage_code
       then match vActivityCostFull.price_year v with
            | Some y => [y]
            | None => []
            end
       else [])
    (tActivityCostFull st).

(** The damage type has the code in one of the two languages. *)
Definition has_code (d : DamageType.t) (code : string) : Prop :=
  DamageType.code_en d = code \/ DamageType.code_nl d = code.

(** Strings made of whitespace only, and strings without whitespace. *)
Fixpoint all_space (s : string) : bool :=
  match s with
  | EmptyString => true
  | String c s' => Py.isspace c && all_space s'
  end.
Fixpoint no_space (s : string) : bool :=
  match s with
  | EmptyString => true
  | String c s' => negb (Py.isspace c) && no_space s'
  end.

(** The string is empty or starts with a whitespace character. *)
Definition space_led (s : string) : bool :=
  match s with
  | EmptyString => true
  | String c _ => Py.isspace c
  end.

(** Re-resolution of the classifier's code guess. *)
Definition resolve_guess (st : Store) (language : Lang) (code_guess : string)
  : Py.result (Z * string) :=
  match Sql.fetchone (select_damage_type st language code_guess) with
  | None => Py.raise (Py.ValueError (Py.ModelReturnedUnknownCode code_guess))
  | Some row => Py.ret row
  end.

(** The association rows of the damage type, and the cost rows that apply to
    an activity for the price book and severity band. *)
Definition associations (st : Store) (damage_type_id : Z)
  : list DamageTypeActivity.t :=
  filter (fun dta => Z.eqb (DamageTypeActivity.damage_type_id dta)
                           damage_type_id)
         (tDamageTypeActivity st).
Definition applicable_costs (st : Store)
    (activity_id price_book_id severity_band_id : Z) : list ActivityCost.t :=
  filter (cost_applies activity_id price_book_id severity_band_id)
         (tActivityCost st).

(** Line [e] is the estimate of cost row [r]: each category follows the
    fallback rule on its own three cost fields. *)
Definition line_of_row (size_in_base : Q) (r : CostRow.t)
    (e : EstimateLine.t) : Prop :=
  EstimateLine.activity_code e = CostRow.activity_code r
  /\ EstimateLine.estimated_labor e
     = spec_estimate (CostRow.labor_unit_cost r) (CostRow.labor_cost_min r)
         (CostRow.labor_cost_max r) size_in_base
  /\ EstimateLine.estimated_material e
     = spec_estimate (CostRow.material_unit_cost r)
         (CostRow.material_cost_min r) (CostRow.material_cost_max r)
         size_in_base.

(** The estimates of a printed line follow the fallback rule on the raw cost
    fields the line carries; a category without unit cost and without min
    stays null. *)
Definition line_keeps_rule (size_in_base : Q) (e : EstimateLine.t) : Prop :=
  EstimateLine.estimated_labor e
  = spec_estimate (EstimateLine.labor_unit_cost e)
      (EstimateLine.labor_cost_min e) (EstimateLine.labor_cost_max e)
      size_in_base
  /\ EstimateLine.estimated_material e
     = spec_estimate (EstimateLine.material_unit_cost e)
         (EstimateLine.material_cost_min e)
         (EstimateLine.material_cost_max e) size_in_base.

(** ** Example stores *)

Definition unit_m2 : Unit.t := Unit.Build 1 "m2" 1 None.

(** Bands "small" [0, 5] and "large" [5, 100], stored in this order. *)
Definition store_small_large : Store :=
  mkStore [] [] [] [] [unit_m2]
    [SeverityBand.Build 1 1 "small" 0 5 1;
     SeverityBand.Build 2 1 "large" 5 100 1]
    [] [] [].

(** The rows the band query returns on [store_small_large]. *)
Definition row_small : BandRow.t := BandRow.Build 1 "small" 0 5 "m2" 1.
Definition row_large : BandRow.t := BandRow.Build 2 "large" 5 100 "m2" 1.

(** Bands "far" [10, 20], "low" [0, 2] and "high" [2, 4], stored in this
    order: at size 2 the last two tie with score 1. *)
Definition store_far_low_high : Store :=
  mkStore [] [] [] [] [unit_m2]
    [SeverityBand.Build 1 1 "far" 10 20 1;
     SeverityBand.Build 2 1 "low" 0 2 1;
     SeverityBand.Build 3 1 "high" 2 4 1]
    [] [] [].
Definition row_far : BandRow.t := BandRow.Build 1 "far" 10 20 "m2" 1.
Definition row_low : BandRow.t := BandRow.Build 2 "low" 0 2 "m2" 1.
Definition row_high : BandRow.t := BandRow.Build 3 "high" 2 4 "m2" 1.

(** The order keys of the doubles that are numbers: sign class, then
    exponent and mantissa, so that doubles compare as their keys do in
    lexicographic order. *)
Definition order_key (x : F64.float) : option (Z * Z * Z) :=
  match x with
  | S754_nan => None
  | S754_zero _ => Some (0, 0, 0)%Z
  | S754_infinity false => Some (2, 0, 0)%Z
  | S754_infinity true => Some (-2, 0, 0)%Z
  | S754_finite false m e => Some (1, e, Zpos m)%Z
  | S754_finite true m e => Some (-1, - e, Zneg m)%Z
  end.
Definition key_lt (k1 k2 : Z * Z * Z) : Prop :=
  let '(a1, b1, c1) := k1 in
  let '(a2, b2, c2) := k2 in
  (a1 < a2 \/ (a1 = a2 /\ (b1 < b2 \/ (b1 = b2 /\ c1 < c2))))%Z.

(** Decides a comparison of two doubles from the comparisons of the
    components of their keys. *)
Ltac by_keys :=
  cbn; fold Pos.compare;
  repeat match goal with
         | |- context [(?a ?= ?b)%Z] => destruct (Z.compare_spec a b)
         | |- context [(?a ?= ?b)%positive] => destruct (Pos.compare_spec a b)
         end;
  cbn; split; intros; try discriminate; try reflexivity; try lia;
  try (f_equal; lia).

(** The bands of [store_far_low_high] with "high" stored before "low". *)
Definition store_far_high_low : Store :=
  mkStore [] [] [] [] [unit_m2]
    [SeverityBand.Build 1 1 "far" 10 20 1;
     SeverityBand.Build 3 1 "high" 2 4 1;
     SeverityBand.Build 2 1 "low" 0 2 1]
    [] [] [].

(** The bands of [store_small_large] stored in the opposite order. *)
Definition store_large_small : Store :=
  mkStore [] [] [] [] [unit_m2]
    [SeverityBand.Build 2 1 "large" 5 100 1;
     SeverityBand.Build 1 1 "small" 0 5 1]
    [] [] [].

(** A complete store. *)
Definition unknown_general : DamageType.t :=
  DamageType.Build 1 "UNKNOWN_GENERAL" "ONBEKEND_ALGEMEEN"
    "Unknown damage" "Onbekende schade".

(** Activity A1 has a band-agnostic cost row in the 2023 price book (labor
    10 per base unit, material between 5 and 15); activity A2 has a cost row
    for band 1 with no cost at all. *)
Definition cost_A1 : ActivityCost.t :=
  ActivityCost.Build 1 11 None (Some 10) None None None (Some 5) (Some 15)
    (Some 1%Z) None.
Definition cost_A2 : ActivityCost.t :=
  ActivityCost.Build 2 11 (Some 1%Z) None None None None None None None None.

Definition store_demo : Store :=
  mkStore
    [unknown_general]
    [DamageTypeKeyword.Build 1 "leak"]
    [vActivityCostFull.Build "UNKNOWN_GENERAL" "ONBEKEND_ALGEMEEN"
       (Some 2021%Z);
     vActivityCostFull.Build "UNKNOWN_GENERAL" "ONBEKEND_ALGEMEEN"
       (Some 2023%Z)]
    [PriceBookVersion.Build 10 2021; PriceBookVersion.Build 11 2023]
    [unit_m2]
    [SeverityBand.Build 1 1 "small" 0 5 1;
     SeverityBand.Build 2 1 "large" 5 100 1]
    [DamageTypeActivity.Build 1 1 1 true; DamageTypeActivity.Build 1 2 2 false]
    [Activity.Build 1 "A1" "A1" "Inspect" "Inspecteren";
     Activity.Build 2 "A2" "A2" "Repair" "Herstellen"]
    [cost_A1; cost_A2].

(** The same store where activity A1 also has a cost row for band 1. *)
Definition cost_A1_band1 : ActivityCost.t :=
  ActivityCost.Build 1 11 (Some 1%Z) (Some 12) None None None None None
    (Some 1%Z) None.
Definition store_two_costs : Store :=
  mkStore (tDamageType store_demo) (tDamageTypeKeyword store_demo)
    (tActivityCostFull store_demo) (tPriceBookVersion store_demo)
    (tUnit store_demo) (tSeverityBand store_demo)
    [DamageTypeActivity.Build 1 1 1 true]
    (tActivity store_demo)
    [cost_A1; cost_A1_band1].

(** A classifier that answers with a fixed reply. *)
Definition env_replying (reply : string) : Env :=
  mkEnv true (Some "sk-test"%string) (fun _ _ _ _ => reply).
Definition env_without_openai : Env :=
  mkEnv false None (fun _ _ _ _ => ""%string).

Definition args_code (damage_code : string) (size : Q)
    (price_year : option Z) : Args.t :=
  Args.Build en (Some damage_code) None size "m2" price_year "gpt-4o-mini".
Definition args_description (description : string) (size : Q) : Args.t :=
  Args.Build en None (Some description) size "m2" None "gpt-4o-mini".

(** The complete store where the only cost row is the one without costs. *)
Definition store_null_costs : Store :=
  mkStore (tDamageType store_demo) (tDamageTypeKeyword store_demo)
    (tActivityCostFull store_demo) (tPriceBookVersion store_demo)
    (tUnit store_demo) (tSeverityBand store_demo)
    (tDamageTypeActivity store_demo) (tActivity store_demo)
    [cost_A2].

(** ** Further vocabulary: results, order of rows *)

(** The first component of a result, errors kept. *)
Definition result_fst {A B} (r : Py.result (A * B)) : Py.result A :=
  match r with
  | inl e => inl e
  | inr (a, _) => inr a
  end.

(** Line [e1] may precede line [e2] under ORDER BY sequence_order, code. *)
Definition line_le (e1 e2 : EstimateLine.t) : Prop :=
  (EstimateLine.sequence_order e1 < EstimateLine.sequence_order e2)%Z
  \/ (EstimateLine.sequence_order e1 = EstimateLine.sequence_order e2
      /\ Sql.str_leb (EstimateLine.activity_code e1)
                     (EstimateLine.activity_code e2) = true).

(** Every cost that is present is non-negative. *)
Definition nonneg_opt (x : option Q) : Prop :=
  match x with
  | Some v => 0 <= v
  | None => True
  end.
Definition nonneg_costs (r : CostRow.t) : Prop :=
  nonneg_opt (CostRow.labor_unit_cost r)
  /\ nonneg_opt (CostRow.labor_cost_min r)
  /\ nonneg_opt (CostRow.labor_cost_max r)
  /\ nonneg_opt (CostRow.material_unit_cost r)
  /\ nonneg_opt (CostRow.material_cost_min r)
  /\ nonneg_opt (CostRow.material_cost_max r).

(** A code names at most one damage type of the store. *)
Definition codes_identify (st : Store) : Prop :=
  forall d d' code,
    In d (tDamageType st) -> In d' (tDamageType st) ->
    has_code d code -> has_code d' code -> d = d'.

(** ** The connection string *)

(** The connection options of the command line, after [parse_args]. *)
Module ConnArgs.
Record t : Type := Build
  { server : string; database : string;
    username : option string; password : option string }.
End ConnArgs.

(** [sep.join(parts)] *)
Fixpoint join (sep : string) (parts : list string) : string :=
  match parts with
  | [] => EmptyString
  | [p] => p
  | p :: rest => (p ++ sep ++ join sep rest)%string
  end.

(** [getpass] is what the user types at the prompt it is given. *)
Definition build_connection_string (getpass : string -> string)
    (args : ConnArgs.t) : string :=
  let parts :=
    ["DRIVER={ODBC Driver 17 for SQL Server}";
     "SERVER=" ++ ConnArgs.server args;
     "DATABASE=" ++ ConnArgs.database args;
     "TrustServerCertificate=yes"]%string in
  let parts :=
    match ConnArgs.username args with
    | Some (String _ _ as username) =>
        let password :=
          match ConnArgs.password args with
          | Some (String _ _ as password) => password
          | _ => getpass "SQL Password: "%string
          end in
        parts ++ [("UID=" ++ username)%string; ("PWD=" ++ password)%string]
    | _ => parts ++ ["Trusted_Connection=yes"%string]
    end in
  join ";" parts.

(** Reading a connection string back: its fields between semicolons. *)
Fixpoint fields (s : string) : list string :=
  match s with
  | EmptyString => [EmptyString]
  | String c s' =>
      if Ascii.eqb c ";" then EmptyString :: fields s'
      else match fields s' with
           | f :: fs => String c f :: fs
           | [] => [String c EmptyString]
           end
  end.

(** The string has no semicolon. *)
Fixpoint plain (s : string) : bool :=
  match s with
  | EmptyString => true
  | String c s' => negb (Ascii.eqb c ";") && plain s'
  end.

(** The only band of the damage type is expressed in a unit (id 9) that the
    unit table does not have. *)
Definition store_band_without_unit : Store :=
  mkStore [] [] [] [] [unit_m2]
    [SeverityBand.Build 1 1 "small" 0 5 9]
    [] [] [].

(** The raw cost fields of line [e] are those of cost row [ac]. *)
Definition costs_of (e : EstimateLine.t) (ac : ActivityCost.t) : Prop :=
  EstimateLine.labor_unit_cost e = ActivityCost.labor_unit_cost ac
  /\ EstimateLine.labor_cost_min e = ActivityCost.labor_cost_min ac
  /\ EstimateLine.labor_cost_max e = ActivityCost.labor_cost_max ac
  /\ EstimateLine.material_unit_cost e = ActivityCost.material_unit_cost ac
  /\ EstimateLine.material_cost_min e = ActivityCost.material_cost_min ac
  /\ EstimateLine.material_cost_max e = ActivityCost.material_cost_max ac.

(** ** main.py: driver choice and identifiers *)

Module MainPy.

Inductive exn : Type :=
| RuntimeError.
    (* "No SQL Server ODBC driver found. Install ODBC Driver 18 ..." *)

Definition preferred : list string :=
  ["ODBC Driver 18 for SQL Server"; "ODBC Driver 17 for SQL Server";
   "SQL Server"]%string.

(** [driver in installed], with [installed = set(pyodbc.drivers())]. *)
Definition installed_has (drivers : list string) (driver : string) : bool :=
  existsb (String.eqb driver) drivers.

(** The [for driver in preferred] loop, over the rest of the tuple. *)
Fixpoint first_installed (drivers : list string) (candidates : list string)
  : exn + string :=
  match candidates with
  | [] => inl RuntimeError
  | driver :: rest =>
      if installed_has drivers driver then inr driver
      else first_installed drivers rest
  end.

(** [drivers] is what [pyodbc.drivers()] returns. *)
Definition choose_driver (drivers : list string) : exn + string :=
  first_installed drivers preferred.

(** [name.replace("]", "]]")] *)
Fixpoint double_brackets (name : string) : string :=
  match name with
  | EmptyString => EmptyString
  | String c name' =>
      if Ascii.eqb c "]" then String "]" (String "]" (double_brackets name'))
      else String c (double_brackets name')
  end.

Definition quote_identifier (name : string) : string :=
  ("[" ++ double_brackets name ++ "]")%string.

(** [s.lstrip(chars)] and [s.strip(chars)], [p] telling the characters of
    [chars]. *)
Fixpoint lstrip_by (p : ascii -> bool) (s : string) : string :=
  match s with
  | String c s' => if p c then lstrip_by p s' else s
  | EmptyString => EmptyString
  end.
Definition strip_by (p : ascii -> bool) (s : string) : string :=
  Py.rev_string EmptyString
    (lstrip_by p (Py.rev_string EmptyString (lstrip_by p s))).

(** The characters of ["[] "]. *)
Definition bracket_or_blank (c : ascii) : bool :=
  Ascii.eqb c "[" || Ascii.eqb c "]" || Ascii.eqb c " ".

Definition sanitize_identifier (name fallback : string) : string :=
  let cleaned := Py.strip (strip_by bracket_or_blank name) in
  match cleaned with
  | EmptyString => fallback
  | _ => cleaned
  end.

(** Reading a bracketed identifier the way T-SQL does: after the opening
    bracket, a doubled closing bracket is a closing bracket of the name and
    a single one ends the identifier; [None] when the text is not exactly
    one bracketed identifier. *)
Fixpoint read_name (body : string) : option string :=
  match body with
  | EmptyString => None
  | String c body' =>
      if Ascii.eqb c "]" then
        match body' with
        | EmptyString => Some EmptyString
        | String c' body'' =>
            if Ascii.eqb c' "]"
            then option_map (String "]") (read_name body'')
            else None
        end
      else option_map (String c) (read_name body')
  end.
Definition read_identifier (quoted : string) : option string :=
  match quoted with
  | String c body => if Ascii.eqb c "[" then read_name body else None
  | EmptyString => None
  end.

(** Every character of the string satisfies [p]; the string neither starts
    nor ends with a character that satisfies [p]. *)
Fixpoint all_chars (p : ascii -> bool) (s : string) : bool :=
  match s with
  | EmptyString => true
  | String c s' => p c && all_chars p s'
  end.
Definition first_is (p : ascii -> bool) (s : string) : bool :=
  match s with
  | String c _ => p c
  | EmptyString => false
  end.
Definition last_is (p : ascii -> bool) (s : string) : bool :=
  first_is p (Py.rev_string EmptyString s).

End MainPy.

(** ** The order of doubles *)

Section FloatOrder.

Local Open Scope Z_scope.

Lemma ltb_key (x y : F64.float) (kx ky : Z * Z * Z) :
  order_key x = Some kx -> order_key y = Some ky ->
  F64.ltb x y = true <-> key_lt kx ky.
Proof.
  unfold F64.ltb, SFltb, key_lt.
  destruct x as [[|]|[|]| |[|] mx ex], y as [[|]|[|]| |[|] my ey];
    cbn [order_key]; intros Hx Hy; try discriminate;
    injection Hx as <-; injection Hy as <-; by_keys.
Qed.

Lemma leb_key (x y : F64.float) (kx ky : Z * Z * Z) :
  order_key x = Some kx -> order_key y = Some ky ->
  F64.leb x y = true <-> ~ key_lt ky kx.
Proof.
  unfold F64.leb, SFleb, key_lt.
  destruct x as [[|]|[|]| |[|] mx ex], y as [[|]|[|]| |[|] my ey];
    cbn [order_key]; intros Hx Hy; try discriminate;
    injection Hx as <-; injection Hy as <-; by_keys.
Qed.

Lemma eqb_key (x y : F64.float) (kx ky : Z * Z * Z) :
  order_key x = Some kx -> order_key y = Some ky ->
  F64.eqb x y = true <-> ~ key_lt kx ky /\ ~ key_lt ky kx.
Proof.
  unfold F64.eqb, SFeqb, key_lt.
  destruct x as [[|]|[|]| |[|] mx ex], y as [[|]|[|]| |[|] my ey];
    cbn [order_key]; intros Hx Hy; try discriminate;
    injection Hx as <-; injection Hy as <-; by_keys.
Qed.

Lemma order_key_cases (x : F64.float) :
  (F64.is_nan x = true /\ x = S754_nan)
  \/ (F64.is_nan x = false /\ exists k, order_key x = Some k).
Proof.
  destruct x as [[|]|[|]| |[|] mx ex]; cbn; eauto.
Qed.

Lemma key_lt_trans (k1 k2 k3 : Z * Z * Z) :
  key_lt k1 k2 -> key_lt k2 k3 -> key_lt k1 k3.
Proof.
  destruct k1 as [[a1 b1] c1], k2 as [[a2 b2] c2], k3 as [[a3 b3] c3].
  unfold key_lt. lia.
Qed.

Lemma key_lt_le_trans (k1 k2 k3 : Z * Z * Z) :
  key_lt k1 k2 -> ~ key_lt k3 k2 -> key_lt k1 k3.
Proof.
  destruct k1 as [[a1 b1] c1], k2 as [[a2 b2] c2], k3 as [[a3 b3] c3].
  unfold key_lt. lia.
Qed.

Lemma key_lt_asym (k1 k2 : Z * Z * Z) : key_lt k1 k2 -> ~ key_lt k2 k1.
Proof.
  destruct k1 as [[a1 b1] c1], k2 as [[a2 b2] c2]. unfold key_lt. lia.
Qed.

Lemma ltb_nan_l (y : F64.float) : F64.ltb S754_nan y = false.
Proof. reflexivity. Qed.

Lemma ltb_nan_r (x : F64.float) : F64.ltb x S754_nan = false.
Proof. destruct x; reflexivity. Qed.

Lemma eqb_nan_l (y : F64.float) : F64.eqb S754_nan y = false.
Proof. reflexivity. Qed.

Lemma eqb_nan_r (x : F64.float) : F64.eqb x S754_nan = false.
Proof. destruct x; reflexivity. Qed.

(** A comparison that holds has numbers on both sides. *)
Lemma ltb_true_keys (x y : F64.float) :
  F64.ltb x y = true ->
  exists kx ky, order_key x = Some kx /\ order_key y = Some ky
                /\ key_lt kx ky.
Proof.
  intros H.
  destruct (order_key_cases x) as [[_ ->] | [_ [kx Hx]]];
    [rewrite ltb_nan_l in H; discriminate |].
  destruct (order_key_cases y) as [[_ ->] | [_ [ky Hy]]];
    [rewrite ltb_nan_r in H; discriminate |].
  exists kx, ky. split; [exact Hx |]. split; [exact Hy |].
  apply (ltb_key x y kx ky Hx Hy). exact H.
Qed.

Lemma ltb_false_key (x y : F64.float) (kx ky : Z * Z * Z) :
  order_key x = Some kx -> order_key y = Some ky ->
  F64.ltb x y = false -> ~ key_lt kx ky.
Proof.
  intros Hx Hy H Hlt. apply (ltb_key x y kx ky Hx Hy) in Hlt.
  rewrite Hlt in H. discriminate.
Qed.

Lemma ltb_trans (x y z : F64.float) :
  F64.ltb x y = true -> F64.ltb y z = true -> F64.ltb x z = true.
Proof.
  intros Hxy Hyz.
  apply ltb_true_keys in Hxy as (kx & ky & Hx & Hy & Hxy).
  apply ltb_true_keys in Hyz as (ky' & kz & Hy' & Hz & Hyz).
  rewrite Hy in Hy'. injection Hy' as <-.
  apply (ltb_key x z kx kz Hx Hz). eapply key_lt_trans; eassumption.
Qed.

(** [x < b] and not [y < b]: then [x < y], unless [y] is NaN. *)
Lemma ltb_not_ltb_trans (x b y : F64.float) :
  F64.ltb x b = true -> F64.ltb y b = false ->
  F64.is_nan y = true \/ F64.ltb x y = true.
Proof.
  intros Hxb Hyb.
  apply ltb_true_keys in Hxb as (kx & kb & Hx & Hb & Hxb).
  destruct (order_key_cases y) as [[Hnan _] | [_ [ky Hy]]];
    [left; exact Hnan | right].
  apply (ltb_key x y kx ky Hx Hy).
  eapply key_lt_le_trans; [exact Hxb |].
  eapply ltb_false_key; eassumption.
Qed.

Lemma ltb_asym (x y : F64.float) :
  F64.ltb x y = true -> F64.ltb y x = false.
Proof.
  intros Hxy.
  apply ltb_true_keys in Hxy as (kx & ky & Hx & Hy & Hxy).
  destruct (F64.ltb y x) eqn:E; [| reflexivity].
  apply (ltb_key y x ky kx Hy Hx) in E.
  destruct (key_lt_asym _ _ Hxy E).
Qed.

Lemma ltb_irrefl (x : F64.float) : F64.ltb x x = false.
Proof.
  destruct (F64.ltb x x) eqn:E; [| reflexivity].
  pose proof (ltb_asym x x E) as H. congruence.
Qed.

Lemma ltb_eqb_false (x y : F64.float) :
  F64.ltb x y = true -> F64.eqb y x = false.
Proof.
  intros Hxy.
  apply ltb_true_keys in Hxy as (kx & ky & Hx & Hy & Hxy).
  destruct (F64.eqb y x) eqn:E; [| reflexivity].
  apply (eqb_key y x ky kx Hy Hx) in E. tauto.
Qed.

Lemma is_nan_eqb_false (x y : F64.float) :
  F64.is_nan x = true -> F64.eqb x y = false.
Proof.
  destruct x; try discriminate. reflexivity.
Qed.

(** Numbers are totally ordered. *)
Lemma not_ltb_leb (x y : F64.float) :
  F64.is_nan x = false -> F64.is_nan y = false ->
  F64.ltb y x = false -> F64.leb x y = true.
Proof.
  intros Hnx Hny H.
  destruct (order_key_cases x) as [[E _] | [_ [kx Hx]]]; [congruence |].
  destruct (order_key_cases y) as [[E _] | [_ [ky Hy]]]; [congruence |].
  apply (leb_key x y kx ky Hx Hy). eapply ltb_false_key; eassumption.
Qed.

Lemma not_ltb_eqb (x y : F64.float) :
  F64.is_nan x = false -> F64.is_nan y = false ->
  F64.ltb x y = false -> F64.ltb y x = false -> F64.eqb x y = true.
Proof.
  intros Hnx Hny H1 H2.
  destruct (order_key_cases x) as [[E _] | [_ [kx Hx]]]; [congruence |].
  destruct (order_key_cases y) as [[E _] | [_ [ky Hy]]]; [congruence |].
  apply (eqb_key x y kx ky Hx Hy).
  split; eapply ltb_false_key; eassumption.
Qed.

(** [0.0 + |x|] is [|x|]. *)
Lemma add_zero_abs (x : F64.float) :
  F64.add (F64.of_Z 0) (F64.abs x) = F64.abs x.
Proof.
  destruct x as [[|]|[|]| |[|] mx ex]; reflexivity.
Qed.

(** Rounding to nearest even does not look at the sign. *)
Lemma abs_binary_round (m : positive) (e : Z) :
  F64.abs (binary_round F64.prec F64.emax true m e)
  = F64.abs (binary_round F64.prec F64.emax false m e).
Proof.
  unfold binary_round, binary_round_aux.
  destruct (shl_align m e _) as [mz ez].
  destruct (shr_fexp _ _ _ _ _) as [mrs' e'].
  destruct (shr_fexp _ _ _ _ _) as [mrs'' e''].
  destruct (shr_m mrs''); [reflexivity | | reflexivity].
  destruct (Z.leb _ _); reflexivity.
Qed.

Lemma abs_binary_normalize_opp (z e : Z) :
  F64.abs (binary_normalize F64.prec F64.emax (- z) e false)
  = F64.abs (binary_normalize F64.prec F64.emax z e false).
Proof.
  destruct z as [| m | m]; cbn [Z.opp binary_normalize];
    [reflexivity | apply abs_binary_round |].
  symmetry. apply abs_binary_round.
Qed.

(** [|x - y|] is [|y - x|]. *)
Lemma abs_sub_comm (x y : F64.float) :
  F64.abs (F64.sub x y) = F64.abs (F64.sub y x).
Proof.
  destruct x as [[|]|[|]| |sx mx ex], y as [[|]|[|]| |sy my ey];
    try reflexivity.
  unfold F64.sub, SFsub. rewrite (Z.min_comm ey ex).
  rewrite <- abs_binary_normalize_opp. f_equal. f_equal. lia.
Qed.

End FloatOrder.

(** ** The severity band matcher *)

Section Matcher.

Variable size_in_base : F64.float.

(** The score of the loop is the score of the specification. *)
Lemma band_score_spec (b : BandRow.t) :
  band_score size_in_base b = spec_score size_in_base b.
Proof.
  unfold band_score, spec_score, in_range, distance.
  fold (min_base b) (max_base b). fold (midpoint b).
  rewrite (abs_sub_comm size_in_base (midpoint b)).
  destruct (F64.leb _ size_in_base && F64.leb size_in_base _); reflexivity.
Qed.

Lemma first_least_step (l : list BandRow.t) (b x : BandRow.t) :
  first_least size_in_base l b ->
  exists b',
    band_step size_in_base (Some b, Some (band_score size_in_base b)) x
    = (Some b', Some (band_score size_in_base b'))
    /\ first_least size_in_base (l ++ [x]) b'.
Proof.
  intros (l1 & l2 & -> & Hbefore & Hafter).
  unfold band_step; cbn [snd].
  destruct (F64.ltb (band_score size_in_base x) (band_score size_in_base b))
    eqn:E.
  - exists x. split; [reflexivity |].
    exists (l1 ++ b :: l2), []. split; [reflexivity |]. split.
    + intros y Hy. apply in_app_or in Hy as [Hy | [<- | Hy]].
      * destruct (Hbefore y Hy) as [Hnan | Hlt]; [left; exact Hnan | right].
        eapply ltb_trans; eassumption.
      * right. exact E.
      * eapply ltb_not_ltb_trans; [exact E | auto].
    + intros y [].
  - exists b. split; [reflexivity |].
    exists l1, (l2 ++ [x]). split.
    + rewrite <- app_assoc. reflexivity.
    + split; [exact Hbefore |].
      intros y Hy. apply in_app_or in Hy as [Hy | [<- | []]]; auto.
Qed.

Lemma first_least_loop (rest l : list BandRow.t) (b : BandRow.t) :
  first_least size_in_base l b ->
  exists b',
    fst (fold_left (band_step size_in_base) rest
           (Some b, Some (band_score size_in_base b)))
    = Some b'
    /\ first_least size_in_base (l ++ rest) b'.
Proof.
  revert l b. induction rest as [| x rest IH]; intros l b H.
  - exists b. rewrite app_nil_r. split; [reflexivity | exact H].
  - destruct (first_least_step l b x H) as (b' & Hstep & H').
    cbn [fold_left]. rewrite Hstep.
    destruct (IH _ _ H') as (b'' & Hfold & H'').
    exists b''. split; [exact Hfold |].
    rewrite <- app_assoc in H''. exact H''.
Qed.

(** On a non-empty list the loop ends with the first band of least score. *)
Lemma best_band_first_least (bands : list BandRow.t) :
  bands <> [] ->
  exists best, best_band size_in_base bands = Some best
               /\ first_least size_in_base bands best.
Proof.
  destruct bands as [| b rest]; [congruence | intros _].
  unfold best_band. cbn [fold_left]. unfold band_step at 2. cbn [snd].
  apply (first_least_loop rest [b] b).
  exists [], []. split; [reflexivity |]. split; intros y [].
Qed.

Lemma first_least_in (l : list BandRow.t) (b : BandRow.t) :
  first_least size_in_base l b -> In b l.
Proof.
  intros (l1 & l2 & -> & _). apply in_or_app. right. left. reflexivity.
Qed.

(** No band scores less than the first band of least score. *)
Lemma first_least_not_ltb (l : list BandRow.t) (b x : BandRow.t) :
  first_least size_in_base l b -> In x l ->
  F64.ltb (band_score size_in_base x) (band_score size_in_base b) = false.
Proof.
  intros (l1 & l2 & -> & Hbefore & Hafter) Hx.
  apply in_app_or in Hx as [Hx | [<- | Hx]].
  - destruct (Hbefore x Hx) as [Hnan | Hlt].
    + destruct (band_score size_in_base x); try discriminate. reflexivity.
    + apply ltb_asym. exact Hlt.
  - apply ltb_irrefl.
  - auto.
Qed.

(** No band before it has the same score. *)
Lemma first_least_before (l1 l2 : list BandRow.t) (b x : BandRow.t) :
  (forall y, In y l1 ->
             F64.is_nan (band_score size_in_base y) = true
             \/ F64.ltb (band_score size_in_base b)
                        (band_score size_in_base y) = true) ->
  In x l1 ->
  F64.eqb (band_score size_in_base x) (band_score size_in_base b) = false.
Proof.
  intros Hbefore Hx. destruct (Hbefore x Hx) as [Hnan | Hlt].
  - apply is_nan_eqb_false. exact Hnan.
  - apply ltb_eqb_false. exact Hlt.
Qed.

End Matcher.

Lemma select_bands_row_of_band (st : Store) (damage_type_id : Z)
    (b : BandRow.t) :
  In b (select_bands st damage_type_id) -> row_of_band st damage_type_id b.
Proof.
  unfold select_bands. intros H.
  apply in_flat_map in H as (sb & Hsb & H).
  apply filter_In in Hsb as [Hsb Hdt].
  apply in_map_iff in H as (u & <- & Hu).
  apply filter_In in Hu as [Hu Hid].
  exists sb, u. cbn.
  apply Z.eqb_eq in Hdt, Hid. repeat split; assumption.
Qed.

Lemma select_bands_complete (st : Store) (damage_type_id : Z)
    (sb : SeverityBand.t) (u : Unit.t) :
  In sb (tSeverityBand st) -> In u (tUnit st) ->
  SeverityBand.damage_type_id sb = damage_type_id ->
  Unit.unit_id u = SeverityBand.unit_id sb ->
  In (BandRow.Build (SeverityBand.severity_band_id sb)
        (SeverityBand.band_label sb) (SeverityBand.range_min sb)
        (SeverityBand.range_max sb) (Unit.symbol u)
        (Unit.conversion_to_base u))
     (select_bands st damage_type_id).
Proof.
  intros Hsb Hu Hdt Hid. unfold select_bands.
  apply in_flat_map. exists sb. split.
  - apply filter_In. split; [exact Hsb |]. apply Z.eqb_eq. exact Hdt.
  - apply in_map_iff. exists u. split; [reflexivity |].
    apply filter_In. split; [exact Hu |]. apply Z.eqb_eq. exact Hid.
Qed.

(** When the unit is known and the damage type has bands,
    [pick_severity_band] returns the first band of least score. *)
Lemma pick_severity_band_first_least (st : Store) (damage_type_id : Z)
    (size_value : Q) (unit_symbol : string) (u : Unit.t) :
  Sql.fetchone (select_unit st unit_symbol) = Some u ->
  select_bands st damage_type_id <> [] ->
  exists best,
    pick_severity_band st damage_type_id size_value unit_symbol
    = Py.ret (BandRow.severity_band_id best, info_of best,
              size_value * Unit.conversion_to_base u)
    /\ first_least (base_size size_value u)
         (select_bands st damage_type_id) best.
Proof.
  intros Hu Hbands. unfold pick_severity_band. rewrite Hu.
  destruct (best_band_first_least
              (base_size size_value u) _ Hbands)
    as (best & Hbest & Hleast).
  exists best. split; [| exact Hleast].
  destruct (select_bands st damage_type_id); [congruence |].
  rewrite Hbest. reflexivity.
Qed.

(** C3.  The band rows are the severity bands of the damage type, each
    with the conversion factor of its own unit; with
    [min_base = range_min * conv] and [max_base = range_max * conv], a band
    scores 0 if [min_base <= size_in_base <= max_base] and 1 otherwise, plus
    [|size_in_base - (min_base + max_base) / 2|], all computed in doubles as
    the loop does; and when the unit is known and the damage type has bands,
    the matcher returns a band whose score is least among all bands: no band
    scores less, and its score is [<=] that of every band (scores that are
    numbers; a NaN compares with nothing). *)
Theorem matcher_returns_least_score (st : Store) (damage_type_id : Z)
    (size_value : Q) (unit_symbol : string) (u : Unit.t) :
  Sql.fetchone (select_unit st unit_symbol) = Some u ->
  select_bands st damage_type_id <> [] ->
  let size_in_base := base_size size_value u in
  (forall sb u',
      In sb (tSeverityBand st) -> In u' (tUnit st) ->
      SeverityBand.damage_type_id sb = damage_type_id ->
      Unit.unit_id u' = SeverityBand.unit_id sb ->
      In (BandRow.Build (SeverityBand.severity_band_id sb)
            (SeverityBand.band_label sb) (SeverityBand.range_min sb)
            (SeverityBand.range_max sb) (Unit.symbol u')
            (Unit.conversion_to_base u'))
         (select_bands st damage_type_id))
  /\ (forall b, In b (select_bands st damage_type_id) ->
                row_of_band st damage_type_id b)
  /\ (forall b, band_score size_in_base b = spec_score size_in_base b)
  /\ exists best,
      pick_severity_band st damage_type_id size_value unit_symbol
      = Py.ret (BandRow.severity_band_id best, info_of best,
                size_value * Unit.conversion_to_base u)
      /\ In best (select_bands st damage_type_id)
      /\ forall b, In b (select_bands st damage_type_id) ->
                   F64.ltb (spec_score size_in_base b)
                           (spec_score size_in_base best) = false
                   /\ (F64.is_nan (spec_score size_in_base best) = false ->
                       F64.is_nan (spec_score size_in_base b) = false ->
                       F64.leb (spec_score size_in_base best)
                               (spec_score size_in_base b) = true).
Proof.
  intros Hu Hbands size_in_base. split; [| split; [| split]].
  - intros sb u' Hsb Hu' Hdt Hid. apply select_bands_complete; assumption.
  - intros b. apply select_bands_row_of_band.
  - intros b. apply band_score_spec.
  - destruct (pick_severity_band_first_least st damage_type_id size_value
                unit_symbol u Hu Hbands) as (best & Hpick & Hleast).
    fold size_in_base in Hleast.
    exists best. split; [exact Hpick |]. split.
    + eapply first_least_in; eassumption.
    + intros b Hb. rewrite <- !band_score_spec.
      pose proof (first_least_not_ltb _ _ _ _ Hleast Hb) as Hnot.
      split; [exact Hnot |].
      intros Hbest Hnan. apply not_ltb_leb; assumption.
Qed.

Lemma matcher_returns_least_score_witness :
  let st := store_small_large in
  let size_in_base := base_size 5 unit_m2 in
  (forall sb u',
      In sb (tSeverityBand st) -> In u' (tUnit st) ->
      SeverityBand.damage_type_id sb = 1%Z ->
      Unit.unit_id u' = SeverityBand.unit_id sb ->
      In (BandRow.Build (SeverityBand.severity_band_id sb)
            (SeverityBand.band_label sb) (SeverityBand.range_min sb)
            (SeverityBand.range_max sb) (Unit.symbol u')
            (Unit.conversion_to_base u'))
         (select_bands st 1))
  /\ (forall b, In b (select_bands st 1) -> row_of_band st 1 b)
  /\ (forall b, band_score size_in_base b = spec_score size_in_base b)
  /\ exists best,
      pick_severity_band st 1 5 "m2"
      = Py.ret (BandRow.severity_band_id best, info_of best,
                5 * Unit.conversion_to_base unit_m2)
      /\ In best (select_bands st 1)
      /\ forall b, In b (select_bands st 1) ->
                   F64.ltb (spec_score size_in_base b)
                           (spec_score size_in_base best) = false
                   /\ (F64.is_nan (spec_score size_in_base best) = false ->
                       F64.is_nan (spec_score size_in_base b) = false ->
                       F64.leb (spec_score size_in_base best)
                               (spec_score size_in_base b) = true).
Proof.
  apply (matcher_returns_least_score store_small_large 1 5 "m2" unit_m2).
  - reflexivity.
  - vm_compute. discriminate.
Defined.

(** The scores are those of Python's doubles: at size 0.2 the band
    [0.2, 2.5] scores 1.1500000000000001 and the band [0, 0.1] scores 1.15,
    so the second band is returned, where the exact scores are equal. *)
Example scores_are_rounded_as_doubles :
  let s := F64.mul (F64.of_Q 0.2) (F64.of_Q 1) in
  band_score s (BandRow.Build 1 "a" 0.2 2.5 "m2" 1)
  = S754_finite false 5179139571476071 (-52)
  /\ band_score s (BandRow.Build 2 "b" 0 0.1 "m2" 1)
     = S754_finite false 5179139571476070 (-52)
  /\ best_band s [BandRow.Build 1 "a" 0.2 2.5 "m2" 1;
                  BandRow.Build 2 "b" 0 0.1 "m2" 1]
     = Some (BandRow.Build 2 "b" 0 0.1 "m2" 1).
Proof.
  split; [vm_compute; reflexivity |]. split; vm_compute; reflexivity.
Qed.

(** More inputs where the rounding decides: at size 0.3 the bands
    [0, 0.3] and [0.2, 0.7] score 0.15 and 0.14999999999999997, the second
    is returned; at size 0 the bands [0.1, 0.8] and [0.2, 0.7] both score
    1.45 and [0.1, 0.4] and [0.2, 0.3] both 1.25, the first is returned; at
    size 5 with factor 0.001, the band [50, 102] with factor 0.0001 is
    returned against [0.7, 19.7] with factor 0.001. *)
Example rounding_decides_the_band :
  let pick size conv bands :=
    option_map BandRow.severity_band_id
      (best_band (F64.mul (F64.of_Q size) (F64.of_Q conv)) bands) in
  pick 0.3 1 [BandRow.Build 1 "a" 0 0.3 "m2" 1;
              BandRow.Build 2 "b" 0.2 0.7 "m2" 1] = Some 2%Z
  /\ pick 0 1 [BandRow.Build 1 "a" 0.1 0.8 "m2" 1;
               BandRow.Build 2 "b" 0.2 0.7 "m2" 1] = Some 1%Z
  /\ band_score (S754_zero false) (BandRow.Build 1 "a" 0.1 0.8 "m2" 1)
     = band_score (S754_zero false) (BandRow.Build 2 "b" 0.2 0.7 "m2" 1)
  /\ pick 0 1 [BandRow.Build 1 "a" 0.1 0.4 "m2" 1;
               BandRow.Build 2 "b" 0.2 0.3 "m2" 1] = Some 1%Z
  /\ band_score (S754_zero false) (BandRow.Build 1 "a" 0.1 0.4 "m2" 1)
     = F64.of_Q 1.25
  /\ band_score (S754_zero false) (BandRow.Build 2 "b" 0.2 0.3 "m2" 1)
     = F64.of_Q 1.25
  /\ pick 5 0.001 [BandRow.Build 1 "a" 0.7 19.7 "mm2" 0.001;
                   BandRow.Build 2 "b" 50 102 "cm2" 0.0001] = Some 2%Z.
Proof.
  cbv zeta. repeat split; vm_compute; reflexivity.
Qed.

(** C4.  Ties are broken by the store's return order: the returned band has
    the least score and no band before it in the list the store returned has
    that score.  With "small" [0, 5] stored before "large" [5, 100] and size
    5, "small" is returned.  With "low" [0, 2] and "high" [2, 4] after a band
    "far", size 2 gives both the least score 1: the one stored first is
    returned, "low" in one order and "high" in the other. *)
Theorem matcher_tie_first_in_store_order :
  (forall (st : Store) (damage_type_id : Z) (size_value : Q)
          (unit_symbol : string) (u : Unit.t),
      Sql.fetchone (select_unit st unit_symbol) = Some u ->
      select_bands st damage_type_id <> [] ->
      let size_in_base := base_size size_value u in
      exists before best after,
        select_bands st damage_type_id = before ++ best :: after
        /\ pick_severity_band st damage_type_id size_value unit_symbol
           = Py.ret (BandRow.severity_band_id best, info_of best,
                     size_value * Unit.conversion_to_base u)
        /\ (forall b, In b (select_bands st damage_type_id) ->
                      F64.ltb (spec_score size_in_base b)
                              (spec_score size_in_base best) = false)
        /\ (forall b, In b before ->
                      F64.eqb (spec_score size_in_base b)
                              (spec_score size_in_base best) = false))
  /\ pick_severity_band store_small_large 1 5 "m2"
     = Py.ret (1%Z, BandInfo.Build 1 "small" 0 5 "m2", 5)
  /\ (F64.eqb (spec_score (base_size 2 unit_m2) row_low)
              (spec_score (base_size 2 unit_m2) row_high) = true
      /\ select_bands store_far_low_high 1 = [row_far; row_low; row_high]
      /\ pick_severity_band store_far_low_high 1 2 "m2"
         = Py.ret (2%Z, BandInfo.Build 2 "low" 0 2 "m2", 2)
      /\ select_bands store_far_high_low 1 = [row_far; row_high; row_low]
      /\ pick_severity_band store_far_high_low 1 2 "m2"
         = Py.ret (3%Z, BandInfo.Build 3 "high" 2 4 "m2", 2)).
Proof.
  split; [| split; [reflexivity |]].
  - intros st damage_type_id size_value unit_symbol u Hu Hbands size_in_base.
    destruct (pick_severity_band_first_least st damage_type_id size_value
                unit_symbol u Hu Hbands) as (best & Hpick & Hleast).
    fold size_in_base in Hleast.
    pose proof Hleast as (before & after & Heq & Hbefore & Hafter).
    exists before, best, after. split; [exact Heq |]. split; [exact Hpick |].
    split.
    + intros b Hb. rewrite <- !band_score_spec.
      eapply first_least_not_ltb; eassumption.
    + intros b Hb. rewrite <- !band_score_spec.
      eapply first_least_before; eassumption.
  - split; [vm_compute; reflexivity |]. split; [reflexivity |].
    split; [vm_compute; reflexivity |]. split; [reflexivity |].
    vm_compute; reflexivity.
Qed.

Lemma matcher_tie_first_in_store_order_witness :
  let size_in_base := base_size 2 unit_m2 in
  (F64.eqb (spec_score size_in_base row_low)
           (spec_score size_in_base row_high) = true
   /\ F64.ltb (spec_score size_in_base row_low)
              (spec_score size_in_base row_far) = true)
  /\ exists before best after,
      select_bands store_far_low_high 1 = before ++ best :: after
      /\ pick_severity_band store_far_low_high 1 2 "m2"
         = Py.ret (BandRow.severity_band_id best, info_of best,
                   2 * Unit.conversion_to_base unit_m2)
      /\ (forall b, In b (select_bands store_far_low_high 1) ->
                    F64.ltb (spec_score size_in_base b)
                            (spec_score size_in_base best) = false)
      /\ (forall b, In b before ->
                    F64.eqb (spec_score size_in_base b)
                            (spec_score size_in_base best) = false).
Proof.
  split; [split; vm_compute; reflexivity |].
  apply (proj1 matcher_tie_first_in_store_order
               store_far_low_high 1%Z 2 "m2"%string unit_m2).
  - reflexivity.
  - vm_compute. discriminate.
Defined.

(** In the scenario of C4 the two bands do not tie: at size 5 "small"
    scores 2.5 and "large" 47.5, so "small" also wins when stored second. *)
Example small_wins_on_score_when_stored_second :
  band_score (base_size 5 unit_m2) row_small = F64.of_Q 2.5
  /\ band_score (base_size 5 unit_m2) row_large = F64.of_Q 47.5
  /\ pick_severity_band store_large_small 1 5 "m2"
     = Py.ret (1%Z, BandInfo.Build 1 "small" 0 5 "m2", 5).
Proof.
  split; [vm_compute; reflexivity |]. split; vm_compute; reflexivity.
Qed.

(** C1.  The code does not do what the claim says: with the bands "small"
    [0, 5] and "large" [5, 100] and size 10, only "large" contains the size,
    yet the matcher returns "small" (scores 1 + 7.5 and 0 + 42.5): the
    penalty of 1 for a band out of range is outweighed by the distance to the
    midpoint of the wide band. *)
Theorem matcher_returns_out_of_range_band :
  let size_in_base := base_size 10 unit_m2 in
  select_bands store_small_large 1 = [row_small; row_large]
  /\ in_range size_in_base row_small = false
  /\ in_range size_in_base row_large = true
  /\ band_score size_in_base row_small = F64.of_Q 8.5
  /\ band_score size_in_base row_large = F64.of_Q 42.5
  /\ pick_severity_band store_small_large 1 10 "m2"
     = Py.ret (1%Z, BandInfo.Build 1 "small" 0 5 "m2", 10).
Proof.
  cbv zeta. split; [reflexivity |].
  split; [vm_compute; reflexivity |]. split; [vm_compute; reflexivity |].
  split; [vm_compute; reflexivity |]. split; vm_compute; reflexivity.
Qed.

(** ** The cost line calculator and the aggregator *)

Lemma estimate_costs_line_of_row (rows : list CostRow.t) (size_in_base : Q) :
  Forall2 (line_of_row size_in_base) rows (estimate_costs rows size_in_base).
Proof.
  induction rows as [| r rows IH]; cbn; constructor; [| exact IH].
  unfold line_of_row, spec_estimate; cbn.
  destruct r as [? ? ? ? ? [?|] [?|] [?|] [?|] [?|] [?|] ? ?]; cbn;
    repeat split; reflexivity.
Qed.

Lemma estimate_costs_keeps_rule (rows : list CostRow.t) (size_in_base : Q) :
  Forall (line_keeps_rule size_in_base) (estimate_costs rows size_in_base).
Proof.
  induction rows as [| r rows IH]; cbn; constructor; [| exact IH].
  unfold line_keeps_rule, spec_estimate; cbn.
  destruct r as [? ? ? ? ? [?|] [?|] [?|] [?|] [?|] [?|] ? ?]; cbn;
    split; reflexivity.
Qed.

(** C5.  Every line is the estimate of its cost row, each category computed
    from its own unit cost, min and max by the fallback rule (so neither
    category enters the other's rule); labor unit cost 10 at size 3 gives
    30, and material min 5, max 15 without unit cost gives 10. *)
Theorem estimate_costs_fallback_rule :
  (forall (rows : list CostRow.t) (size_in_base : Q),
      Forall2 (line_of_row size_in_base) rows
              (estimate_costs rows size_in_base))
  /\ (forall r : CostRow.t,
         CostRow.labor_unit_cost r = Some 10 ->
         CostRow.material_unit_cost r = None ->
         CostRow.material_cost_min r = Some 5 ->
         CostRow.material_cost_max r = Some 15 ->
         exists e m,
           estimate_costs [r] 3 = [e]
           /\ EstimateLine.estimated_labor e = Some 30
           /\ EstimateLine.estimated_material e = Some m
           /\ m == 10).
Proof.
  split; [exact estimate_costs_line_of_row |].
  intros r Hl Hu Hlo Hhi. cbn. rewrite Hl, Hu, Hlo, Hhi.
  eexists. exists ((5 + 15) / 2). cbn.
  repeat split; reflexivity.
Qed.

Lemma estimate_costs_fallback_rule_witness :
  exists e m,
    estimate_costs (firstn 1 (fetch_cost_rows store_demo 1 11 1 en)) 3 = [e]
    /\ EstimateLine.estimated_labor e = Some 30
    /\ EstimateLine.estimated_material e = Some m
    /\ m == 10.
Proof.
  apply (proj2 estimate_costs_fallback_rule
               (CostRow.Build 1 "A1" "Inspect" 1 true (Some 10) None None
                  None (Some 5) (Some 15) (Some "m2"%string) None));
    reflexivity.
Defined.

Lemma or0_value (x : option Q) :
  Py.or0 x == match x with Some v => v | None => 0 end.
Proof.
  destruct x as [v |]; cbn; [| reflexivity].
  destruct (Qeq_bool v 0) eqn:E; [| reflexivity].
  apply Qeq_bool_iff in E. symmetry. exact E.
Qed.

Lemma sum_or0_from (f : EstimateLine.t -> option Q)
    (estimates : list EstimateLine.t) (acc : Q) :
  fold_left Qplus (map (fun e => Py.or0 (f e)) estimates) acc
  == acc + sum_or_zero (map f estimates).
Proof.
  revert acc. induction estimates as [| e es IH]; intros acc; cbn.
  - lra.
  - rewrite IH. pose proof (or0_value (f e)) as H.
    destruct (f e); rewrite H; lra.
Qed.

Lemma main_success (st : Store) (env : Env) (args : Args.t)
    (report : Report.t) :
  main st env args = inr report ->
  exists damage_type_id code_used price_book_id price_year severity_band_id
         band_info size_in_base,
    fetch_damage_type_code st env (Args.language args)
      (Args.damage_code args) (Args.description args)
      (Args.openai_model args) = inr (damage_type_id, code_used)
    /\ resolve_price_book_id st damage_type_id (Args.language args) code_used
         (Args.price_year args) = inr (price_book_id, price_year)
    /\ pick_severity_band st damage_type_id (Args.size args) (Args.unit args)
       = inr (severity_band_id, band_info, size_in_base)
    /\ fetch_cost_rows st damage_type_id price_book_id severity_band_id
         (Args.language args) <> []
    /\ report
       = let estimates :=
           estimate_costs
             (fetch_cost_rows st damage_type_id price_book_id
                severity_band_id (Args.language args)) size_in_base in
         Report.Build code_used (Args.language args) price_year band_info
           (Args.size args) (Args.unit args) size_in_base estimates
           (total_labor estimates) (total_material estimates)
           (total_labor estimates + total_material estimates).
Proof.
  unfold main, Py.bind, Py.ret, Py.raise.
  destruct (fetch_damage_type_code _ _ _ _ _ _) as [? | [dt code]] eqn:E1;
    [discriminate |].
  destruct (resolve_price_book_id _ _ _ _ _) as [? | [pb year]] eqn:E2;
    [discriminate |].
  destruct (pick_severity_band _ _ _ _) as [? | [[sb info] s]] eqn:E3;
    [discriminate |].
  destruct (fetch_cost_rows st dt pb sb (Args.language args)) eqn:Erows;
    [discriminate |].
  intros H. injection H as H. subst report.
  exists dt, code, pb, year, sb, info, s. rewrite Erows.
  split; [reflexivity |]. split; [exact E2 |]. split; [exact E3 |].
  split; [discriminate | reflexivity].
Qed.

Lemma estimate_costs_nonempty (rows : list CostRow.t) (size_in_base : Q) :
  rows <> [] -> estimate_costs rows size_in_base <> [].
Proof.
  destruct rows; [congruence | cbn; discriminate].
Qed.

(** C6.  The labor total is the sum of the lines' labor estimates with null
    counted as zero, the material total likewise; a successful run reports
    these totals of its (non-empty) lines, its grand total is their sum, and
    its lines are printed as estimated: a category with no unit cost and no
    min stays null in the line. *)
Theorem totals_sum_lines_with_null_as_zero :
  (forall estimates : list EstimateLine.t,
      total_labor estimates
      == sum_or_zero (map EstimateLine.estimated_labor estimates)
      /\ total_material estimates
         == sum_or_zero (map EstimateLine.estimated_material estimates))
  /\ (forall (st : Store) (env : Env) (args : Args.t) (report : Report.t),
         main st env args = inr report ->
         Report.lines report <> []
         /\ Report.total_labor report = total_labor (Report.lines report)
         /\ Report.total_material report
            = total_material (Report.lines report)
         /\ Report.grand_total report
            = Report.total_labor report + Report.total_material report
         /\ Forall (line_keeps_rule (Report.size_in_base report))
                   (Report.lines report)
         /\ (forall e, In e (Report.lines report) ->
                       EstimateLine.labor_unit_cost e = None ->
                       EstimateLine.labor_cost_min e = None ->
                       EstimateLine.estimated_labor e = None)
         /\ (forall e, In e (Report.lines report) ->
                       EstimateLine.material_unit_cost e = None ->
                       EstimateLine.material_cost_min e = None ->
                       EstimateLine.estimated_material e = None)).
Proof.
  split.
  - intros estimates. unfold total_labor, total_material, Py.sum.
    rewrite !sum_or0_from. split; lra.
  - intros st env args report Hmain.
    destruct (main_success st env args report Hmain)
      as (dt & code & pb & year & sb & info & s & _ & _ & _ & Hrows & ->).
    cbn.
    pose proof (estimate_costs_keeps_rule
                  (fetch_cost_rows st dt pb sb (Args.language args)) s)
      as Hrule.
    split; [apply estimate_costs_nonempty; exact Hrows |].
    do 3 (split; [reflexivity |]). split; [exact Hrule |].
    rewrite Forall_forall in Hrule.
    split; intros e He Hu Hlo; destruct (Hrule e He) as [Hl Hm].
    + rewrite Hl, Hu, Hlo. reflexivity.
    + rewrite Hm, Hu, Hlo. reflexivity.
Qed.

Lemma totals_sum_lines_with_null_as_zero_witness :
  exists report,
    main store_demo env_without_openai (args_code "UNKNOWN_GENERAL" 3 None)
    = inr report
    /\ Report.lines report <> []
    /\ Report.total_labor report = total_labor (Report.lines report)
    /\ Report.total_material report = total_material (Report.lines report)
    /\ Report.grand_total report
       = Report.total_labor report + Report.total_material report
    /\ Forall (line_keeps_rule (Report.size_in_base report))
              (Report.lines report)
    /\ (forall e, In e (Report.lines report) ->
                  EstimateLine.labor_unit_cost e = None ->
                  EstimateLine.labor_cost_min e = None ->
                  EstimateLine.estimated_labor e = None)
    /\ (forall e, In e (Report.lines report) ->
                  EstimateLine.material_unit_cost e = None ->
                  EstimateLine.material_cost_min e = None ->
                  EstimateLine.estimated_material e = None).
Proof.
  destruct (main store_demo env_without_openai
              (args_code "UNKNOWN_GENERAL" 3 None)) as [e | report] eqn:E.
  - vm_compute in E. discriminate E.
  - exists report. split; [reflexivity |].
    exact (proj2 totals_sum_lines_with_null_as_zero store_demo
             env_without_openai (args_code "UNKNOWN_GENERAL" 3 None)
             report E).
Defined.

(** C7.  When the three earlier stages succeed and the cost query returns no
    row, the run raises the "No costs found" error, the no-data kind of the
    taxonomy; and a run that succeeds never reports an empty list of
    lines. *)
Theorem no_cost_rows_fails_the_run :
  (forall (st : Store) (env : Env) (args : Args.t)
          (damage_type_id : Z) (code_used : string)
          (price_book_id price_year severity_band_id : Z)
          (band_info : BandInfo.t) (size_in_base : Q),
      fetch_damage_type_code st env (Args.language args)
        (Args.damage_code args) (Args.description args)
        (Args.openai_model args) = inr (damage_type_id, code_used) ->
      resolve_price_book_id st damage_type_id (Args.language args) code_used
        (Args.price_year args) = inr (price_book_id, price_year) ->
      pick_severity_band st damage_type_id (Args.size args) (Args.unit args)
      = inr (severity_band_id, band_info, size_in_base) ->
      fetch_cost_rows st damage_type_id price_book_id severity_band_id
        (Args.language args) = [] ->
      main st env args = Py.raise (Py.ValueError Py.NoCostsFound))
  /\ kind_of (Py.ValueError Py.NoCostsFound) = Some NoDataError
  /\ (forall (st : Store) (env : Env) (args : Args.t) (report : Report.t),
         main st env args = inr report -> Report.lines report <> []).
Proof.
  split; [| split; [reflexivity |]].
  - intros st env args dt code pb year sb info s E1 E2 E3 Erows.
    unfold main. rewrite E1. cbn. rewrite E2. cbn. rewrite E3. cbn.
    rewrite Erows. reflexivity.
  - intros st env args report Hmain.
    destruct (main_success st env args report Hmain)
      as (dt & code & pb & year & sb & info & s & _ & _ & _ & Hrows & ->).
    cbn. apply estimate_costs_nonempty. exact Hrows.
Qed.

(** A run whose only line has no cost in either category succeeds, with
    both totals zero: the failure concerns empty row lists only. *)
Example null_estimates_total_zero :
  exists report,
    main store_null_costs env_without_openai
      (args_code "UNKNOWN_GENERAL" 3 None) = inr report
    /\ map EstimateLine.estimated_labor (Report.lines report) = [None]
    /\ map EstimateLine.estimated_material (Report.lines report) = [None]
    /\ Report.total_labor report = 0
    /\ Report.total_material report = 0
    /\ Report.grand_total report = 0.
Proof.
  eexists. split; [vm_compute; reflexivity |]. repeat split.
Qed.

Lemma no_cost_rows_fails_the_run_witness :
  main store_demo env_without_openai
    (args_code "UNKNOWN_GENERAL" 3 (Some 2021%Z))
  = Py.raise (Py.ValueError Py.NoCostsFound)
  /\ exists report,
      main store_demo env_without_openai (args_code "UNKNOWN_GENERAL" 3 None)
      = inr report
      /\ Report.lines report <> [].
Proof.
  split.
  - apply (proj1 no_cost_rows_fails_the_run store_demo env_without_openai
             (args_code "UNKNOWN_GENERAL" 3 (Some 2021%Z))
             1%Z "UNKNOWN_GENERAL"%string 10%Z 2021%Z 1%Z
             (BandInfo.Build 1 "small" 0 5 "m2") 3);
      reflexivity.
  - destruct (main store_demo env_without_openai
                (args_code "UNKNOWN_GENERAL" 3 None)) as [e | report] eqn:E.
    + vm_compute in E. discriminate E.
    + exists report. split; [reflexivity |].
      exact (proj2 (proj2 no_cost_rows_fails_the_run) store_demo
               env_without_openai (args_code "UNKNOWN_GENERAL" 3 None)
               report E).
Defined.

(** ** The price book selector *)

Lemma fold_max_from_some (xs : list (option Z)) (a : Z) :
  exists m,
    fold_left Sql.max_opt xs (Some a) = Some m
    /\ (m = a \/ In (Some m) xs)
    /\ (a <= m)%Z
    /\ forall y, In (Some y) xs -> (y <= m)%Z.
Proof.
  revert a. induction xs as [| x xs IH]; intros a; cbn [fold_left].
  - exists a. split; [reflexivity |]. split; [left; reflexivity |].
    split; [lia |]. intros y [].
  - destruct x as [v |]; cbn [Sql.max_opt].
    + destruct (IH (Z.max a v)) as (m & Hm & Hwhere & Hge & Hall).
      exists m. split; [exact Hm |]. split; [| split; [lia |]].
      * destruct Hwhere as [-> | Hin]; [| right; right; exact Hin].
        destruct (Z.max_spec a v) as [[_ ->] | [_ ->]];
          [right; left; reflexivity | left; reflexivity].
      * intros y [[= ->] | Hy]; [lia | auto].
    + destruct (IH a) as (m & Hm & Hwhere & Hge & Hall).
      exists m. split; [exact Hm |]. split; [| split; [exact Hge |]].
      * destruct Hwhere as [-> | Hin];
          [left; reflexivity | right; right; exact Hin].
      * intros y [[=] | Hy]. auto.
Qed.

Lemma MAX_none (xs : list (option Z)) :
  (forall y, ~ In (Some y) xs) -> Sql.MAX xs = None.
Proof.
  unfold Sql.MAX. induction xs as [| x xs IH]; intros H; [reflexivity |].
  destruct x as [v |].
  - exfalso. apply (H v). left. reflexivity.
  - cbn. apply IH. intros y Hy. apply (H y). right. exact Hy.
Qed.

Lemma MAX_greatest (xs : list (option Z)) (y0 : Z) :
  In (Some y0) xs ->
  exists m,
    Sql.MAX xs = Some m /\ In (Some m) xs
    /\ forall y, In (Some y) xs -> (y <= m)%Z.
Proof.
  unfold Sql.MAX. induction xs as [| x xs IH]; intros Hin; [destruct Hin |].
  destruct x as [v |]; cbn [fold_left Sql.max_opt].
  - destruct (fold_max_from_some xs v) as (m & Hm & Hwhere & Hge & Hall).
    exists m. split; [exact Hm |]. split.
    + destruct Hwhere as [-> | H]; [left; reflexivity | right; exact H].
    + intros y [[= ->] | Hy]; [exact Hge | auto].
  - destruct Hin as [[=] | Hin].
    destruct (IH Hin) as (m & Hm & Hwhere & Hall).
    exists m. split; [exact Hm |]. split; [right; exact Hwhere |].
    intros y [[=] | Hy]. auto.
Qed.

(** The years the MAX query ranges over are the cost-entry years. *)
Lemma cost_years_in (st : Store) (language : Lang) (damage_code : string)
    (y : Z) :
  In y (cost_years st language damage_code)
  <-> In (Some y)
         (map vActivityCostFull.price_year
            (filter (fun v =>
                       Sql.str_eq
                         (Sql.by_language language
                            (vActivityCostFull.damage_type_code_en v)
                            (vActivityCostFull.damage_type_code_nl v))
                         damage_code)
                    (tActivityCostFull st))).
Proof.
  unfold cost_years. rewrite in_flat_map, in_map_iff. split.
  - intros (v & Hv & Hy). exists v.
    destruct (Sql.str_eq _ damage_code) eqn:E; [| destruct Hy].
    destruct (vActivityCostFull.price_year v) as [y' |] eqn:Ey;
      [| destruct Hy].
    destruct Hy as [<- | []]. split; [reflexivity |].
    apply filter_In. split; assumption.
  - intros (v & Hy & Hv). apply filter_In in Hv as [Hv E].
    exists v. split; [exact Hv |]. rewrite E, Hy. left. reflexivity.
Qed.

Lemma select_max_year_none (st : Store) (language : Lang)
    (damage_code : string) :
  cost_years st language damage_code = [] ->
  select_max_year st language damage_code = None.
Proof.
  intros Hnil. unfold select_max_year. apply MAX_none.
  intros y Hy. apply cost_years_in in Hy. rewrite Hnil in Hy. exact Hy.
Qed.

Lemma select_max_year_greatest (st : Store) (language : Lang)
    (damage_code : string) :
  cost_years st language damage_code <> [] ->
  exists m,
    select_max_year st language damage_code = Some m
    /\ In m (cost_years st language damage_code)
    /\ forall y, In y (cost_years st language damage_code) -> (y <= m)%Z.
Proof.
  intros Hne.
  destruct (cost_years st language damage_code) as [| y0 ys] eqn:E;
    [congruence |].
  assert (H0 : In y0 (cost_years st language damage_code))
    by (rewrite E; left; reflexivity).
  apply cost_years_in in H0.
  destruct (MAX_greatest _ y0 H0) as (m & Hm & Hin & Hall).
  exists m. split; [exact Hm |]. rewrite <- E. split.
  - apply cost_years_in. exact Hin.
  - intros y Hy. apply Hall. apply cost_years_in. exact Hy.
Qed.

(** C8.  Without an explicit year: a damage type with no cost-entry year is
    refused with the "No price book years" error (no-data kind); otherwise
    the year of a successful selection is the greatest cost-entry year, and
    the selection succeeds with that year when the year has a price book
    version.  With cost entries for 2021 and 2023 the selector returns
    2023. *)
Theorem selector_picks_latest_cost_year :
  (forall (st : Store) (damage_type_id : Z) (language : Lang)
          (damage_code : string),
      cost_years st language damage_code = [] ->
      resolve_price_book_id st damage_type_id language damage_code None
      = Py.raise (Py.ValueError Py.NoPriceBookYears))
  /\ kind_of (Py.ValueError Py.NoPriceBookYears) = Some NoDataError
  /\ (forall (st : Store) (damage_type_id : Z) (language : Lang)
             (damage_code : string),
         cost_years st language damage_code <> [] ->
         exists m,
           In m (cost_years st language damage_code)
           /\ (forall y, In y (cost_years st language damage_code) ->
                         (y <= m)%Z)
           /\ (forall pb y,
                  resolve_price_book_id st damage_type_id language
                    damage_code None = inr (pb, y) -> y = m)
           /\ ((exists p, In p (tPriceBookVersion st)
                          /\ PriceBookVersion.year_label p = m) ->
               exists pb,
                 resolve_price_book_id st damage_type_id language
                   damage_code None = inr (pb, m)))
  /\ cost_years store_demo en "UNKNOWN_GENERAL" = [2021%Z; 2023%Z]
  /\ resolve_price_book_id store_demo 1 en "UNKNOWN_GENERAL" None
     = inr (11%Z, 2023%Z).
Proof.
  split; [| split; [reflexivity | split; [| split; reflexivity]]].
  - intros st dt language code Hnil. unfold resolve_price_book_id.
    rewrite (select_max_year_none st language code Hnil). reflexivity.
  - intros st dt language code Hne.
    destruct (select_max_year_greatest st language code Hne)
      as (m & Hm & Hin & Hall).
    exists m. split; [exact Hin |]. split; [exact Hall |].
    unfold resolve_price_book_id. rewrite Hm. cbn. split.
    + intros pb y.
      destruct (Sql.fetchone (select_price_book st m));
        [intros [= _ <-]; reflexivity | discriminate].
    + intros (p & Hp & Hyear).
      destruct (select_price_book st m) as [| pb rest] eqn:E.
      * exfalso.
        assert (Hin' : In (PriceBookVersion.price_book_id p)
                          (select_price_book st m)).
        { unfold select_price_book. apply in_map. apply filter_In.
          split; [exact Hp |]. apply Z.eqb_eq. exact Hyear. }
        rewrite E in Hin'. exact Hin'.
      * exists pb. reflexivity.
Qed.

Lemma selector_picks_latest_cost_year_witness :
  resolve_price_book_id store_small_large 1 en "UNKNOWN_GENERAL" None
  = Py.raise (Py.ValueError Py.NoPriceBookYears)
  /\ exists m pb,
      In m (cost_years store_demo nl "ONBEKEND_ALGEMEEN")
      /\ (forall y, In y (cost_years store_demo nl "ONBEKEND_ALGEMEEN") ->
                    (y <= m)%Z)
      /\ resolve_price_book_id store_demo 1 nl "ONBEKEND_ALGEMEEN" None
         = inr (pb, m).
Proof.
  split.
  - apply (proj1 selector_picks_latest_cost_year). reflexivity.
  - destruct (proj1 (proj2 (proj2 selector_picks_latest_cost_year))
                store_demo 1%Z nl "ONBEKEND_ALGEMEEN"%string)
      as (m & Hin & Hall & _ & Hreturns).
    + vm_compute. discriminate.
    + destruct Hreturns as [pb Hpb].
      * destruct Hin as [<- | [<- | []]].
        -- exists (PriceBookVersion.Build 10 2021).
           split; [left; reflexivity | reflexivity].
        -- exists (PriceBookVersion.Build 11 2023).
           split; [right; left; reflexivity | reflexivity].
      * exists m, pb. split; [exact Hin |]. split; [exact Hall | exact Hpb].
Defined.

(** ** Strings: [strip] and [split] *)

Section Strings.

Local Open Scope string_scope.

Lemma append_empty (s : string) : s ++ "" = s.
Proof.
  induction s as [| c s IH]; cbn; [reflexivity | rewrite IH; reflexivity].
Qed.

Lemma append_assoc (x y z : string) : (x ++ y) ++ z = x ++ (y ++ z).
Proof.
  induction x as [| c x IH]; cbn; [reflexivity | rewrite IH; reflexivity].
Qed.

Lemma rev_string_rev (s a b : string) :
  Py.rev_string a (Py.rev_string b s) = Py.rev_string (s ++ a) b.
Proof.
  revert a b. induction s as [| c s IH]; intros a b; cbn; [reflexivity |].
  rewrite IH. reflexivity.
Qed.

Lemma rev_string_involutive (s : string) :
  Py.rev_string "" (Py.rev_string "" s) = s.
Proof.
  rewrite rev_string_rev. cbn. apply append_empty.
Qed.

Lemma rev_string_app (x y a : string) :
  Py.rev_string a (x ++ y) = Py.rev_string (Py.rev_string a x) y.
Proof.
  revert a. induction x as [| c x IH]; intros a; cbn; [reflexivity |].
  apply IH.
Qed.

Lemma rev_string_acc (x a : string) :
  Py.rev_string a x = Py.rev_string "" x ++ a.
Proof.
  revert a. induction x as [| c x IH]; intros a; cbn; [reflexivity |].
  rewrite (IH (String c a)), (IH (String c "")), append_assoc. reflexivity.
Qed.

Lemma rev_string_nonempty (t a : string) (c : ascii) :
  exists c' r, Py.rev_string (String c a) t = String c' r.
Proof.
  revert a c. induction t as [| d t IH]; intros a c; cbn.
  - exists c, a. reflexivity.
  - apply IH.
Qed.

Lemma all_space_app (x y : string) :
  all_space x = true -> all_space y = true -> all_space (x ++ y) = true.
Proof.
  induction x as [| c x IH]; cbn; intros Hx Hy; [exact Hy |].
  apply andb_true_iff in Hx as [Hc Hx]. rewrite Hc. cbn. auto.
Qed.

Lemma all_space_rev (x a : string) :
  all_space a = true -> all_space x = true ->
  all_space (Py.rev_string a x) = true.
Proof.
  revert a. induction x as [| c x IH]; cbn; intros a Ha Hx; [exact Ha |].
  apply andb_true_iff in Hx as [Hc Hx]. apply IH; [| exact Hx].
  cbn. rewrite Hc. exact Ha.
Qed.

(** [lstrip] removes a whitespace prefix, [rstrip] a whitespace suffix. *)
Lemma lstrip_prefix (s : string) :
  exists w, all_space w = true /\ s = w ++ Py.lstrip s.
Proof.
  induction s as [| c s (w & Hw & IH)]; cbn.
  - exists "". split; reflexivity.
  - destruct (Py.isspace c) eqn:E.
    + exists (String c w). cbn. rewrite E, Hw, <- IH. split; reflexivity.
    + exists "". split; reflexivity.
Qed.

Lemma rstrip_suffix (s : string) :
  exists w, all_space w = true /\ s = Py.rstrip s ++ w.
Proof.
  unfold Py.rstrip.
  destruct (lstrip_prefix (Py.rev_string "" s)) as (w & Hw & E).
  exists (Py.rev_string "" w). split.
  - apply all_space_rev; [reflexivity | exact Hw].
  - rewrite <- (rev_string_involutive s) at 1. rewrite E at 1.
    rewrite rev_string_app. apply rev_string_acc.
Qed.

Lemma split_all_space (w : string) :
  all_space w = true -> Py.split_from "" w = [].
Proof.
  induction w as [| c w IH]; cbn; intros H; [reflexivity |].
  apply andb_true_iff in H as [Hc Hw]. rewrite Hc. auto.
Qed.

Lemma split_skips_leading (w x : string) :
  all_space w = true -> Py.split_from "" (w ++ x) = Py.split_from "" x.
Proof.
  induction w as [| c w IH]; cbn; intros H; [reflexivity |].
  apply andb_true_iff in H as [Hc Hw]. rewrite Hc. auto.
Qed.

Lemma split_ignores_trailing (x w acc : string) :
  all_space w = true -> Py.split_from acc (x ++ w) = Py.split_from acc x.
Proof.
  intros Hw. revert acc. induction x as [| c x IH]; intros acc; cbn.
  - destruct w as [| d w]; [reflexivity |]. cbn in Hw |- *.
    apply andb_true_iff in Hw as [Hd Hw]. rewrite Hd.
    rewrite (split_all_space w Hw). reflexivity.
  - destruct (Py.isspace c); [| apply IH].
    rewrite (IH ""). reflexivity.
Qed.

(** [strip] before [split] changes nothing. *)
Lemma split_strip (s : string) : Py.split (Py.strip s) = Py.split s.
Proof.
  unfold Py.split, Py.strip.
  destruct (rstrip_suffix (Py.lstrip s)) as (w & Hw & E).
  destruct (lstrip_prefix s) as (v & Hv & F).
  rewrite F at 2. rewrite (split_skips_leading v _ Hv).
  rewrite E at 2. rewrite (split_ignores_trailing _ w "" Hw). reflexivity.
Qed.

Lemma split_reads_token (tok post acc : string) :
  no_space tok = true ->
  Py.split_from acc (tok ++ post) = Py.split_from (Py.rev_string acc tok) post.
Proof.
  revert acc. induction tok as [| c tok IH]; intros acc H; cbn;
    [reflexivity |].
  cbn in H. apply andb_true_iff in H as [Hc Htok].
  apply negb_true_iff in Hc. rewrite Hc. apply IH. exact Htok.
Qed.

(** The first element of [reply.strip().split()]. *)
Lemma split_first_token (pre tok post : string) :
  all_space pre = true -> tok <> "" -> no_space tok = true ->
  space_led post = true ->
  exists rest, Py.split (Py.strip (pre ++ tok ++ post)) = tok :: rest.
Proof.
  intros Hpre Hne Htok Hpost. rewrite split_strip. unfold Py.split.
  rewrite (split_skips_leading pre _ Hpre).
  rewrite (split_reads_token tok post "" Htok).
  destruct tok as [| c tok]; [congruence |]. cbn [Py.rev_string].
  pose proof (rev_string_involutive (String c tok)) as Hinv.
  cbn [Py.rev_string] in Hinv.
  destruct (rev_string_nonempty tok "" c) as (c' & r & E).
  rewrite E in Hinv |- *.
  destruct post as [| d post]; cbn [Py.split_from].
  - exists []. rewrite Hinv. reflexivity.
  - cbn in Hpost. rewrite Hpost, Hinv. eexists. reflexivity.
Qed.

Lemma split_whitespace_reply (reply : string) :
  all_space reply = true -> Py.split (Py.strip reply) = [].
Proof.
  intros H. rewrite split_strip. apply split_all_space. exact H.
Qed.

End Strings.

(** ** The damage type resolver *)

Lemma has_code_reflects (d : DamageType.t) (code : string) :
  Sql.str_eq (DamageType.code_en d) code
  || Sql.str_eq (DamageType.code_nl d) code = true
  <-> has_code d code.
Proof.
  unfold has_code, Sql.str_eq. rewrite orb_true_iff, !String.eqb_eq. tauto.
Qed.

(** The lookup query returns the first damage type that has the code. *)
Lemma select_damage_type_first (st : Store) (language : Lang)
    (code : string) :
  (Sql.fetchone (select_damage_type st language code) = None
   /\ forall d, In d (tDamageType st) -> ~ has_code d code)
  \/ exists d,
      In d (tDamageType st) /\ has_code d code
      /\ Sql.fetchone (select_damage_type st language code)
         = Some (DamageType.damage_type_id d,
                 Sql.by_language language (DamageType.code_en d)
                                          (DamageType.code_nl d)).
Proof.
  unfold select_damage_type, Sql.fetchone.
  induction (tDamageType st) as [| d ds IH]; cbn.
  - left. split; [reflexivity | intros d []].
  - destruct (Sql.str_eq (DamageType.code_en d) code
              || Sql.str_eq (DamageType.code_nl d) code) eqn:E.
    + right. exists d. apply has_code_reflects in E.
      split; [left; reflexivity |]. split; [exact E | reflexivity].
    + destruct IH as [[Hnone Hall] | (d' & Hin & Hcode & Hsome)].
      * left. split; [exact Hnone |].
        intros d' [<- | Hin]; [| auto].
        intros Hcode. apply has_code_reflects in Hcode. congruence.
      * right. exists d'. split; [right; exact Hin |].
        split; [exact Hcode | exact Hsome].
Qed.

(** C9.  With a (non-empty) explicit code the resolver answers from the
    code columns alone: a result is a damage type whose English or Dutch
    code is exactly the supplied code, there is a result as soon as such a
    damage type exists, there is the "code not found" error (not-found
    kind) when none exists, and neither the description, the classifier and
    its configuration, nor any other table of the store (keywords included)
    changes the answer. *)
Theorem explicit_code_exact_match_or_not_found (st : Store) (env : Env)
    (language : Lang) (damage_code : string) (description : option string)
    (model : string) :
  damage_code <> ""%string ->
  let resolved :=
    fetch_damage_type_code st env language (Some damage_code) description
      model in
  (forall damage_type_id code_used,
      resolved = inr (damage_type_id, code_used) ->
      exists d,
        In d (tDamageType st) /\ has_code d damage_code
        /\ DamageType.damage_type_id d = damage_type_id
        /\ code_used = Sql.by_language language (DamageType.code_en d)
                                                (DamageType.code_nl d))
  /\ ((exists d, In d (tDamageType st) /\ has_code d damage_code) ->
      exists damage_type_id code_used,
        resolved = inr (damage_type_id, code_used))
  /\ ((forall d, In d (tDamageType st) -> ~ has_code d damage_code) ->
      resolved = Py.raise (Py.ValueError (Py.DamageCodeNotFound damage_code)))
  /\ kind_of (Py.ValueError (Py.DamageCodeNotFound damage_code))
     = Some NotFoundError
  /\ (forall (st' : Store) (env' : Env) (description' : option string)
             (model' : string),
         tDamageType st' = tDamageType st ->
         fetch_damage_type_code st' env' language (Some damage_code)
           description' model' = resolved).
Proof.
  intros Hne resolved. subst resolved.
  destruct damage_code as [| c0 code]; [congruence |].
  unfold fetch_damage_type_code.
  set (damage_code := String c0 code).
  destruct (select_damage_type_first st language damage_code)
    as [[Hnone Hall] | (d & Hin & Hcode & Hsome)].
  - rewrite Hnone. split; [discriminate |]. split.
    + intros (d & Hin & Hcode). exfalso. exact (Hall d Hin Hcode).
    + split; [reflexivity |]. split; [reflexivity |].
      intros st' env' description' model' Hsame.
      unfold select_damage_type in Hnone |- *. rewrite Hsame, Hnone.
      reflexivity.
  - rewrite Hsome. split.
    + intros id used [= <- <-]. exists d. repeat split; assumption.
    + split; [intros _; eexists; eexists; reflexivity |]. split.
      * intros Hall. exfalso. exact (Hall d Hin Hcode).
      * split; [reflexivity |].
        intros st' env' description' model' Hsame.
        unfold select_damage_type in Hsome |- *. rewrite Hsame, Hsome.
        reflexivity.
Qed.

(** An empty [--damage-code] is falsy for [if damage_code:] and is treated
    like an absent one. *)
Example empty_code_counts_as_absent (st : Store) (env : Env)
    (language : Lang) (description : option string) (model : string) :
  fetch_damage_type_code st env language (Some ""%string) description model
  = fetch_damage_type_code st env language None description model.
Proof.
  reflexivity.
Qed.

Lemma explicit_code_exact_match_or_not_found_witness :
  fetch_damage_type_code store_demo (env_replying "A9") nl
    (Some "UNKNOWN_GENERAL"%string) (Some "leak"%string) "gpt-4o-mini"
  = inr (1%Z, "ONBEKEND_ALGEMEEN"%string)
  /\ fetch_damage_type_code store_demo (env_replying "UNKNOWN_GENERAL") nl
       (Some "unknown_general"%string) (Some "leak"%string) "gpt-4o-mini"
     = Py.raise (Py.ValueError (Py.DamageCodeNotFound "unknown_general")).
Proof.
  split.
  - destruct (explicit_code_exact_match_or_not_found store_demo
                (env_replying "A9") nl "UNKNOWN_GENERAL"
                (Some "leak"%string) "gpt-4o-mini")
      as (Hsound & Hreturns & _).
    + discriminate.
    + destruct Hreturns as (id & used & E).
      * exists unknown_general.
        split; [left; reflexivity | left; reflexivity].
      * rewrite E. destruct (Hsound id used E) as (d & Hin & _ & <- & ->).
        destruct Hin as [<- | []]. reflexivity.
  - destruct (explicit_code_exact_match_or_not_found store_demo
                (env_replying "UNKNOWN_GENERAL") nl "unknown_general"
                (Some "leak"%string) "gpt-4o-mini")
      as (_ & _ & Hnone & _).
    + discriminate.
    + apply Hnone. intros d [<- | []] [H | H]; discriminate H.
Defined.

(** On the free-text path the resolver re-resolves the first element of
    [content.strip().split()], or raises [IndexError] when there is none. *)
Lemma free_text_path (st : Store) (env : Env) (language : Lang)
    (damage_code : option string) (description model : string) :
  Py.truthy damage_code = false ->
  description <> ""%string ->
  openai_installed env = true ->
  Py.truthy (OPENAI_API_KEY env) = true ->
  fetch_damage_type_code st env language damage_code (Some description) model
  = (code_guess <-
       Py.item0
         (Py.split
            (Py.strip (chat_completion env model language description st))) ;;
     resolve_guess st language code_guess).
Proof.
  intros Hcode Hdesc Hopenai Hkey. unfold fetch_damage_type_code.
  destruct description as [| c description]; [congruence |].
  rewrite Hopenai, Hkey. cbn [negb].
  destruct damage_code as [[| c0 code] |]; [| discriminate Hcode |];
    reflexivity.
Qed.

(** C10.  On the free-text path (no explicit code, a description, the
    classifier installed and configured): a reply made of whitespace, one
    token, and then nothing or whitespace followed by anything, is re-resolved
    as that token alone; a reply that is empty or all whitespace makes the
    resolver, and so the run, raise [IndexError], which has no kind in the
    taxonomy and is not the "unknown code" error. *)
Theorem classifier_reply_first_token_else_index_error (st : Store) (env : Env)
    (language : Lang) (damage_code : option string)
    (description model : string) :
  Py.truthy damage_code = false ->
  description <> ""%string ->
  openai_installed env = true ->
  Py.truthy (OPENAI_API_KEY env) = true ->
  let reply := chat_completion env model language description st in
  let resolved :=
    fetch_damage_type_code st env language damage_code (Some description)
      model in
  (forall pre tok post : string,
      reply = (pre ++ tok ++ post)%string ->
      all_space pre = true -> tok <> ""%string -> no_space tok = true ->
      space_led post = true ->
      resolved = resolve_guess st language tok)
  /\ (all_space reply = true ->
      resolved = Py.raise Py.IndexError
      /\ kind_of Py.IndexError = None
      /\ (forall code_guess,
             resolved
             <> Py.raise (Py.ValueError (Py.ModelReturnedUnknownCode code_guess)))
      /\ forall args : Args.t,
          Args.language args = language ->
          Args.damage_code args = damage_code ->
          Args.description args = Some description ->
          Args.openai_model args = model ->
          main st env args = Py.raise Py.IndexError).
Proof.
  intros Hcode Hdesc Hopenai Hkey reply resolved.
  assert (Hpath : resolved
                  = (code_guess <- Py.item0 (Py.split (Py.strip reply)) ;;
                     resolve_guess st language code_guess))
    by (apply free_text_path; assumption).
  split.
  - intros pre tok post Hreply Hpre Hne Htok Hpost.
    destruct (split_first_token pre tok post Hpre Hne Htok Hpost)
      as (rest & Hsplit).
    rewrite Hpath, Hreply, Hsplit. reflexivity.
  - intros Hblank.
    assert (Hraise : resolved = Py.raise Py.IndexError).
    { rewrite Hpath, (split_whitespace_reply reply Hblank). reflexivity. }
    split; [exact Hraise |]. split; [reflexivity |]. split.
    + intros code_guess. rewrite Hraise. discriminate.
    + intros args <- <- Hd <-. unfold main. rewrite Hd.
      fold resolved. rewrite Hraise. reflexivity.
Qed.

Lemma classifier_reply_first_token_else_index_error_witness :
  fetch_damage_type_code store_demo
    (env_replying "  ONBEKEND_ALGEMEEN is my answer") en None
    (Some "leak"%string) "gpt-4o-mini"
  = resolve_guess store_demo en "ONBEKEND_ALGEMEEN"
  /\ main store_demo (env_replying "   ") (args_description "leak" 3)
     = Py.raise Py.IndexError.
Proof.
  split.
  - apply (proj1 (classifier_reply_first_token_else_index_error store_demo
                    (env_replying "  ONBEKEND_ALGEMEEN is my answer") en None
                    "leak" "gpt-4o-mini" eq_refl
                    ltac:(discriminate) eq_refl eq_refl)
                 "  "%string "ONBEKEND_ALGEMEEN"%string
                 " is my answer"%string);
      solve [reflexivity | discriminate].
  - apply (proj2 (classifier_reply_first_token_else_index_error store_demo
                    (env_replying "   ") en None "leak" "gpt-4o-mini"
                    eq_refl ltac:(discriminate) eq_refl eq_refl));
      reflexivity.
Defined.

(** ** The cost line calculator: which rows the query returns *)

Lemma at_most_one_NoDup {C : Type} (l : list C) :
  (List.length l <= 1)%nat -> NoDup l.
Proof.
  destruct l as [| x [| y l]]; cbn; intros H.
  - constructor.
  - constructor; [intros [] | constructor].
  - lia.
Qed.

Section ListFacts.

Context {A B : Type}.

Lemma order_by_insert_perm (le : A -> A -> bool) (x : A) (l : list A) :
  Permutation (Sql.insert_by le x l) (x :: l).
Proof.
  induction l as [| y l IH]; cbn; [reflexivity |].
  destruct (le x y); [reflexivity |].
  rewrite IH. apply perm_swap.
Qed.

(** ORDER BY only reorders the rows. *)
Lemma order_by_perm (le : A -> A -> bool) (l : list A) :
  Permutation (Sql.order_by le l) l.
Proof.
  induction l as [| x l IH]; cbn; [reflexivity |].
  rewrite order_by_insert_perm, IH. reflexivity.
Qed.

(** A key column admits at most one row per key value. *)
Lemma filter_key_at_most_one (k : A -> Z) (p : A -> bool) (l : list A) :
  NoDup (map k l) ->
  (forall a b, p a = true -> p b = true -> k a = k b) ->
  (List.length (filter p l) <= 1)%nat.
Proof.
  intros Hkey Hp. induction l as [| a l IH]; cbn; [lia |].
  inversion Hkey as [| ? ? Hnotin Hrest]; subst.
  destruct (p a) eqn:Ea; [| auto].
  destruct (filter p l) as [| b rest] eqn:E; [cbn; lia |].
  exfalso. apply Hnotin.
  assert (Hb : In b (filter p l)) by (rewrite E; left; reflexivity).
  apply filter_In in Hb as [Hb Eb].
  rewrite (Hp a b Ea Eb). apply in_map. exact Hb.
Qed.

Lemma flat_map_at_most_one (g : A -> list B) (l : list A) :
  (List.length l <= 1)%nat ->
  (forall a, In a l -> (List.length (g a) <= 1)%nat) ->
  (List.length (flat_map g l) <= 1)%nat.
Proof.
  destruct l as [| a [| b l]]; cbn; intros Hl Hg; [lia | | lia].
  rewrite app_nil_r. apply Hg. left. reflexivity.
Qed.

(** Rows grouped under distinct tags, at most one row per group, all
    carrying the group's tag as key: the keys are distinct. *)
Lemma flat_map_keys_NoDup (tag : A -> Z) (key : B -> Z) (g : A -> list B)
    (l : list A) :
  NoDup (map tag l) ->
  (forall a r, In a l -> In r (g a) -> key r = tag a) ->
  (forall a, In a l -> (List.length (g a) <= 1)%nat) ->
  NoDup (map key (flat_map g l)).
Proof.
  intros Htag Hkey Hone. induction l as [| a l IH]; cbn; [constructor |].
  inversion Htag as [| ? ? Hnotin Hrest]; subst.
  rewrite map_app. apply NoDup_app.
  - apply at_most_one_NoDup. rewrite length_map. apply Hone. left. reflexivity.
  - apply IH; [exact Hrest | |]; intros; [apply Hkey | apply Hone];
      try right; assumption.
  - intros x Hx Hx'. apply Hnotin.
    apply in_map_iff in Hx as (r & <- & Hr).
    apply in_map_iff in Hx' as (r' & Heq & Hr').
    apply in_flat_map in Hr' as (a' & Ha' & Hr').
    rewrite (Hkey a r (or_introl eq_refl) Hr) in Heq.
    rewrite (Hkey a' r' (or_intror Ha') Hr') in Heq.
    rewrite <- Heq. apply in_map. exact Ha'.
Qed.

End ListFacts.

(** The LEFT JOIN on the unit key yields exactly one (possibly NULL) symbol
    when unit ids are unique, and at least one in any case. *)
Lemma unit_symbol_of_at_most_one (st : Store) (unit_id : option Z) :
  NoDup (map Unit.unit_id (tUnit st)) ->
  (List.length (unit_symbol_of st unit_id) <= 1)%nat.
Proof.
  intros Hkey. unfold unit_symbol_of, Sql.left_join. rewrite length_map.
  pose proof (filter_key_at_most_one Unit.unit_id
                (fun u => Sql.opt_eq unit_id (Unit.unit_id u)) (tUnit st)
                Hkey) as H.
  destruct (filter _ (tUnit st)) as [| u us]; [cbn; lia |].
  rewrite length_map. apply H.
  intros a b Ha Hb. destruct unit_id as [v |]; cbn in Ha, Hb; [| discriminate].
  apply Z.eqb_eq in Ha, Hb. congruence.
Qed.

Lemma unit_symbol_of_some (st : Store) (unit_id : option Z) :
  exists sym, In sym (unit_symbol_of st unit_id).
Proof.
  unfold unit_symbol_of, Sql.left_join.
  destruct (filter _ (tUnit st)) as [| u us]; cbn; eexists; left; reflexivity.
Qed.

(** Every joined row of an association carries the association's activity,
    which is in the activity table, and an applicable cost row of it. *)
Lemma joined_rows_origin (st : Store) (price_book_id severity_band_id : Z)
    (language : Lang) (dta : DamageTypeActivity.t) (r : CostRow.t) :
  In r (joined_rows st price_book_id severity_band_id language dta) ->
  CostRow.activity_id r = DamageTypeActivity.activity_id dta
  /\ exists ac,
      In ac (applicable_costs st (DamageTypeActivity.activity_id dta)
               price_book_id severity_band_id)
      /\ CostRow.labor_unit_cost r = ActivityCost.labor_unit_cost ac
      /\ CostRow.labor_cost_min r = ActivityCost.labor_cost_min ac
      /\ CostRow.labor_cost_max r = ActivityCost.labor_cost_max ac
      /\ CostRow.material_unit_cost r = ActivityCost.material_unit_cost ac
      /\ CostRow.material_cost_min r = ActivityCost.material_cost_min ac
      /\ CostRow.material_cost_max r = ActivityCost.material_cost_max ac.
Proof.
  unfold joined_rows. intros H.
  apply in_flat_map in H as (a & Ha & H).
  apply filter_In in Ha as [Ha Eid]. apply Z.eqb_eq in Eid.
  apply in_flat_map in H as (ac & Hac & H).
  apply in_flat_map in H as (ul & Hul & H).
  apply in_map_iff in H as (um & <- & Hum). cbn.
  split; [exact Eid |]. exists ac. rewrite <- Eid.
  split; [exact Hac |]. repeat split; reflexivity.
Qed.

Lemma joined_rows_some (st : Store) (price_book_id severity_band_id : Z)
    (language : Lang) (dta : DamageTypeActivity.t) (a : Activity.t)
    (ac : ActivityCost.t) :
  In a (tActivity st) ->
  Activity.activity_id a = DamageTypeActivity.activity_id dta ->
  In ac (applicable_costs st (Activity.activity_id a) price_book_id
           severity_band_id) ->
  exists r,
    In r (joined_rows st price_book_id severity_band_id language dta)
    /\ CostRow.activity_id r = Activity.activity_id a.
Proof.
  intros Ha Hid Hac.
  destruct (unit_symbol_of_some st (ActivityCost.labor_unit_id ac))
    as [ul Hul].
  destruct (unit_symbol_of_some st (ActivityCost.material_unit_id ac))
    as [um Hum].
  eexists. split.
  - unfold joined_rows. apply in_flat_map. exists a. split.
    + apply filter_In. split; [exact Ha |]. apply Z.eqb_eq. exact Hid.
    + apply in_flat_map. exists ac. split; [exact Hac |].
      apply in_flat_map. exists ul. split; [exact Hul |].
      apply in_map_iff. exists um. split; [reflexivity | exact Hum].
  - reflexivity.
Qed.

Lemma joined_rows_at_most_one (st : Store)
    (price_book_id severity_band_id : Z) (language : Lang)
    (dta : DamageTypeActivity.t) :
  NoDup (map Unit.unit_id (tUnit st)) ->
  NoDup (map Activity.activity_id (tActivity st)) ->
  (List.length (applicable_costs st (DamageTypeActivity.activity_id dta)
             price_book_id severity_band_id) <= 1)%nat ->
  (List.length (joined_rows st price_book_id severity_band_id language dta)
   <= 1)%nat.
Proof.
  intros Hunit Hact Hcost. unfold joined_rows.
  apply flat_map_at_most_one.
  - apply (filter_key_at_most_one Activity.activity_id); [exact Hact |].
    intros a b Ea Eb. apply Z.eqb_eq in Ea, Eb. congruence.
  - intros a Ha. apply filter_In in Ha as [_ Eid]. apply Z.eqb_eq in Eid.
    rewrite Eid. apply flat_map_at_most_one; [exact Hcost |].
    intros ac _. apply flat_map_at_most_one.
    + apply unit_symbol_of_at_most_one. exact Hunit.
    + intros ul _. rewrite length_map.
      apply unit_symbol_of_at_most_one. exact Hunit.
Qed.

(** C2, as the code has it.  The calculator makes one line per row of the
    join, in order; an activity associated with the damage type appears as
    soon as it has an applicable cost row, every row is an associated
    activity with one of its applicable cost rows, and no activity appears
    twice when unit ids and activity ids are keys, the damage type lists
    each activity once, and each listed activity has at most one applicable
    cost row. *)
Theorem calculator_one_line_per_applicable_cost_row (st : Store)
    (damage_type_id price_book_id severity_band_id : Z) (language : Lang)
    (size_in_base : Q) :
  let rows :=
    fetch_cost_rows st damage_type_id price_book_id severity_band_id
      language in
  Forall2 (line_of_row size_in_base) rows (estimate_costs rows size_in_base)
  /\ (forall dta a ac,
         In dta (associations st damage_type_id) ->
         In a (tActivity st) ->
         Activity.activity_id a = DamageTypeActivity.activity_id dta ->
         In ac (applicable_costs st (Activity.activity_id a) price_book_id
                  severity_band_id) ->
         exists r, In r rows /\ CostRow.activity_id r = Activity.activity_id a)
  /\ (forall r,
         In r rows ->
         exists dta ac,
           In dta (associations st damage_type_id)
           /\ CostRow.activity_id r = DamageTypeActivity.activity_id dta
           /\ In ac (applicable_costs st (CostRow.activity_id r)
                       price_book_id severity_band_id))
  /\ (NoDup (map Unit.unit_id (tUnit st)) ->
      NoDup (map Activity.activity_id (tActivity st)) ->
      NoDup (map DamageTypeActivity.activity_id
               (associations st damage_type_id)) ->
      (forall dta,
          In dta (associations st damage_type_id) ->
          (List.length
             (applicable_costs st (DamageTypeActivity.activity_id dta)
                price_book_id severity_band_id) <= 1)%nat) ->
      NoDup (map CostRow.activity_id rows)).
Proof.
  intros rows.
  assert (Hperm : Permutation rows
                    (flat_map (joined_rows st price_book_id severity_band_id
                                 language)
                       (associations st damage_type_id)))
    by apply order_by_perm.
  split; [apply estimate_costs_line_of_row |]. split; [| split].
  - intros dta a ac Hdta Ha Hid Hac.
    destruct (joined_rows_some st price_book_id severity_band_id language
                dta a ac Ha Hid Hac) as (r & Hr & Hkey).
    exists r. split; [| exact Hkey].
    apply (Permutation_in _ (Permutation_sym Hperm)).
    apply in_flat_map. exists dta. split; assumption.
  - intros r Hr. apply (Permutation_in _ Hperm) in Hr.
    apply in_flat_map in Hr as (dta & Hdta & Hr).
    destruct (joined_rows_origin _ _ _ _ _ _ Hr) as (Hkey & ac & Hac & _).
    exists dta, ac. rewrite Hkey. repeat split; assumption.
  - intros Hunit Hact Hassoc Hcost.
    apply (Permutation_NoDup
             (Permutation_sym (Permutation_map CostRow.activity_id Hperm))).
    apply (flat_map_keys_NoDup DamageTypeActivity.activity_id).
    + exact Hassoc.
    + intros dta r _ Hr. apply (joined_rows_origin _ _ _ _ _ _ Hr).
    + intros dta Hdta. apply joined_rows_at_most_one; auto.
Qed.

Lemma calculator_one_line_per_applicable_cost_row_witness :
  NoDup (map CostRow.activity_id (fetch_cost_rows store_demo 1 11 1 en)).
Proof.
  apply (calculator_one_line_per_applicable_cost_row store_demo 1 11 1 en 3).
  - cbn. constructor; [intros [] | constructor].
  - cbn. constructor; [intros [H | []]; discriminate H |].
    constructor; [intros [] | constructor].
  - cbn. constructor; [intros [H | []]; discriminate H |].
    constructor; [intros [] | constructor].
  - intros dta [<- | [<- | []]]; cbn; lia.
Defined.

(** C2 as stated fails: when activity A1 has both a band-agnostic cost row
    and a cost row for the chosen band in the price book, it gets two lines,
    also in the report of a whole run. *)
Lemma calculator_repeats_activity_with_two_cost_rows :
  associations store_two_costs 1 = [DamageTypeActivity.Build 1 1 1 true]
  /\ applicable_costs store_two_costs 1 11 1 = [cost_A1; cost_A1_band1]
  /\ map CostRow.activity_id (fetch_cost_rows store_two_costs 1 11 1 en)
     = [1%Z; 1%Z]
  /\ ~ NoDup (map CostRow.activity_id
                (fetch_cost_rows store_two_costs 1 11 1 en))
  /\ map EstimateLine.activity_code
       (estimate_costs (fetch_cost_rows store_two_costs 1 11 1 en) 3)
     = ["A1"%string; "A1"%string]
  /\ exists report,
      main store_two_costs env_without_openai
        (args_code "UNKNOWN_GENERAL" 3 None) = inr report
      /\ map EstimateLine.activity_code (Report.lines report)
         = ["A1"%string; "A1"%string].
Proof.
  split; [reflexivity |]. split; [reflexivity |]. split; [reflexivity |].
  split; [| split; [reflexivity |]].
  - intros H. inversion H as [| ? ? Hnotin _]. apply Hnotin. left.
    reflexivity.
  - eexists. split; [vm_compute; reflexivity | reflexivity].
Qed.

(** * Further properties of the script *)

(** ** The severity band matcher: failures, result, distances *)

Lemma best_band_none_only_on_empty (size_in_base : F64.float)
    (bands : list BandRow.t) :
  best_band size_in_base bands = None -> bands = [].
Proof.
  destruct bands as [| b rest]; [reflexivity |]. intros H.
  assert (Hne : b :: rest <> []) by discriminate.
  destruct (best_band_first_least size_in_base (b :: rest) Hne)
    as (best & Hbest & _).
  congruence.
Qed.

(** The matcher fails in two ways only: the unit symbol is unknown (whatever
    the bands), or the unit is known and the band query returns no row; its
    assertion never fails. *)
Theorem pick_severity_band_failures (st : Store) (damage_type_id : Z)
    (size_value : Q) (unit_symbol : string) :
  let picked :=
    pick_severity_band st damage_type_id size_value unit_symbol in
  (select_unit st unit_symbol = [] <->
   picked = Py.raise (Py.ValueError (Py.UnitNotFound unit_symbol)))
  /\ (select_unit st unit_symbol <> []
      /\ select_bands st damage_type_id = [] <->
      picked = Py.raise (Py.ValueError Py.NoSeverityBands))
  /\ (forall e, picked = inl e ->
                e = Py.ValueError (Py.UnitNotFound unit_symbol)
                \/ e = Py.ValueError Py.NoSeverityBands).
Proof.
  intros picked. subst picked. unfold pick_severity_band, Sql.fetchone.
  destruct (select_unit st unit_symbol) as [| u us]; cbn [hd_error].
  - split; [split; reflexivity |]. split.
    + split; [intros [H _]; congruence | discriminate].
    + intros e [= <-]. left. reflexivity.
  - destruct (select_bands st damage_type_id) as [| b bs] eqn:Ebands.
    + split; [split; discriminate |]. split.
      * split; [reflexivity | intros _; split; [discriminate | reflexivity]].
      * intros e [= <-]. right. reflexivity.
    + destruct (best_band _ (b :: bs)) as [best |] eqn:Ebest.
      * split; [split; discriminate |]. split.
        -- split; [intros [_ H]; discriminate H | discriminate].
        -- discriminate.
      * apply best_band_none_only_on_empty in Ebest. discriminate Ebest.
Qed.

Lemma pick_severity_band_failures_witness :
  pick_severity_band store_demo 1 3 "ft"
  = Py.raise (Py.ValueError (Py.UnitNotFound "ft"))
  /\ pick_severity_band store_demo 7 3 "m2"
     = Py.raise (Py.ValueError Py.NoSeverityBands).
Proof.
  split.
  - apply (proj1 (proj1 (pick_severity_band_failures store_demo 1 3 "ft"))).
    reflexivity.
  - apply (proj1 (proj1 (proj2 (pick_severity_band_failures store_demo 7 3
                                  "m2")))).
    split; [discriminate | reflexivity].
Defined.

Lemma pick_severity_band_success (st : Store)
    (damage_type_id : Z) (size_value : Q) (unit_symbol : string)
    (severity_band_id : Z) (band_info : BandInfo.t) (size_in_base : Q) :
  pick_severity_band st damage_type_id size_value unit_symbol
  = inr (severity_band_id, band_info, size_in_base) ->
  (exists u, In u (tUnit st) /\ Unit.symbol u = unit_symbol
             /\ size_in_base = size_value * Unit.conversion_to_base u)
  /\ severity_band_id = BandInfo.severity_band_id band_info
  /\ exists sb u,
      In sb (tSeverityBand st) /\ In u (tUnit st)
      /\ SeverityBand.damage_type_id sb = damage_type_id
      /\ Unit.unit_id u = SeverityBand.unit_id sb
      /\ band_info
         = BandInfo.Build (SeverityBand.severity_band_id sb)
             (SeverityBand.band_label sb) (SeverityBand.range_min sb)
             (SeverityBand.range_max sb) (Unit.symbol u).
Proof.
  unfold pick_severity_band, Sql.fetchone.
  destruct (select_unit st unit_symbol) as [| u us] eqn:Eunit; cbn [hd_error];
    [discriminate |].
  destruct (select_bands st damage_type_id) as [| b bs] eqn:Ebands;
    [discriminate |].
  destruct (best_band _ (b :: bs)) as [best |] eqn:Ebest; [| discriminate].
  unfold Py.ret. intros [= <- <- <-].
  assert (Hu : In u (select_unit st unit_symbol))
    by (rewrite Eunit; left; reflexivity).
  apply filter_In in Hu as [Hu Hsym]. apply String.eqb_eq in Hsym.
  split; [exists u; repeat split; assumption |]. split; [reflexivity |].
  assert (Hne : b :: bs <> []) by discriminate.
  destruct (best_band_first_least (base_size size_value u) (b :: bs) Hne)
    as (best' & Hbest' & Hleast).
  rewrite Ebest in Hbest'. injection Hbest' as <-.
  apply first_least_in in Hleast. rewrite <- Ebands in Hleast.
  unfold select_bands in Hleast.
  apply in_flat_map in Hleast as (sb & Hsb & Hrow).
  apply filter_In in Hsb as [Hsb Hdt]. apply Z.eqb_eq in Hdt.
  apply in_map_iff in Hrow as (u' & <- & Hu').
  apply filter_In in Hu' as [Hu' Hid]. apply Z.eqb_eq in Hid.
  exists sb, u'. cbn. repeat split; assumption.
Qed.

(** A successful match returns the size times the conversion factor of a
    unit with the given symbol, and a [band_info] that describes a severity
    band of the damage type as it is stored: its id (also returned on its
    own), label and range in the band's own unit, and that unit's symbol. *)
Theorem pick_severity_band_describes_stored_band (st : Store)
    (damage_type_id : Z) (size_value : Q) (unit_symbol : string)
    (severity_band_id : Z) (band_info : BandInfo.t) (size_in_base : Q) :
  pick_severity_band st damage_type_id size_value unit_symbol
  = inr (severity_band_id, band_info, size_in_base) ->
  (exists u, In u (tUnit st) /\ Unit.symbol u = unit_symbol
             /\ size_in_base = size_value * Unit.conversion_to_base u)
  /\ severity_band_id = BandInfo.severity_band_id band_info
  /\ exists sb u,
      In sb (tSeverityBand st) /\ In u (tUnit st)
      /\ SeverityBand.damage_type_id sb = damage_type_id
      /\ Unit.unit_id u = SeverityBand.unit_id sb
      /\ band_info
         = BandInfo.Build (SeverityBand.severity_band_id sb)
             (SeverityBand.band_label sb) (SeverityBand.range_min sb)
             (SeverityBand.range_max sb) (Unit.symbol u).
Proof.
  apply pick_severity_band_success.
Qed.

Lemma pick_severity_band_describes_stored_band_witness :
  (exists u, In u (tUnit store_demo) /\ Unit.symbol u = "m2"%string
             /\ 3 = 3 * Unit.conversion_to_base u)
  /\ 1%Z = BandInfo.severity_band_id (BandInfo.Build 1 "small" 0 5 "m2")
  /\ exists sb u,
      In sb (tSeverityBand store_demo) /\ In u (tUnit store_demo)
      /\ SeverityBand.damage_type_id sb = 1%Z
      /\ Unit.unit_id u = SeverityBand.unit_id sb
      /\ BandInfo.Build 1 "small" 0 5 "m2"
         = BandInfo.Build (SeverityBand.severity_band_id sb)
             (SeverityBand.band_label sb) (SeverityBand.range_min sb)
             (SeverityBand.range_max sb) (Unit.symbol u).
Proof.
  apply (pick_severity_band_describes_stored_band store_demo 1 3 "m2" 1
           (BandInfo.Build 1 "small" 0 5 "m2") 3).
  reflexivity.
Defined.

Lemma Qhalf (x : Q) : x / 2 == x * (1 # 2).
Proof.
  field.
Qed.


(** A band that contains the size scores its distance to the midpoint. *)
Lemma spec_score_in_range (s : F64.float) (b : BandRow.t) :
  in_range s b = true -> spec_score s b = distance s b.
Proof.
  intros H. unfold spec_score. rewrite H. apply add_zero_abs.
Qed.

(** When all bands of the damage type contain the size, the matcher returns
    a band whose midpoint is nearest to the size: no band has a smaller
    distance [|size - mid|], computed in doubles. *)
Theorem matcher_nearest_midpoint_when_all_in_range (st : Store)
    (damage_type_id : Z) (size_value : Q) (unit_symbol : string)
    (u : Unit.t) :
  Sql.fetchone (select_unit st unit_symbol) = Some u ->
  select_bands st damage_type_id <> [] ->
  let size_in_base := base_size size_value u in
  (forall b, In b (select_bands st damage_type_id) ->
             in_range size_in_base b = true) ->
  exists best,
    pick_severity_band st damage_type_id size_value unit_symbol
    = Py.ret (BandRow.severity_band_id best, info_of best,
              size_value * Unit.conversion_to_base u)
    /\ In best (select_bands st damage_type_id)
    /\ forall b, In b (select_bands st damage_type_id) ->
                 F64.ltb (distance size_in_base b)
                         (distance size_in_base best) = false.
Proof.
  intros Hu Hbands size_in_base Hall.
  destruct (pick_severity_band_first_least st damage_type_id size_value
              unit_symbol u Hu Hbands) as (best & Hpick & Hleast).
  fold size_in_base in Hleast.
  pose proof (first_least_in _ _ _ Hleast) as Hbest.
  exists best. split; [exact Hpick |]. split; [exact Hbest |].
  intros b Hb. pose proof (first_least_not_ltb _ _ _ _ Hleast Hb) as Hnot.
  rewrite !band_score_spec in Hnot.
  rewrite (spec_score_in_range _ _ (Hall best Hbest)),
          (spec_score_in_range _ _ (Hall b Hb)) in Hnot.
  exact Hnot.
Qed.

Lemma matcher_nearest_midpoint_when_all_in_range_witness :
  exists best,
    pick_severity_band store_small_large 1 5 "m2"
    = Py.ret (BandRow.severity_band_id best, info_of best,
              5 * Unit.conversion_to_base unit_m2)
    /\ In best (select_bands store_small_large 1)
    /\ forall b, In b (select_bands store_small_large 1) ->
                 F64.ltb (distance (base_size 5 unit_m2) b)
                         (distance (base_size 5 unit_m2) best) = false.
Proof.
  apply (matcher_nearest_midpoint_when_all_in_range store_small_large 1
           5 "m2" unit_m2).
  - reflexivity.
  - vm_compute. discriminate.
  - intros b [<- | [<- | []]]; vm_compute; reflexivity.
Defined.

Lemma select_bands_same_rows (st st' : Store) (damage_type_id : Z)
    (b : BandRow.t) :
  tUnit st' = tUnit st ->
  Permutation (tSeverityBand st) (tSeverityBand st') ->
  In b (select_bands st damage_type_id) ->
  In b (select_bands st' damage_type_id).
Proof.
  intros Hunit Hperm. unfold select_bands. rewrite Hunit, !in_flat_map.
  intros (sb & Hsb & Hrow). exists sb. split; [| exact Hrow].
  apply filter_In in Hsb as [Hsb Hdt]. apply filter_In.
  split; [exact (Permutation_in _ Hperm Hsb) | exact Hdt].
Qed.

(** The order in which the store returns the severity bands matters among
    ties only: with the bands in another order the returned band has an
    equal score, and it is the same band when no two bands score alike
    (scores that are numbers). *)
Theorem matcher_row_order_matters_among_ties_only (st st' : Store)
    (damage_type_id : Z) (size_value : Q) (unit_symbol : string)
    (u : Unit.t) :
  tUnit st' = tUnit st ->
  Permutation (tSeverityBand st) (tSeverityBand st') ->
  Sql.fetchone (select_unit st unit_symbol) = Some u ->
  select_bands st damage_type_id <> [] ->
  let size_in_base := base_size size_value u in
  (forall b, In b (select_bands st damage_type_id) ->
             F64.is_nan (spec_score size_in_base b) = false) ->
  exists best best',
    pick_severity_band st damage_type_id size_value unit_symbol
    = Py.ret (BandRow.severity_band_id best, info_of best,
              size_value * Unit.conversion_to_base u)
    /\ pick_severity_band st' damage_type_id size_value unit_symbol
       = Py.ret (BandRow.severity_band_id best', info_of best',
                 size_value * Unit.conversion_to_base u)
    /\ F64.eqb (spec_score size_in_base best)
               (spec_score size_in_base best') = true
    /\ ((forall b1 b2,
            In b1 (select_bands st damage_type_id) ->
            In b2 (select_bands st damage_type_id) ->
            F64.eqb (spec_score size_in_base b1)
                    (spec_score size_in_base b2) = true ->
            b1 = b2) ->
        best = best').
Proof.
  intros Hunit Hperm Hu Hbands size_in_base Hnum.
  assert (Hu' : Sql.fetchone (select_unit st' unit_symbol) = Some u)
    by (unfold select_unit in *; rewrite Hunit; exact Hu).
  destruct (pick_severity_band_first_least st damage_type_id size_value
              unit_symbol u Hu Hbands) as (best & Hpick & Hleast).
  pose proof (first_least_in _ _ _ Hleast) as Hbest.
  assert (Hbands' : select_bands st' damage_type_id <> []).
  { intros E.
    pose proof (select_bands_same_rows st st' damage_type_id best Hunit
                  Hperm Hbest) as H.
    rewrite E in H. exact H. }
  destruct (pick_severity_band_first_least st' damage_type_id size_value
              unit_symbol u Hu' Hbands') as (best' & Hpick' & Hleast').
  pose proof (first_least_in _ _ _ Hleast') as Hbest'.
  fold size_in_base in Hleast, Hleast'.
  assert (Hback : In best' (select_bands st damage_type_id)).
  { apply (select_bands_same_rows st' st); [congruence | | exact Hbest'].
    apply Permutation_sym. exact Hperm. }
  assert (Hforth : In best (select_bands st' damage_type_id))
    by (apply (select_bands_same_rows st st'); assumption).
  pose proof (first_least_not_ltb _ _ _ _ Hleast Hback) as H1.
  pose proof (first_least_not_ltb _ _ _ _ Hleast' Hforth) as H2.
  rewrite !band_score_spec in H1, H2.
  assert (Heq : F64.eqb (spec_score size_in_base best)
                        (spec_score size_in_base best') = true)
    by (apply not_ltb_eqb; auto).
  exists best, best'. split; [exact Hpick |]. split; [exact Hpick' |].
  split; [exact Heq |]. intros Hdistinct. apply Hdistinct; assumption.
Qed.

Lemma matcher_row_order_matters_among_ties_only_witness :
  exists best best',
    pick_severity_band store_far_low_high 1 2 "m2"
    = Py.ret (BandRow.severity_band_id best, info_of best,
              2 * Unit.conversion_to_base unit_m2)
    /\ pick_severity_band store_far_high_low 1 2 "m2"
       = Py.ret (BandRow.severity_band_id best', info_of best',
                 2 * Unit.conversion_to_base unit_m2)
    /\ F64.eqb (spec_score (base_size 2 unit_m2) best)
               (spec_score (base_size 2 unit_m2) best') = true
    /\ ((forall b1 b2,
            In b1 (select_bands store_far_low_high 1) ->
            In b2 (select_bands store_far_low_high 1) ->
            F64.eqb (spec_score (base_size 2 unit_m2) b1)
                    (spec_score (base_size 2 unit_m2) b2) = true ->
            b1 = b2) ->
        best = best').
Proof.
  apply (matcher_row_order_matters_among_ties_only store_far_low_high
           store_far_high_low 1 2 "m2" unit_m2).
  - reflexivity.
  - apply perm_skip. apply perm_swap.
  - reflexivity.
  - vm_compute. discriminate.
  - intros b [<- | [<- | [<- | []]]]; vm_compute; reflexivity.
Defined.



(** The base range is the one computed in doubles: [3 * 0.1] is
    0.30000000000000004, not the double 0.3, so of two bands with the range
    [0.3, 3] in exact arithmetic, one contains the size 0.3 and the other
    does not. *)
Example base_range_is_rounded :
  let dm := BandRow.Build 1 "a" 3 30 "dm" (1 # 10) in
  let m := BandRow.Build 2 "b" (3 # 10) 3 "m" 1 in
  min_base dm = S754_finite false 5404319552844596 (-54)
  /\ min_base m = S754_finite false 5404319552844595 (-54)
  /\ in_range (F64.of_Q 0.3) dm = false
  /\ in_range (F64.of_Q 0.3) m = true.
Proof.
  cbv zeta. repeat split; vm_compute; reflexivity.
Qed.

(** ** The price book selector with an explicit year *)

(** With an explicit year the selector looks at the price book versions
    only: it returns that very year with the id of a version labelled with
    it, fails with "Price book for year ... not found" exactly when no
    version has that label (no nearest year is taken), and the cost entries,
    the damage type and the language play no part. *)
Theorem explicit_year_exact_or_not_found (st : Store) (damage_type_id : Z)
    (language : Lang) (damage_code : string) (year : Z) :
  let selected :=
    resolve_price_book_id st damage_type_id language damage_code (Some year) in
  (forall pb y,
      selected = inr (pb, y) ->
      y = year
      /\ exists p, In p (tPriceBookVersion st)
                   /\ PriceBookVersion.year_label p = year
                   /\ PriceBookVersion.price_book_id p = pb)
  /\ ((forall p, In p (tPriceBookVersion st) ->
                 PriceBookVersion.year_label p <> year)
      <-> selected = Py.raise (Py.ValueError (Py.PriceBookNotFound year)))
  /\ (forall (st' : Store) (damage_type_id' : Z) (language' : Lang)
             (damage_code' : string),
         tPriceBookVersion st' = tPriceBookVersion st ->
         resolve_price_book_id st' damage_type_id' language' damage_code'
           (Some year) = selected).
Proof.
  intros selected. subst selected.
  unfold resolve_price_book_id, Py.bind, Py.ret, Sql.fetchone. cbn.
  destruct (select_price_book st year) as [| pb0 rest] eqn:E; cbn.
  - split; [discriminate |]. split.
    + split; [reflexivity |]. intros _ p Hp Hyear.
      assert (Hin : In (PriceBookVersion.price_book_id p)
                       (select_price_book st year)).
      { unfold select_price_book. apply in_map. apply filter_In.
        split; [exact Hp |]. apply Z.eqb_eq. exact Hyear. }
      rewrite E in Hin. exact Hin.
    + intros st' dt' language' code' Hsame.
      unfold select_price_book in E |- *. rewrite Hsame, E. reflexivity.
  - assert (Hin : In pb0 (select_price_book st year))
      by (rewrite E; left; reflexivity).
    unfold select_price_book in Hin.
    apply in_map_iff in Hin as (p & Hpb & Hp).
    apply filter_In in Hp as [Hp Hyear]. apply Z.eqb_eq in Hyear.
    split.
    + intros pb y [= <- <-]. split; [reflexivity |].
      exists p. repeat split; assumption.
    + split.
      * split; [| discriminate]. intros Hnone. exfalso.
        exact (Hnone p Hp Hyear).
      * intros st' dt' language' code' Hsame.
        unfold select_price_book in E |- *. rewrite Hsame, E. reflexivity.
Qed.

Lemma explicit_year_exact_or_not_found_witness :
  resolve_price_book_id store_demo 1 en "UNKNOWN_GENERAL" (Some 2022%Z)
  = Py.raise (Py.ValueError (Py.PriceBookNotFound 2022))
  /\ forall pb y,
      resolve_price_book_id store_demo 1 en "UNKNOWN_GENERAL" (Some 2021%Z)
      = inr (pb, y) ->
      y = 2021%Z
      /\ exists p, In p (tPriceBookVersion store_demo)
                   /\ PriceBookVersion.year_label p = 2021%Z
                   /\ PriceBookVersion.price_book_id p = pb.
Proof.
  split.
  - apply (proj1 (proj2 (explicit_year_exact_or_not_found store_demo 1 en
                           "UNKNOWN_GENERAL" 2022))).
    intros p [<- | [<- | []]]; discriminate.
  - apply (proj1 (explicit_year_exact_or_not_found store_demo 1 en
                    "UNKNOWN_GENERAL" 2021)).
Defined.

(** ** The damage type resolver: languages, round trip, set-up errors *)

Lemma explicit_path (st : Store) (env : Env) (language : Lang)
    (damage_code : string) (description : option string) (model : string) :
  damage_code <> ""%string ->
  fetch_damage_type_code st env language (Some damage_code) description model
  = match Sql.fetchone (select_damage_type st language damage_code) with
    | None => Py.raise (Py.ValueError (Py.DamageCodeNotFound damage_code))
    | Some row => Py.ret row
    end.
Proof.
  intros Hne. destruct damage_code; [congruence | reflexivity].
Qed.

Lemma select_damage_type_ids (st : Store) (language language' : Lang)
    (code : string) :
  map fst (select_damage_type st language code)
  = map fst (select_damage_type st language' code).
Proof.
  unfold select_damage_type. rewrite !map_map. reflexivity.
Qed.

(** The language decides which code is handed back, not which damage type
    is found: an explicit code resolves to the same id (or to the same
    error) in both languages. *)
Theorem explicit_code_same_id_in_both_languages (st : Store) (env : Env)
    (damage_code : string) (description : option string) (model : string) :
  damage_code <> ""%string ->
  result_fst (fetch_damage_type_code st env en (Some damage_code)
                description model)
  = result_fst (fetch_damage_type_code st env nl (Some damage_code)
                  description model).
Proof.
  intros Hne. rewrite !explicit_path by exact Hne.
  pose proof (select_damage_type_ids st en nl damage_code) as Hids.
  unfold Sql.fetchone.
  destruct (select_damage_type st en damage_code) as [| [id used] rows];
    destruct (select_damage_type st nl damage_code) as [| [id' used'] rows'];
    cbn in Hids |- *; try discriminate Hids; [reflexivity |].
  injection Hids as -> _. reflexivity.
Qed.

Lemma explicit_code_same_id_in_both_languages_witness :
  result_fst (fetch_damage_type_code store_demo env_without_openai en
                (Some "ONBEKEND_ALGEMEEN"%string) None "gpt-4o-mini")
  = result_fst (fetch_damage_type_code store_demo env_without_openai nl
                  (Some "ONBEKEND_ALGEMEEN"%string) None "gpt-4o-mini").
Proof.
  apply (explicit_code_same_id_in_both_languages store_demo
           env_without_openai "ONBEKEND_ALGEMEEN" None "gpt-4o-mini").
  discriminate.
Defined.

(** When a code names at most one damage type, resolution is idempotent:
    the code handed back by the resolver (the one later used to find the
    price years) resolves, in the same language, to the same id and code. *)
Theorem resolved_code_resolves_to_itself (st : Store) (env env' : Env)
    (language : Lang) (damage_code : string)
    (description description' : option string) (model model' : string)
    (damage_type_id : Z) (code_used : string) :
  codes_identify st ->
  damage_code <> ""%string ->
  code_used <> ""%string ->
  fetch_damage_type_code st env language (Some damage_code) description model
  = inr (damage_type_id, code_used) ->
  fetch_damage_type_code st env' language (Some code_used) description' model'
  = inr (damage_type_id, code_used).
Proof.
  intros Hkey Hne Hne'. rewrite !explicit_path by assumption.
  destruct (select_damage_type_first st language damage_code)
    as [[Hnone _] | (d & Hin & Hcode & Hsome)];
    [rewrite Hnone; discriminate |].
  rewrite Hsome. unfold Py.ret. intros [= <- <-].
  assert (Hused : has_code d (Sql.by_language language (DamageType.code_en d)
                                              (DamageType.code_nl d))).
  { destruct language; [left | right]; reflexivity. }
  destruct (select_damage_type_first st language
              (Sql.by_language language (DamageType.code_en d)
                               (DamageType.code_nl d)))
    as [[_ Hall] | (d' & Hin' & Hcode' & Hsome')].
  - exfalso. exact (Hall d Hin Hused).
  - rewrite Hsome'. rewrite (Hkey d' d _ Hin' Hin Hcode' Hused). reflexivity.
Qed.

Lemma resolved_code_resolves_to_itself_witness :
  fetch_damage_type_code store_demo env_without_openai nl
    (Some "ONBEKEND_ALGEMEEN"%string) None "gpt-4o-mini"
  = inr (1%Z, "ONBEKEND_ALGEMEEN"%string).
Proof.
  apply (resolved_code_resolves_to_itself store_demo env_without_openai
           env_without_openai nl "UNKNOWN_GENERAL" None None "gpt-4o-mini"
           "gpt-4o-mini" 1 "ONBEKEND_ALGEMEEN").
  - intros d d' code [<- | []] [<- | []] _ _. reflexivity.
  - discriminate.
  - discriminate.
  - reflexivity.
Defined.

(** The three errors of the classifier set-up. *)
Lemma explicit_path_no_setup_error (st : Store) (env : Env) (language : Lang)
    (damage_code description : option string) (model : string) (e : Py.exn) :
  Py.truthy damage_code = true ->
  e = Py.ValueError Py.CodeOrDescriptionRequired
  \/ e = Py.ImportError \/ e = Py.EnvironmentError ->
  fetch_damage_type_code st env language damage_code description model
  <> Py.raise e.
Proof.
  intros Hcode He.
  destruct damage_code as [[| c0 code] |]; try discriminate Hcode.
  rewrite explicit_path by discriminate.
  destruct (Sql.fetchone _); [discriminate |].
  intros [= <-]. destruct He as [He | [He | He]]; discriminate He.
Qed.

Lemma free_text_path_no_setup_error (st : Store) (env : Env)
    (language : Lang) (damage_code description : option string)
    (model : string) (e : Py.exn) :
  Py.truthy damage_code = false ->
  Py.truthy description = true ->
  openai_installed env = true ->
  Py.truthy (OPENAI_API_KEY env) = true ->
  e = Py.ValueError Py.CodeOrDescriptionRequired
  \/ e = Py.ImportError \/ e = Py.EnvironmentError ->
  fetch_damage_type_code st env language damage_code description model
  <> Py.raise e.
Proof.
  intros Hcode Hdesc Hi Hk He.
  destruct description as [[| d0 d] |]; try discriminate Hdesc.
  rewrite free_text_path by (assumption || discriminate).
  destruct (Py.split _) as [| g rest]; cbn.
  - intros [= <-]. destruct He as [He | [He | He]]; discriminate He.
  - unfold resolve_guess. destruct (Sql.fetchone _); [discriminate |].
    intros [= <-]. destruct He as [He | [He | He]]; discriminate He.
Qed.

Lemma setup_error_raised (st : Store) (env : Env) (language : Lang)
    (damage_code description : option string) (model : string) :
  Py.truthy damage_code = false ->
  fetch_damage_type_code st env language damage_code description model
  = if negb (Py.truthy description)
    then Py.raise (Py.ValueError Py.CodeOrDescriptionRequired)
    else if negb (openai_installed env) then Py.raise Py.ImportError
    else if negb (Py.truthy (OPENAI_API_KEY env))
    then Py.raise Py.EnvironmentError
    else fetch_damage_type_code st env language damage_code description model.
Proof.
  intros Hcode.
  destruct damage_code as [[| c0 code] |]; try discriminate Hcode;
    destruct description as [[| d0 d] |]; cbn [Py.truthy negb];
    try reflexivity;
    unfold fetch_damage_type_code;
    destruct (openai_installed env); cbn [negb]; try reflexivity;
    destruct (Py.truthy (OPENAI_API_KEY env)); reflexivity.
Qed.

(** Without an explicit code the resolver checks its set-up in a fixed
    order before any use of the classifier: no description gives the
    "Either --damage-code or --description" error; a description without the
    openai package gives [ImportError] (whether or not a key is set); the
    package without an API key gives [EnvironmentError]; and these errors
    arise in no other situation. *)
Theorem classifier_setup_errors (st : Store) (env : Env) (language : Lang)
    (damage_code description : option string) (model : string) :
  let resolved :=
    fetch_damage_type_code st env language damage_code description model in
  (resolved = Py.raise (Py.ValueError Py.CodeOrDescriptionRequired)
   <-> Py.truthy damage_code = false /\ Py.truthy description = false)
  /\ (resolved = Py.raise Py.ImportError
      <-> Py.truthy damage_code = false /\ Py.truthy description = true
          /\ openai_installed env = false)
  /\ (resolved = Py.raise Py.EnvironmentError
      <-> Py.truthy damage_code = false /\ Py.truthy description = true
          /\ openai_installed env = true
          /\ Py.truthy (OPENAI_API_KEY env) = false).
Proof.
  intros resolved.
  pose proof (explicit_path_no_setup_error st env language damage_code
                description model) as Hexplicit.
  pose proof (free_text_path_no_setup_error st env language damage_code
                description model) as Hfree.
  pose proof (setup_error_raised st env language damage_code description
                model) as Hsetup.
  fold resolved in Hexplicit, Hfree, Hsetup.
  destruct (Py.truthy damage_code) eqn:Ecode.
  - (split; [| split]); (split; intros H);
      solve [ exfalso; eapply Hexplicit; [reflexivity | | exact H]; auto
            | decompose [and] H; congruence ].
  - specialize (Hsetup eq_refl).
    destruct (Py.truthy description) eqn:Edesc; cbn [negb] in Hsetup;
      [| rewrite Hsetup; (split; [| split]); (split; intros H);
         solve [ discriminate H | reflexivity | (repeat split; reflexivity)
               | decompose [and] H; congruence ] ].
    destruct (openai_installed env) eqn:Ei; cbn [negb] in Hsetup;
      [| rewrite Hsetup; (split; [| split]); (split; intros H);
         solve [ discriminate H | reflexivity | (repeat split; reflexivity)
               | decompose [and] H; congruence ] ].
    destruct (Py.truthy (OPENAI_API_KEY env)) eqn:Ek; cbn [negb] in Hsetup;
      [| rewrite Hsetup; (split; [| split]); (split; intros H);
         solve [ discriminate H | reflexivity | (repeat split; reflexivity)
               | decompose [and] H; congruence ] ].
    (split; [| split]); (split; intros H);
      solve [ exfalso; eapply Hfree; [reflexivity .. | | exact H]; auto
            | decompose [and] H; congruence ].
Qed.

Lemma classifier_setup_errors_witness :
  fetch_damage_type_code store_demo env_without_openai en None None "m"
  = Py.raise (Py.ValueError Py.CodeOrDescriptionRequired)
  /\ fetch_damage_type_code store_demo env_without_openai en None
       (Some "leak"%string) "m" = Py.raise Py.ImportError
  /\ fetch_damage_type_code store_demo
       (mkEnv true None (fun _ _ _ _ => "A1"%string)) en (Some ""%string)
       (Some "leak"%string) "m" = Py.raise Py.EnvironmentError.
Proof.
  split; [| split].
  - apply (proj1 (classifier_setup_errors store_demo env_without_openai en
                    None None "m")). split; reflexivity.
  - apply (proj1 (proj2 (classifier_setup_errors store_demo
                           env_without_openai en None (Some "leak"%string)
                           "m"))). repeat split.
  - apply (proj2 (proj2 (classifier_setup_errors store_demo
                           (mkEnv true None (fun _ _ _ _ => "A1"%string)) en
                           (Some ""%string) (Some "leak"%string) "m"))).
    repeat split.
Defined.

(** ** The classifier's reply *)

Section Tokens.

Local Open Scope string_scope.

Lemma no_space_rev (x a : string) :
  no_space a = true -> no_space x = true ->
  no_space (Py.rev_string a x) = true.
Proof.
  revert a. induction x as [| c x IH]; cbn; intros a Ha Hx; [exact Ha |].
  apply andb_true_iff in Hx as [Hc Hx]. apply IH; [| exact Hx].
  cbn. rewrite Hc. exact Ha.
Qed.

Lemma rev_token_clean (c : ascii) (tok : string) :
  no_space (String c tok) = true ->
  Py.rev_string "" (String c tok) <> ""
  /\ no_space (Py.rev_string "" (String c tok)) = true.
Proof.
  intros H. split.
  - cbn. destruct (rev_string_nonempty tok "" c) as (c' & r & E).
    rewrite E. discriminate.
  - apply no_space_rev; [reflexivity | exact H].
Qed.

(** Every element of [s.split()] is non-empty and free of whitespace. *)
Lemma split_from_clean (s acc t : string) :
  no_space acc = true -> In t (Py.split_from acc s) ->
  t <> "" /\ no_space t = true.
Proof.
  revert acc. induction s as [| c s IH]; intros acc Hacc; cbn [Py.split_from].
  - destruct acc as [| a acc]; [intros [] |].
    intros [<- | []]. apply rev_token_clean. exact Hacc.
  - destruct (Py.isspace c) eqn:Ec.
    + destruct acc as [| a acc]; [apply IH; reflexivity |].
      intros [<- | Hin]; [apply rev_token_clean; exact Hacc |].
      revert Hin. apply IH. reflexivity.
    + apply IH. cbn. rewrite Ec. exact Hacc.
Qed.

End Tokens.

Lemma free_text_guess (st : Store) (env : Env) (language : Lang)
    (damage_code : option string) (description model : string) :
  Py.truthy damage_code = false ->
  description <> ""%string ->
  openai_installed env = true ->
  Py.truthy (OPENAI_API_KEY env) = true ->
  fetch_damage_type_code st env language damage_code (Some description) model
  = match Py.split (chat_completion env model language description st) with
    | [] => Py.raise Py.IndexError
    | code_guess :: _ => resolve_guess st language code_guess
    end.
Proof.
  intros Hcode Hdesc Hi Hk.
  rewrite free_text_path by assumption. rewrite split_strip.
  destruct (Py.split _); reflexivity.
Qed.

(** On the free-text path the code guess is a clean token: the "unknown
    code" error always names a non-empty code without whitespace that no
    damage type has; and the guess is accepted exactly like an explicit
    code, so any code of the table, in either language, is accepted from
    the classifier. *)
Theorem code_guess_resolved_like_explicit_code (st : Store) (env : Env)
    (language : Lang) (damage_code : option string)
    (description model : string) :
  Py.truthy damage_code = false ->
  description <> ""%string ->
  openai_installed env = true ->
  Py.truthy (OPENAI_API_KEY env) = true ->
  let reply := chat_completion env model language description st in
  let resolved :=
    fetch_damage_type_code st env language damage_code (Some description)
      model in
  (forall code_guess,
      resolved
      = Py.raise (Py.ValueError (Py.ModelReturnedUnknownCode code_guess)) ->
      code_guess <> ""%string /\ no_space code_guess = true
      /\ hd_error (Py.split reply) = Some code_guess
      /\ forall d, In d (tDamageType st) -> ~ has_code d code_guess)
  /\ (forall code_guess row,
         hd_error (Py.split reply) = Some code_guess ->
         (resolved = inr row
          <-> fetch_damage_type_code st env language (Some code_guess) None
                model = inr row)).
Proof.
  intros Hcode Hdesc Hi Hk reply resolved.
  assert (Hguess : resolved
                   = match Py.split reply with
                     | [] => Py.raise Py.IndexError
                     | code_guess :: _ => resolve_guess st language code_guess
                     end)
    by (apply free_text_guess; assumption).
  assert (Hclean : forall g, hd_error (Py.split reply) = Some g ->
                             g <> ""%string /\ no_space g = true).
  { intros g Hg. apply (split_from_clean reply ""%string g); [reflexivity |].
    fold (Py.split reply). destruct (Py.split reply); [discriminate |].
    injection Hg as <-. left. reflexivity. }
  split.
  - intros g Hraise. rewrite Hguess in Hraise.
    destruct (Py.split reply) as [| g' rest] eqn:Esplit; [discriminate |].
    unfold resolve_guess in Hraise.
    destruct (select_damage_type_first st language g')
      as [[Hnone Hall] | (d & _ & _ & Hsome)].
    + rewrite Hnone in Hraise. injection Hraise as ->.
      destruct (Hclean g eq_refl) as [Hne Hns].
      repeat split; assumption.
    + rewrite Hsome in Hraise. discriminate.
  - intros g row Hg. destruct (Hclean g Hg) as [Hne _].
    rewrite (explicit_path st env language g None model Hne), Hguess.
    destruct (Py.split reply) as [| g' rest]; [discriminate |].
    injection Hg as ->. unfold resolve_guess.
    destruct (Sql.fetchone _); split; intros H; solve [exact H | discriminate].
Qed.

Lemma code_guess_resolved_like_explicit_code_witness :
  fetch_damage_type_code store_demo
    (env_replying "UNKNOWN_GENERAL.") nl None (Some "leak"%string)
    "gpt-4o-mini"
  = Py.raise (Py.ValueError (Py.ModelReturnedUnknownCode "UNKNOWN_GENERAL."))
  /\ (fetch_damage_type_code store_demo (env_replying "UNKNOWN_GENERAL ")
        nl None (Some "leak"%string) "gpt-4o-mini"
      = inr (1%Z, "ONBEKEND_ALGEMEEN"%string)
      <-> fetch_damage_type_code store_demo (env_replying "UNKNOWN_GENERAL ")
            nl (Some "UNKNOWN_GENERAL"%string) None "gpt-4o-mini"
          = inr (1%Z, "ONBEKEND_ALGEMEEN"%string)).
Proof.
  split; [reflexivity |].
  apply (proj2 (code_guess_resolved_like_explicit_code store_demo
                  (env_replying "UNKNOWN_GENERAL ") nl None "leak"
                  "gpt-4o-mini" eq_refl ltac:(discriminate) eq_refl eq_refl)
               "UNKNOWN_GENERAL"%string (1%Z, "ONBEKEND_ALGEMEEN"%string)).
  reflexivity.
Defined.

(** ** The whole run *)

Lemma fetch_damage_type_code_success (st : Store) (env : Env)
    (language : Lang) (damage_code description : option string)
    (model : string) (damage_type_id : Z) (code_used : string) :
  fetch_damage_type_code st env language damage_code description model
  = inr (damage_type_id, code_used) ->
  exists d,
    In d (tDamageType st)
    /\ DamageType.damage_type_id d = damage_type_id
    /\ code_used = Sql.by_language language (DamageType.code_en d)
                                            (DamageType.code_nl d).
Proof.
  assert (Hrow : forall code,
             Sql.fetchone (select_damage_type st language code)
             = Some (damage_type_id, code_used) ->
             exists d,
               In d (tDamageType st)
               /\ DamageType.damage_type_id d = damage_type_id
               /\ code_used = Sql.by_language language (DamageType.code_en d)
                                                       (DamageType.code_nl d)).
  { intros code Hsome.
    destruct (select_damage_type_first st language code)
      as [[Hnone _] | (d & Hin & _ & Hd)]; [congruence |].
    rewrite Hd in Hsome. injection Hsome as <- <-.
    exists d. repeat split. exact Hin. }
  destruct (Py.truthy damage_code) eqn:Ecode.
  - destruct damage_code as [[| c0 code] |]; try discriminate Ecode.
    rewrite explicit_path by discriminate.
    destruct (Sql.fetchone _) as [row |] eqn:E; [| discriminate].
    intros [= ->]. exact (Hrow _ E).
  - rewrite (setup_error_raised st env language damage_code description
               model Ecode).
    destruct (Py.truthy description) eqn:Edesc; cbn [negb]; [| discriminate].
    destruct (openai_installed env) eqn:Ei; cbn [negb]; [| discriminate].
    destruct (Py.truthy (OPENAI_API_KEY env)) eqn:Ek; cbn [negb];
      [| discriminate].
    destruct description as [[| d0 d] |]; try discriminate Edesc.
    rewrite free_text_guess by (assumption || discriminate).
    destruct (Py.split _) as [| g rest]; [discriminate |].
    unfold resolve_guess.
    destruct (Sql.fetchone _) as [row |] eqn:E; [| discriminate].
    intros [= ->]. exact (Hrow _ E).
Qed.

Lemma resolve_price_book_id_success (st : Store) (damage_type_id : Z)
    (language : Lang) (damage_code : string) (price_year : option Z)
    (price_book_id year : Z) :
  resolve_price_book_id st damage_type_id language damage_code price_year
  = inr (price_book_id, year) ->
  (forall y, price_year = Some y -> year = y)
  /\ exists p,
      In p (tPriceBookVersion st)
      /\ PriceBookVersion.year_label p = year
      /\ PriceBookVersion.price_book_id p = price_book_id.
Proof.
  assert (Hversion : forall y,
             Sql.fetchone (select_price_book st y) = Some price_book_id ->
             exists p,
               In p (tPriceBookVersion st)
               /\ PriceBookVersion.year_label p = y
               /\ PriceBookVersion.price_book_id p = price_book_id).
  { intros y Hsome. unfold Sql.fetchone in Hsome.
    destruct (select_price_book st y) as [| pb rest] eqn:E; [discriminate |].
    injection Hsome as ->.
    assert (Hin : In price_book_id (select_price_book st y))
      by (rewrite E; left; reflexivity).
    unfold select_price_book in Hin.
    apply in_map_iff in Hin as (p & Hpb & Hp).
    apply filter_In in Hp as [Hp Hyear]. apply Z.eqb_eq in Hyear.
    exists p. repeat split; assumption. }
  unfold resolve_price_book_id, Py.bind.
  destruct price_year as [y0 |]; cbn.
  - destruct (Sql.fetchone _) eqn:E; [| discriminate].
    intros [= -> <-]. split; [intros y [= ->]; reflexivity |].
    exact (Hversion _ E).
  - destruct (select_max_year st language damage_code) as [m |]; cbn;
      [| discriminate].
    destruct (Sql.fetchone _) eqn:E; [| discriminate].
    intros [= -> <-]. split; [discriminate |]. exact (Hversion _ E).
Qed.

(** A successful report hangs together: it repeats the language, size and
    unit of the command line and the explicit year when one was given; its
    year is the label of a price book version; its code is the code, in
    the chosen language, of a damage type of the store; its severity band
    is a band of that same damage type; and its base size is the size times
    the conversion factor of a unit with the given symbol. *)
Theorem report_reflects_resolved_inputs (st : Store) (env : Env)
    (args : Args.t) (report : Report.t) :
  main st env args = inr report ->
  Report.language report = Args.language args
  /\ Report.size report = Args.size args
  /\ Report.unit report = Args.unit args
  /\ (forall y, Args.price_year args = Some y -> Report.price_year report = y)
  /\ (exists p, In p (tPriceBookVersion st)
                /\ PriceBookVersion.year_label p = Report.price_year report)
  /\ exists d sb u,
      In d (tDamageType st)
      /\ Report.code_used report
         = Sql.by_language (Args.language args) (DamageType.code_en d)
                           (DamageType.code_nl d)
      /\ In sb (tSeverityBand st)
      /\ SeverityBand.damage_type_id sb = DamageType.damage_type_id d
      /\ BandInfo.severity_band_id (Report.band_info report)
         = SeverityBand.severity_band_id sb
      /\ In u (tUnit st)
      /\ Unit.symbol u = Args.unit args
      /\ Report.size_in_base report
         = Args.size args * Unit.conversion_to_base u.
Proof.
  intros Hmain.
  destruct (main_success st env args report Hmain)
    as (dt & code & pb & year & sb & info & s & Hfetch & Hresolve & Hpick
        & _ & ->).
  cbn.
  destruct (fetch_damage_type_code_success _ _ _ _ _ _ _ _ Hfetch)
    as (d & Hd & Hid & Hcode).
  destruct (resolve_price_book_id_success _ _ _ _ _ _ _ Hresolve)
    as (Hyear & p & Hp & Hlabel & _).
  destruct (pick_severity_band_success _ _ _ _ _ _ _ Hpick)
    as ((u & Hu & Hsym & Hsize) & _ & band & u' & Hband & _ & Hdt & _ & ->).
  do 3 (split; [reflexivity |]). split; [exact Hyear |].
  split; [exists p; split; assumption |].
  exists d, band, u. cbn.
  repeat split; try assumption. congruence.
Qed.

Lemma report_reflects_resolved_inputs_witness :
  exists report,
    main store_demo env_without_openai
      (args_code "ONBEKEND_ALGEMEEN" 3 (Some 2023%Z)) = inr report
    /\ Report.language report = en
    /\ Report.code_used report = "UNKNOWN_GENERAL"%string
    /\ Report.price_year report = 2023%Z.
Proof.
  destruct (main store_demo env_without_openai
              (args_code "ONBEKEND_ALGEMEEN" 3 (Some 2023%Z)))
    as [e | report] eqn:E.
  - vm_compute in E. discriminate E.
  - exists report. split; [reflexivity |].
    destruct (report_reflects_resolved_inputs store_demo env_without_openai
                (args_code "ONBEKEND_ALGEMEEN" 3 (Some 2023%Z)) report E)
      as (Hlang & _ & _ & Hyear & _ & d & _ & _ & Hd & Hcode & _).
    split; [exact Hlang |]. split; [| exact (Hyear 2023%Z eq_refl)].
    destruct Hd as [<- | []]. exact Hcode.
Defined.

(** With an explicit code the whole run is independent of the classifier:
    neither the openai package, the API key, the model's replies, the
    description nor the model name changes the report or the error. *)
Theorem run_with_explicit_code_ignores_classifier (st : Store)
    (env env' : Env) (args args' : Args.t) :
  Py.truthy (Args.damage_code args) = true ->
  Args.language args' = Args.language args ->
  Args.damage_code args' = Args.damage_code args ->
  Args.size args' = Args.size args ->
  Args.unit args' = Args.unit args ->
  Args.price_year args' = Args.price_year args ->
  main st env' args' = main st env args.
Proof.
  intros Hcode Hlang Hdc Hsize Hunit Hyear. unfold main.
  rewrite Hlang, Hdc, Hsize, Hunit, Hyear.
  destruct (Args.damage_code args) as [[| c0 code] |];
    try discriminate Hcode.
  rewrite !(explicit_path st _ (Args.language args) (String c0 code))
    by discriminate.
  reflexivity.
Qed.

Lemma run_with_explicit_code_ignores_classifier_witness :
  main store_demo (env_replying "A2")
    (Args.Build en (Some "UNKNOWN_GENERAL"%string) (Some "leak"%string) 3
       "m2" None "gpt-4")
  = main store_demo env_without_openai (args_code "UNKNOWN_GENERAL" 3 None).
Proof.
  apply run_with_explicit_code_ignores_classifier; reflexivity.
Defined.

(** ** Order of the cost lines *)

Section OrderBy.

Context {A : Type} (le : A -> A -> bool).

Hypothesis le_total : forall a b, le a b = true \/ le b a = true.

Lemma insert_by_HdRel (y x : A) (l : list A) :
  HdRel (fun a b => le a b = true) y l -> le y x = true ->
  HdRel (fun a b => le a b = true) y (Sql.insert_by le x l).
Proof.
  intros Hhd Hyx. destruct l as [| z l]; cbn.
  - constructor. exact Hyx.
  - destruct (le x z); constructor; [exact Hyx |].
    inversion Hhd; assumption.
Qed.

Lemma insert_by_sorted (x : A) (l : list A) :
  Sorted (fun a b => le a b = true) l ->
  Sorted (fun a b => le a b = true) (Sql.insert_by le x l).
Proof.
  induction l as [| y l IH]; cbn; intros Hsorted.
  - constructor; constructor.
  - destruct (le x y) eqn:E.
    + constructor; [exact Hsorted | constructor; exact E].
    + inversion Hsorted as [| ? ? Hl Hhd]; subst.
      constructor; [exact (IH Hl) |].
      apply insert_by_HdRel; [exact Hhd |].
      destruct (le_total y x) as [H | H]; [exact H | congruence].
Qed.

(** ORDER BY with a total "less or equal" returns sorted rows. *)
Lemma order_by_sorted (l : list A) :
  Sorted (fun a b => le a b = true) (Sql.order_by le l).
Proof.
  induction l as [| x l IH]; cbn; [constructor |].
  apply insert_by_sorted. exact IH.
Qed.

End OrderBy.

Lemma cost_row_le_total (r1 r2 : CostRow.t) :
  cost_row_le r1 r2 = true \/ cost_row_le r2 r1 = true.
Proof.
  unfold cost_row_le, Sql.str_leb.
  destruct (Z.lt_trichotomy (CostRow.sequence_order r1)
              (CostRow.sequence_order r2)) as [Hlt | [Heq | Hgt]].
  - left. apply Z.ltb_lt in Hlt. rewrite Hlt. reflexivity.
  - rewrite Heq, Z.ltb_irrefl, Z.eqb_refl. cbn.
    apply String.leb_total.
  - right. apply Z.ltb_lt in Hgt. rewrite Hgt. reflexivity.
Qed.

Lemma cost_row_le_line_le (size_in_base : Q) (r1 r2 : CostRow.t)
    (e1 e2 : EstimateLine.t) :
  estimate_costs [r1] size_in_base = [e1] ->
  estimate_costs [r2] size_in_base = [e2] ->
  cost_row_le r1 r2 = true -> line_le e1 e2.
Proof.
  cbn. intros [= <-] [= <-]. unfold cost_row_le, line_le. cbn.
  intros H. apply orb_true_iff in H as [H | H].
  - left. apply Z.ltb_lt. exact H.
  - right. apply andb_true_iff in H as [Hseq Hcode].
    apply Z.eqb_eq in Hseq. split; assumption.
Qed.

Lemma estimate_costs_sorted (rows : list CostRow.t) (size_in_base : Q) :
  Sorted (fun r1 r2 => cost_row_le r1 r2 = true) rows ->
  Sorted line_le (estimate_costs rows size_in_base).
Proof.
  induction rows as [| r rows IH]; intros Hsorted; [constructor |].
  inversion Hsorted as [| ? ? Hrows Hhd]; subst.
  change (estimate_costs (r :: rows) size_in_base)
    with (estimate_costs [r] size_in_base
          ++ estimate_costs rows size_in_base).
  cbn [estimate_costs map app]. constructor; [exact (IH Hrows) |].
  destruct rows as [| r' rows']; [constructor |].
  cbn [estimate_costs map]. constructor.
  inversion Hhd as [| ? ? Hle]; subst.
  eapply cost_row_le_line_le; [reflexivity | reflexivity | exact Hle].
Qed.

Lemma line_le_sequence_order (e1 e2 : EstimateLine.t) :
  line_le e1 e2 ->
  (EstimateLine.sequence_order e1 <= EstimateLine.sequence_order e2)%Z.
Proof.
  intros [H | [H _]]; lia.
Qed.

Lemma sorted_sequence_orders (lines : list EstimateLine.t) :
  Sorted line_le lines ->
  StronglySorted Z.le (map EstimateLine.sequence_order lines).
Proof.
  intros Hsorted. apply Sorted_StronglySorted.
  - intros x y z. apply Z.le_trans.
  - induction Hsorted as [| e l _ IH Hhd]; cbn; constructor; [exact IH |].
    destruct Hhd as [| e' l' Hle]; cbn; constructor.
    apply line_le_sequence_order. exact Hle.
Qed.

(** The cost lines come out in the order of the query, by sequence order
    and then by activity code, from the calculator and in the report of a
    successful run: sequence orders never decrease along the lines. *)
Theorem lines_ordered_by_sequence_then_code :
  (forall (st : Store) (damage_type_id price_book_id severity_band_id : Z)
          (language : Lang) (size_in_base : Q),
      Sorted line_le
        (estimate_costs
           (fetch_cost_rows st damage_type_id price_book_id severity_band_id
              language) size_in_base))
  /\ (forall (st : Store) (env : Env) (args : Args.t) (report : Report.t),
         main st env args = inr report ->
         Sorted line_le (Report.lines report)
         /\ StronglySorted Z.le
              (map EstimateLine.sequence_order (Report.lines report))).
Proof.
  assert (Hcalc : forall st dt pb sb language s,
             Sorted line_le
               (estimate_costs (fetch_cost_rows st dt pb sb language) s)).
  { intros. apply estimate_costs_sorted. unfold fetch_cost_rows.
    apply order_by_sorted. exact cost_row_le_total. }
  split; [exact Hcalc |].
  intros st env args report Hmain.
  destruct (main_success st env args report Hmain)
    as (dt & code & pb & year & sb & info & s & _ & _ & _ & _ & ->).
  cbn. split; [apply Hcalc |]. apply sorted_sequence_orders. apply Hcalc.
Qed.

Lemma lines_ordered_by_sequence_then_code_witness :
  exists report,
    main store_demo env_without_openai (args_code "UNKNOWN_GENERAL" 3 None)
    = inr report
    /\ Sorted line_le (Report.lines report)
    /\ StronglySorted Z.le
         (map EstimateLine.sequence_order (Report.lines report)).
Proof.
  destruct (main store_demo env_without_openai
              (args_code "UNKNOWN_GENERAL" 3 None)) as [e | report] eqn:E.
  - vm_compute in E. discriminate E.
  - exists report. split; [reflexivity |].
    exact (proj2 lines_ordered_by_sequence_then_code store_demo
             env_without_openai (args_code "UNKNOWN_GENERAL" 3 None)
             report E).
Defined.

(** ** Bounds on the estimates *)




Lemma spec_estimate_nonneg (unit_cost cost_min cost_max : option Q) (s : Q) :
  0 <= s -> nonneg_opt unit_cost -> nonneg_opt cost_min ->
  nonneg_opt cost_max ->
  nonneg_opt (spec_estimate unit_cost cost_min cost_max s).
Proof.
  intros Hs Hu Hlo Hhi.
  destruct unit_cost as [c |], cost_min as [lo |], cost_max as [hi |];
    cbn in *; try exact I; try assumption;
    try (apply Qmult_le_0_compat; assumption).
  rewrite Qhalf. lra.
Qed.

Lemma sum_or_zero_nonneg (xs : list (option Q)) :
  Forall nonneg_opt xs -> 0 <= sum_or_zero xs.
Proof.
  induction 1 as [| x xs Hx _ IH]; cbn; [apply Qle_refl |].
  destruct x as [v |]; cbn in Hx; lra.
Qed.

Lemma estimate_costs_nonneg (rows : list CostRow.t) (size_in_base : Q) :
  0 <= size_in_base -> Forall nonneg_costs rows ->
  Forall (fun e => nonneg_opt (EstimateLine.estimated_labor e)
                   /\ nonneg_opt (EstimateLine.estimated_material e))
         (estimate_costs rows size_in_base).
Proof.
  intros Hs Hrows.
  pose proof (estimate_costs_line_of_row rows size_in_base) as Hlines.
  induction Hlines as [| r e rows lines (_ & Hl & Hm) _ IH]; constructor.
  - inversion Hrows as [| ? ? (H1 & H2 & H3 & H4 & H5 & H6) _]; subst.
    rewrite Hl, Hm. split; apply spec_estimate_nonneg; assumption.
  - apply IH. inversion Hrows; assumption.
Qed.

(** For a non-negative size and cost rows whose present costs are all
    non-negative, no estimate is negative and neither total is. *)
Theorem nonnegative_costs_give_nonnegative_totals (rows : list CostRow.t)
    (size_in_base : Q) :
  0 <= size_in_base ->
  Forall nonneg_costs rows ->
  let estimates := estimate_costs rows size_in_base in
  Forall (fun e => nonneg_opt (EstimateLine.estimated_labor e)
                   /\ nonneg_opt (EstimateLine.estimated_material e))
         estimates
  /\ 0 <= total_labor estimates
  /\ 0 <= total_material estimates
  /\ 0 <= total_labor estimates + total_material estimates.
Proof.
  intros Hs Hrows estimates.
  pose proof (estimate_costs_nonneg rows size_in_base Hs Hrows) as Hnonneg.
  fold estimates in Hnonneg.
  assert (Hlabor : 0 <= total_labor estimates).
  { unfold total_labor, Py.sum. rewrite sum_or0_from.
    rewrite Qplus_0_l. apply sum_or_zero_nonneg.
    apply Forall_map. revert Hnonneg. apply Forall_impl. intros e [H _].
    exact H. }
  assert (Hmaterial : 0 <= total_material estimates).
  { unfold total_material, Py.sum. rewrite sum_or0_from.
    rewrite Qplus_0_l. apply sum_or_zero_nonneg.
    apply Forall_map. revert Hnonneg. apply Forall_impl. intros e [_ H].
    exact H. }
  split; [exact Hnonneg |]. split; [exact Hlabor |].
  split; [exact Hmaterial | lra].
Qed.

Lemma nonnegative_costs_give_nonnegative_totals_witness :
  let estimates :=
    estimate_costs (fetch_cost_rows store_demo 1 11 1 en) 3 in
  Forall (fun e => nonneg_opt (EstimateLine.estimated_labor e)
                   /\ nonneg_opt (EstimateLine.estimated_material e))
         estimates
  /\ 0 <= total_labor estimates
  /\ 0 <= total_material estimates
  /\ 0 <= total_labor estimates + total_material estimates.
Proof.
  apply (nonnegative_costs_give_nonnegative_totals
           (fetch_cost_rows store_demo 1 11 1 en) 3).
  - vm_compute. discriminate.
  - repeat constructor; vm_compute; discriminate.
Defined.

(** ** The connection string *)

Section ConnectionString.

Local Open Scope string_scope.

Lemma plain_app (x y : string) :
  plain x = true -> plain y = true -> plain (x ++ y) = true.
Proof.
  induction x as [| c x IH]; cbn; intros Hx Hy; [exact Hy |].
  apply andb_true_iff in Hx as [Hc Hx]. rewrite Hc. cbn. auto.
Qed.

Lemma fields_nonempty (s : string) : fields s <> [].
Proof.
  destruct s as [| c s]; cbn; [discriminate |].
  destruct (Ascii.eqb c ";"); [discriminate |].
  destruct (fields s); discriminate.
Qed.

Lemma fields_plain (p : string) : plain p = true -> fields p = [p].
Proof.
  induction p as [| c p IH]; cbn; intros H; [reflexivity |].
  apply andb_true_iff in H as [Hc Hp]. apply negb_true_iff in Hc.
  rewrite Hc, (IH Hp). reflexivity.
Qed.

Lemma fields_plain_then (p rest : string) :
  plain p = true -> fields (p ++ ";" ++ rest) = p :: fields rest.
Proof.
  induction p as [| c p IH]; cbn; intros H; [reflexivity |].
  apply andb_true_iff in H as [Hc Hp]. apply negb_true_iff in Hc.
  rewrite Hc. cbn in IH. rewrite (IH Hp). reflexivity.
Qed.

(** Joining with semicolons and reading the fields back is the identity on
    non-empty lists of strings without semicolon. *)
Lemma fields_join (parts : list string) :
  parts <> [] -> Forall (fun p => plain p = true) parts ->
  fields (join ";" parts) = parts.
Proof.
  induction parts as [| p parts IH]; [congruence |]. intros _ Hplain.
  inversion Hplain as [| ? ? Hp Hrest]; subst.
  destruct parts as [| q parts]; [apply fields_plain; exact Hp |].
  change (join ";" (p :: q :: parts))
    with (p ++ ";" ++ join ";" (q :: parts)).
  rewrite (fields_plain_then _ _ Hp), IH; [reflexivity | discriminate |].
  exact Hrest.
Qed.

End ConnectionString.

(** The connection string reads back field by field when the values put in
    it hold no semicolon: with a user name, driver, server, database and
    certificate option are followed by UID and PWD (the password given, or
    else the one typed at the prompt) and there is no trusted-connection
    field; without a user name they are followed by the trusted-connection
    field alone, and neither the password nor the prompt is used. *)
Theorem connection_string_reads_back (getpass : string -> string)
    (args : ConnArgs.t) :
  plain (ConnArgs.server args) = true ->
  plain (ConnArgs.database args) = true ->
  (forall username,
      ConnArgs.username args = Some username -> username <> ""%string ->
      let password :=
        if Py.truthy (ConnArgs.password args)
        then match ConnArgs.password args with
             | Some p => p
             | None => ""%string
             end
        else getpass "SQL Password: "%string in
      plain username = true -> plain password = true ->
      fields (build_connection_string getpass args)
      = ["DRIVER={ODBC Driver 17 for SQL Server}";
         "SERVER=" ++ ConnArgs.server args;
         "DATABASE=" ++ ConnArgs.database args;
         "TrustServerCertificate=yes";
         "UID=" ++ username; "PWD=" ++ password]%string)
  /\ (Py.truthy (ConnArgs.username args) = false ->
      fields (build_connection_string getpass args)
      = ["DRIVER={ODBC Driver 17 for SQL Server}";
         "SERVER=" ++ ConnArgs.server args;
         "DATABASE=" ++ ConnArgs.database args;
         "TrustServerCertificate=yes";
         "Trusted_Connection=yes"]%string).
Proof.
  intros Hserver Hdatabase.
  assert (Hs : plain ("SERVER=" ++ ConnArgs.server args) = true)
    by (apply plain_app; [reflexivity | exact Hserver]).
  assert (Hd : plain ("DATABASE=" ++ ConnArgs.database args) = true)
    by (apply plain_app; [reflexivity | exact Hdatabase]).
  split.
  - intros username Hname Hne password Huser Hpass.
    unfold build_connection_string. rewrite Hname.
    destruct username as [| c0 username]; [congruence |].
    assert (Epass : match ConnArgs.password args with
                    | Some (String _ _ as p) => p
                    | _ => getpass "SQL Password: "%string
                    end = password).
    { subst password.
      destruct (ConnArgs.password args) as [[| p0 p] |]; reflexivity. }
    rewrite Epass. apply fields_join; [discriminate |].
    repeat constructor; try assumption;
      apply plain_app; (reflexivity || assumption).
  - intros Hname. unfold build_connection_string.
    destruct (ConnArgs.username args) as [[| c0 username] |];
      try discriminate Hname;
      (apply fields_join; [discriminate | repeat constructor; assumption]).
Qed.

Lemma connection_string_reads_back_witness :
  fields (build_connection_string (fun _ => "typed"%string)
            (ConnArgs.Build "BELKLXX15503\Karlosserver" "Kodi"
               (Some "sa"%string) None))
  = ["DRIVER={ODBC Driver 17 for SQL Server}";
     "SERVER=BELKLXX15503\Karlosserver"; "DATABASE=Kodi";
     "TrustServerCertificate=yes"; "UID=sa"; "PWD=typed"]%string
  /\ fields (build_connection_string (fun _ => "typed"%string)
               (ConnArgs.Build "BELKLXX15503\Karlosserver" "Kodi" None
                  (Some "unused"%string)))
     = ["DRIVER={ODBC Driver 17 for SQL Server}";
        "SERVER=BELKLXX15503\Karlosserver"; "DATABASE=Kodi";
        "TrustServerCertificate=yes"; "Trusted_Connection=yes"]%string.
Proof.
  split.
  - apply (proj1 (connection_string_reads_back (fun _ => "typed"%string)
                    (ConnArgs.Build "BELKLXX15503\Karlosserver" "Kodi"
                       (Some "sa"%string) None) eq_refl eq_refl)
                 "sa"%string eq_refl);
      solve [discriminate | reflexivity].
  - apply (proj2 (connection_string_reads_back (fun _ => "typed"%string)
                    (ConnArgs.Build "BELKLXX15503\Karlosserver" "Kodi" None
                       (Some "unused"%string)) eq_refl eq_refl)).
    reflexivity.
Defined.

(** ** Rows the joins leave out *)

(** The band query joins each band with its unit, so a band whose unit is
    missing from the unit table is not seen: when no band of the damage
    type has its unit in the table the matcher fails with "No severity
    bands", although bands are stored. *)
Theorem bands_without_unit_are_not_seen (st : Store) (damage_type_id : Z)
    (size_value : Q) (unit_symbol : string) (u : Unit.t) :
  Sql.fetchone (select_unit st unit_symbol) = Some u ->
  (forall sb u',
      In sb (tSeverityBand st) ->
      SeverityBand.damage_type_id sb = damage_type_id ->
      In u' (tUnit st) ->
      Unit.unit_id u' <> SeverityBand.unit_id sb) ->
  pick_severity_band st damage_type_id size_value unit_symbol
  = Py.raise (Py.ValueError Py.NoSeverityBands).
Proof.
  intros Hu Hmissing. unfold pick_severity_band. rewrite Hu.
  destruct (select_bands st damage_type_id) as [| b bs] eqn:E;
    [reflexivity |].
  exfalso.
  assert (Hb : In b (select_bands st damage_type_id))
    by (rewrite E; left; reflexivity).
  destruct (select_bands_row_of_band st damage_type_id b Hb)
    as (sb & u' & Hsb & Hu' & Hdt & Hid & _).
  exact (Hmissing sb u' Hsb Hdt Hu' Hid).
Qed.

Lemma bands_without_unit_are_not_seen_witness :
  pick_severity_band store_band_without_unit 1 3 "m2"
  = Py.raise (Py.ValueError Py.NoSeverityBands).
Proof.
  apply (bands_without_unit_are_not_seen store_band_without_unit 1 3 "m2"
           unit_m2).
  - reflexivity.
  - intros sb u' [<- | []] _ [<- | []]. discriminate.
Defined.

Lemma estimate_costs_row (rows : list CostRow.t) (size_in_base : Q)
    (e : EstimateLine.t) :
  In e (estimate_costs rows size_in_base) ->
  exists r,
    In r rows
    /\ EstimateLine.activity_code e = CostRow.activity_code r
    /\ EstimateLine.labor_unit_cost e = CostRow.labor_unit_cost r
    /\ EstimateLine.labor_cost_min e = CostRow.labor_cost_min r
    /\ EstimateLine.labor_cost_max e = CostRow.labor_cost_max r
    /\ EstimateLine.material_unit_cost e = CostRow.material_unit_cost r
    /\ EstimateLine.material_cost_min e = CostRow.material_cost_min r
    /\ EstimateLine.material_cost_max e = CostRow.material_cost_max r.
Proof.
  unfold estimate_costs. intros He.
  apply in_map_iff in He as (r & <- & Hr). exists r. cbn.
  repeat split. exact Hr.
Qed.

(** Every line of a successful report shows the costs of a stored cost row
    that belongs to a price book version of the reported year, to the
    reported severity band or to no band, and to an activity listed for
    the damage type whose code is reported. *)
Theorem report_lines_come_from_reported_year_and_band (st : Store)
    (env : Env) (args : Args.t) (report : Report.t) (e : EstimateLine.t) :
  main st env args = inr report ->
  In e (Report.lines report) ->
  exists ac p dta d,
    In ac (tActivityCost st) /\ costs_of e ac
    /\ In p (tPriceBookVersion st)
    /\ PriceBookVersion.price_book_id p = ActivityCost.price_book_id ac
    /\ PriceBookVersion.year_label p = Report.price_year report
    /\ (ActivityCost.severity_band_id ac = None
        \/ ActivityCost.severity_band_id ac
           = Some (BandInfo.severity_band_id (Report.band_info report)))
    /\ In dta (tDamageTypeActivity st)
    /\ DamageTypeActivity.activity_id dta = ActivityCost.activity_id ac
    /\ In d (tDamageType st)
    /\ DamageTypeActivity.damage_type_id dta = DamageType.damage_type_id d
    /\ Report.code_used report
       = Sql.by_language (Args.language args) (DamageType.code_en d)
                         (DamageType.code_nl d).
Proof.
  intros Hmain He.
  destruct (main_success st env args report Hmain)
    as (dt & code & pb & year & sb & info & s & Hfetch & Hresolve & Hpick
        & _ & ->).
  cbn in He |- *.
  destruct (fetch_damage_type_code_success _ _ _ _ _ _ _ _ Hfetch)
    as (d & Hd & Hid & Hcode).
  destruct (resolve_price_book_id_success _ _ _ _ _ _ _ Hresolve)
    as (_ & p & Hp & Hlabel & Hpb).
  destruct (pick_severity_band_success _ _ _ _ _ _ _ Hpick)
    as (_ & Hsb & _).
  destruct (estimate_costs_row _ _ _ He)
    as (r & Hr & _ & H1 & H2 & H3 & H4 & H5 & H6).
  unfold fetch_cost_rows in Hr.
  apply (Permutation_in _ (order_by_perm cost_row_le _)) in Hr.
  apply in_flat_map in Hr as (dta & Hdta & Hr).
  apply filter_In in Hdta as [Hdta Hdt]. apply Z.eqb_eq in Hdt.
  destruct (joined_rows_origin _ _ _ _ _ _ Hr)
    as (_ & ac & Hac & G1 & G2 & G3 & G4 & G5 & G6).
  unfold applicable_costs in Hac.
  apply filter_In in Hac as [Hac Happlies].
  unfold cost_applies in Happlies.
  apply andb_true_iff in Happlies as [Happlies Hband].
  apply andb_true_iff in Happlies as [Hact Hbook].
  apply Z.eqb_eq in Hact, Hbook.
  exists ac, p, dta, d.
  split; [exact Hac |]. split; [unfold costs_of; repeat split; congruence |].
  split; [exact Hp |]. split; [congruence |]. split; [exact Hlabel |].
  split.
  - destruct (ActivityCost.severity_band_id ac) as [b |];
      [right | left; reflexivity].
    apply Z.eqb_eq in Hband. congruence.
  - split; [exact Hdta |]. split; [congruence |]. split; [exact Hd |].
    split; [congruence | exact Hcode].
Qed.

Lemma report_lines_come_from_reported_year_and_band_witness :
  exists report e,
    main store_demo env_without_openai (args_code "UNKNOWN_GENERAL" 3 None)
    = inr report
    /\ In e (Report.lines report)
    /\ exists ac, In ac (tActivityCost store_demo) /\ costs_of e ac.
Proof.
  destruct (main store_demo env_without_openai
              (args_code "UNKNOWN_GENERAL" 3 None)) as [x | report] eqn:E.
  - vm_compute in E. discriminate E.
  - destruct (Report.lines report) as [| e lines] eqn:El.
    + vm_compute in E. injection E as <-. discriminate El.
    + exists report, e. split; [reflexivity |].
      assert (He : In e (Report.lines report))
        by (rewrite El; left; reflexivity).
      split; [exact He |].
      destruct (report_lines_come_from_reported_year_and_band store_demo
                  env_without_openai (args_code "UNKNOWN_GENERAL" 3 None)
                  report e E He) as (ac & _ & _ & _ & Hac & Hcosts & _).
      exists ac. split; assumption.
Defined.

(** ** main.py: driver choice and identifiers *)

Section MainPyFacts.

Local Open Scope string_scope.

Lemma installed_has_In (drivers : list string) (driver : string) :
  MainPy.installed_has drivers driver = true <-> In driver drivers.
Proof.
  unfold MainPy.installed_has. rewrite existsb_exists. split.
  - intros (x & Hx & E). apply String.eqb_eq in E. subst. exact Hx.
  - intros H. exists driver. split; [exact H | apply String.eqb_refl].
Qed.

Lemma first_installed_spec (drivers candidates : list string) :
  match MainPy.first_installed drivers candidates with
  | inr driver =>
      In driver drivers
      /\ exists before after,
          candidates = (before ++ driver :: after)%list
          /\ forall x, In x before -> ~ In x drivers
  | inl MainPy.RuntimeError => forall x, In x candidates -> ~ In x drivers
  end.
Proof.
  induction candidates as [| c rest IH]; cbn; [intros x [] |].
  destruct (MainPy.installed_has drivers c) eqn:E.
  - apply installed_has_In in E. split; [exact E |].
    exists [], rest. split; [reflexivity | intros x []].
  - assert (Hc : ~ In c drivers).
    { intros H. apply installed_has_In in H. congruence. }
    destruct (MainPy.first_installed drivers rest) as [[] | d].
    + intros x [<- | Hx]; [exact Hc | exact (IH x Hx)].
    + destruct IH as (Hd & before & after & -> & Hbefore).
      split; [exact Hd |]. exists (c :: before), after.
      split; [reflexivity |]. intros x [<- | Hx]; [exact Hc | auto].
Qed.

(** [choose_driver] returns an installed driver of the preference list, the
    earliest of the list that is installed, and raises [RuntimeError]
    exactly when none of the three preferred drivers is installed. *)
Theorem choose_driver_earliest_installed (drivers : list string) :
  (forall driver,
      MainPy.choose_driver drivers = inr driver ->
      In driver drivers
      /\ exists before after,
          MainPy.preferred = (before ++ driver :: after)%list
          /\ forall x, In x before -> ~ In x drivers)
  /\ (MainPy.choose_driver drivers = inl MainPy.RuntimeError
      <-> forall x, In x MainPy.preferred -> ~ In x drivers).
Proof.
  unfold MainPy.choose_driver.
  pose proof (first_installed_spec drivers MainPy.preferred) as H.
  destruct (MainPy.first_installed drivers MainPy.preferred) as [[] | d].
  - split; [discriminate |]. split; [intros _; exact H | reflexivity].
  - destruct H as (Hd & before & after & Hsplit & Hbefore). split.
    + intros driver [= <-]. split; [exact Hd |].
      exists before, after. split; assumption.
    + split; [discriminate |]. intros Hnone. exfalso.
      apply (Hnone d); [| exact Hd].
      rewrite Hsplit. apply in_or_app. right. left. reflexivity.
Qed.

Lemma choose_driver_earliest_installed_witness :
  MainPy.choose_driver ["SQL Server"; "PostgreSQL Unicode"]
  = inr "SQL Server"
  /\ MainPy.choose_driver ["PostgreSQL Unicode"] = inl MainPy.RuntimeError.
Proof.
  split; [reflexivity |].
  apply (proj2 (choose_driver_earliest_installed ["PostgreSQL Unicode"])).
  intros x [<- | [<- | [<- | []]]] [H | []]; discriminate H.
Defined.

Lemma read_name_doubled (name : string) :
  MainPy.read_name (MainPy.double_brackets name ++ "]") = Some name.
Proof.
  induction name as [| c name IH]; [reflexivity |].
  cbn [MainPy.double_brackets].
  destruct (Ascii.eqb c "]") eqn:E.
  - apply Ascii.eqb_eq in E. subst c.
    cbn [append MainPy.read_name]. rewrite Ascii.eqb_refl.
    cbn. rewrite IH. reflexivity.
  - cbn [append MainPy.read_name]. rewrite E, IH. reflexivity.
Qed.

(** Quoting is safe and lossless for every name: the quoted text reads back
    as one bracketed identifier, the name itself, closing brackets, spaces
    and semicolons of the name included. *)
Theorem quote_identifier_reads_back (name : string) :
  MainPy.read_identifier (MainPy.quote_identifier name) = Some name.
Proof.
  unfold MainPy.quote_identifier. cbn. apply read_name_doubled.
Qed.

Lemma lstrip_by_skip (p : ascii -> bool) (w x : string) :
  MainPy.all_chars p w = true ->
  MainPy.lstrip_by p (w ++ x) = MainPy.lstrip_by p x.
Proof.
  induction w as [| c w IH]; cbn; intros H; [reflexivity |].
  apply andb_true_iff in H as [Hc Hw]. rewrite Hc. auto.
Qed.

Lemma lstrip_by_stop (p : ascii -> bool) (x : string) :
  MainPy.first_is p x = false -> MainPy.lstrip_by p x = x.
Proof.
  destruct x as [| c x]; cbn; [reflexivity |]. intros ->. reflexivity.
Qed.

Lemma all_chars_rev (p : ascii -> bool) (x a : string) :
  MainPy.all_chars p a = true -> MainPy.all_chars p x = true ->
  MainPy.all_chars p (Py.rev_string a x) = true.
Proof.
  revert a. induction x as [| c x IH]; cbn; intros a Ha Hx; [exact Ha |].
  apply andb_true_iff in Hx as [Hc Hx]. apply IH; [| exact Hx].
  cbn. rewrite Hc. exact Ha.
Qed.

Lemma first_is_app (p : ascii -> bool) (x y : string) :
  x <> "" -> MainPy.first_is p (x ++ y) = MainPy.first_is p x.
Proof.
  destruct x; [congruence | reflexivity].
Qed.

Lemma rev_string_not_empty (x : string) :
  x <> "" -> Py.rev_string "" x <> "".
Proof.
  destruct x as [| c x]; [congruence |]. intros _. cbn.
  destruct (rev_string_nonempty x "" c) as (c' & r & E). rewrite E.
  discriminate.
Qed.

(** [strip(chars)] takes off a prefix and a suffix made of [chars] around a
    core that neither starts nor ends with one of them. *)
Lemma strip_by_core (p : ascii -> bool) (pre core post : string) :
  MainPy.all_chars p pre = true -> MainPy.all_chars p post = true ->
  core <> "" ->
  MainPy.first_is p core = false -> MainPy.last_is p core = false ->
  MainPy.strip_by p (pre ++ core ++ post) = core.
Proof.
  intros Hpre Hpost Hne Hfirst Hlast. unfold MainPy.strip_by.
  rewrite (lstrip_by_skip p pre _ Hpre).
  rewrite (lstrip_by_stop p (core ++ post))
    by (rewrite first_is_app; assumption).
  rewrite rev_string_app, (rev_string_acc post (Py.rev_string "" core)).
  rewrite lstrip_by_skip by (apply all_chars_rev; [reflexivity | exact Hpost]).
  rewrite lstrip_by_stop by exact Hlast.
  apply rev_string_involutive.
Qed.

Lemma lstrip_as_lstrip_by (s : string) :
  Py.lstrip s = MainPy.lstrip_by Py.isspace s.
Proof.
  induction s as [| c s IH]; cbn; [reflexivity |].
  rewrite IH. reflexivity.
Qed.

Lemma strip_as_strip_by (s : string) :
  Py.strip s = MainPy.strip_by Py.isspace s.
Proof.
  unfold Py.strip, Py.rstrip, MainPy.strip_by.
  rewrite !lstrip_as_lstrip_by. reflexivity.
Qed.

(** [sanitize_identifier] unwraps a name from the brackets and blanks
    around it, leaving it as it is when it neither starts nor ends with a
    bracket, a blank or whitespace; and a name made of brackets and blanks
    only gives the fallback. *)
Theorem sanitize_identifier_unwraps (pre core post fallback : string) :
  MainPy.all_chars MainPy.bracket_or_blank pre = true ->
  MainPy.all_chars MainPy.bracket_or_blank post = true ->
  (core <> "" ->
   MainPy.first_is MainPy.bracket_or_blank core = false ->
   MainPy.last_is MainPy.bracket_or_blank core = false ->
   MainPy.first_is Py.isspace core = false ->
   MainPy.last_is Py.isspace core = false ->
   MainPy.sanitize_identifier (pre ++ core ++ post) fallback = core)
  /\ MainPy.sanitize_identifier (pre ++ post) fallback = fallback.
Proof.
  intros Hpre Hpost. split.
  - intros Hne Hf Hl Hfs Hls. unfold MainPy.sanitize_identifier.
    rewrite (strip_by_core _ pre core post Hpre Hpost Hne Hf Hl).
    rewrite strip_as_strip_by.
    pose proof (strip_by_core Py.isspace "" core "" eq_refl eq_refl Hne
                  Hfs Hls) as H.
    cbn [append] in H. rewrite append_empty in H. rewrite H.
    destruct core; [congruence | reflexivity].
  - unfold MainPy.sanitize_identifier, MainPy.strip_by.
    rewrite (lstrip_by_skip _ pre post Hpre).
    assert (Hall : forall w, MainPy.all_chars MainPy.bracket_or_blank w = true
                             -> MainPy.lstrip_by MainPy.bracket_or_blank w
                                = "").
    { intros w Hw. rewrite <- (append_empty w).
      rewrite (lstrip_by_skip _ w "" Hw). reflexivity. }
    rewrite (Hall post Hpost). reflexivity.
Qed.

Lemma sanitize_identifier_unwraps_witness :
  MainPy.sanitize_identifier "[ dbo.My Table ]" "dbo" = "dbo.My Table"
  /\ MainPy.sanitize_identifier "[ ]" "dbo" = "dbo".
Proof.
  split.
  - apply (proj1 (sanitize_identifier_unwraps "[ " "dbo.My Table" " ]" "dbo"
                    eq_refl eq_refl));
      solve [discriminate | reflexivity].
  - apply (proj2 (sanitize_identifier_unwraps "[ " "" "]" "dbo"
                    eq_refl eq_refl)).
Defined.

(** Brackets can survive: whitespace other than a blank stops the first
    strip, and the second strip removes that whitespace only. *)
Example sanitize_identifier_keeps_inner_bracket :
  MainPy.sanitize_identifier (String "[" (String "009" "[x]")) "dbo" = "[x".
Proof.
  reflexivity.
Qed.

End MainPyFacts.
